(** * PyrusCrypt: in-place LUKS2 conversion pipeline

    A shallow embedding of the orchestration code of [pyrus.py],
    [Tpyrus.py] and [boot.py]: device inventory, partition-table
    inspection, the shrink planner, the boot-partition creator and the
    reencryption pipeline.

    External programs are not executed: an environment ([env]) decides
    the exit status and the output of every command from the history of
    commands issued so far, and every function of the program threads a
    [state] that records the commands it issued, the text it logged and
    the files it left on disk.

    Text is a Rocq [string], one character per code point; this covers
    the code points below 256. *)

From Stdlib Require Import ZArith String Ascii List DecimalString DecimalPos Lia.
From Stdlib Require Import Floats.SpecFloat.
From stdpp Require Import base gmap strings list sorting.

Open Scope string_scope.
Open Scope list_scope.

(** ** Python text primitives *)

Module Py.

Definition chars : string -> list ascii := list_ascii_of_string.
Definition text : list ascii -> string := string_of_list_ascii.

Definition code (c : ascii) : nat := nat_of_ascii c.

Definition LF : ascii := "010"%char.
Definition CR : ascii := "013"%char.
Definition nl : string := String LF "".

(** [\d] of [re] and the decimal digits of [int()] and [float()]. *)
Definition is_decimal (c : ascii) : bool :=
  (48 <=? code c)%nat && (code c <=? 57)%nat.

(** [str.isdigit] on one character: the decimal digits and the
    superscripts one, two and three. *)
Definition isdigit (c : ascii) : bool :=
  is_decimal c || (code c =? 178)%nat || (code c =? 179)%nat || (code c =? 185)%nat.

(** [str.isspace] on one character. *)
Definition isspace (c : ascii) : bool :=
  ((9 <=? code c)%nat && (code c <=? 13)%nat)
  || ((28 <=? code c)%nat && (code c <=? 32)%nat)
  || (code c =? 133)%nat || (code c =? 160)%nat.

(** Line boundaries of [str.splitlines]. *)
Definition is_linebreak (c : ascii) : bool :=
  ((10 <=? code c)%nat && (code c <=? 13)%nat)
  || ((28 <=? code c)%nat && (code c <=? 30)%nat)
  || (code c =? 133)%nat.

Fixpoint span (p : ascii -> bool) (l : list ascii) : list ascii * list ascii :=
  match l with
  | c :: l' =>
      if p c then let '(a, b) := span p l' in (c :: a, b) else ([], l)
  | [] => ([], [])
  end.

Definition lstrip_with (p : ascii -> bool) (s : string) : string :=
  text (snd (span p (chars s))).

Definition rstrip_with (p : ascii -> bool) (s : string) : string :=
  text (rev (snd (span p (rev (chars s))))).

(** [s.strip()] *)
Definition strip (s : string) : string :=
  lstrip_with isspace (rstrip_with isspace s).

(** [s.rstrip('0123456789')] *)
Definition rstrip_digits (s : string) : string := rstrip_with is_decimal s.

(** [s.lower()] *)
Definition lower_char (c : ascii) : ascii :=
  if ((65 <=? code c)%nat && (code c <=? 90)%nat)
     || ((192 <=? code c)%nat && (code c <=? 222)%nat
         && negb (code c =? 215)%nat)
  then ascii_of_nat (code c + 32) else c.

Definition lower (s : string) : string := text (map lower_char (chars s)).

(** [s.startswith(p)] and [s.endswith(p)] *)
Definition startswith (s p : string) : bool := String.prefix p s.

Definition endswith (s p : string) : bool :=
  String.prefix (String.rev p) (String.rev s).

(** [s[:-3]] *)
Definition drop_last3 (s : string) : string :=
  text (rev (drop 3 (rev (chars s)))).

(** [s.split(sep)] for a separator of one character. *)
Fixpoint split (sep : ascii) (s : string) : list string :=
  match s with
  | "" => [""]
  | String a s' =>
      if Ascii.eqb a sep then "" :: split sep s'
      else match split sep s' with
           | h :: t => String a h :: t
           | [] => [String a ""]
           end
  end.

(** [s.splitlines()] *)
Fixpoint splitlines_go (cur : list ascii) (l : list ascii) : list string :=
  match l with
  | [] => match cur with [] => [] | _ => [text (rev cur)] end
  | c :: l' =>
      if Ascii.eqb c CR then
        match l' with
        | c' :: l'' =>
            if Ascii.eqb c' LF then text (rev cur) :: splitlines_go [] l''
            else text (rev cur) :: splitlines_go [] l'
        | [] => [text (rev cur)]
        end
      else if is_linebreak c then text (rev cur) :: splitlines_go [] l'
      else splitlines_go (c :: cur) l'
  end.

Definition splitlines (s : string) : list string := splitlines_go [] (chars s).

(** [' '.join(l)] *)
Definition join (sep : string) (l : list string) : string := String.concat sep l.

(** The place where [$] matches: the end of the text, or just before a
    newline that ends it.  The text before that place comes reversed,
    with what follows it. *)
Definition at_dollar (s : string) : list ascii * list ascii :=
  match rev (chars s) with
  | c :: r => if Ascii.eqb c LF then (r, [c]) else (c :: r, [])
  | [] => ([], [])
  end.

(** [re.sub(r"\d+$", "", s)] *)
Definition re_sub_digits_end (s : string) : string :=
  let '(r, tail) := at_dollar s in
  text (rev (snd (span is_decimal r)) ++ tail).

(** [re.sub(r"p\d+$", "", s)] *)
Definition re_sub_p_digits_end (s : string) : string :=
  let '(r, tail) := at_dollar s in
  match span is_decimal r with
  | (_ :: _, p :: rest) =>
      if Ascii.eqb p "p" then text (rev rest ++ tail) else s
  | _ => s
  end.

(** [m = re.search(r"(\d+)$", s)]; [m.group(1) if m else ""] *)
Definition re_search_digits_end (s : string) : string :=
  let '(r, _) := at_dollar s in text (rev (fst (span is_decimal r))).

(** [str(n)] for an [int] *)
Definition str_int (n : Z) : string := NilZero.string_of_int (Z.to_int n).

(** [digit (["_"] digit)*]: the digits of a numeral, its underscores
    removed. *)
Fixpoint digitpart (l : list ascii) : option (list ascii) :=
  match l with
  | d :: rest =>
      if is_decimal d then
        match rest with
        | [] => Some [d]
        | u :: rest' =>
            if Ascii.eqb u "_" then
              match digitpart rest' with
              | Some ds => Some (d :: ds)
              | None => None
              end
            else
              match digitpart rest with
              | Some ds => Some (d :: ds)
              | None => None
              end
        end
      else None
  | [] => None
  end.

Definition horner (acc : Z) (d : ascii) : Z :=
  (10 * acc + Z.of_nat (code d - 48))%Z.

(** The value of a sequence of decimal digits. *)
Definition digits_value (ds : list ascii) : Z := fold_left horner ds 0%Z.

Definition split_sign (l : list ascii) : bool * list ascii :=
  match l with
  | c :: l' =>
      if Ascii.eqb c "-" then (true, l')
      else if Ascii.eqb c "+" then (false, l') else (false, l)
  | [] => (false, [])
  end.

(** The white space that [int()] and [float()] accept around a numeral:
    the ASCII white space of C and the white space above the ASCII
    range.  The separators U+001C to U+001F are white space for
    [str.strip] and are rejected here. *)
Definition isspace_numeral (c : ascii) : bool :=
  ((9 <=? code c)%nat && (code c <=? 13)%nat)
  || (code c =? 32)%nat || (code c =? 133)%nat || (code c =? 160)%nat.

Definition strip_numeral (s : string) : string :=
  lstrip_with isspace_numeral (rstrip_with isspace_numeral s).

(** [int(s)] for a [str], base ten; [None] stands for [ValueError],
    which a numeral of more than [sys.int_info.default_max_str_digits]
    digits raises too. *)
Definition int (s : string) : option Z :=
  let '(neg, body) := split_sign (chars (strip_numeral s)) in
  match digitpart body with
  | Some ds =>
      if (4300 <? length ds)%nat then None
      else Some (if neg then - digits_value ds else digits_value ds)%Z
  | None => None
  end.

(** [s.isdigit()] *)
Definition str_isdigit (s : string) : bool :=
  negb (bool_decide (s = "")) && forallb isdigit (chars s).

(** [s.split()]: the words of a text, separated by runs of white
    space. *)
Fixpoint split_ws_go (cur : list ascii) (l : list ascii) : list string :=
  match l with
  | [] => match cur with [] => [] | _ => [text (rev cur)] end
  | c :: l' =>
      if isspace c then
        match cur with
        | [] => split_ws_go [] l'
        | _ => text (rev cur) :: split_ws_go [] l'
        end
      else split_ws_go (c :: cur) l'
  end.

Definition split_ws (s : string) : list string := split_ws_go [] (chars s).

(** [l[n]] for an [int] index; [None] stands for [IndexError]. *)
Definition index {A} (l : list A) (n : Z) : option A :=
  if (0 <=? n)%Z then l !! Z.to_nat n
  else if (- Z.of_nat (length l) <=? n)%Z then l !! Z.to_nat (Z.of_nat (length l) + n)
  else None.

End Py.

(** ** Data model *)

(** One node of the tree printed by [lsblk -J -o NAME,TYPE,SIZE,PATH,
    MOUNTPOINT,FSTYPE]: every column is a JSON string or [null]. *)
#[local] Set Warnings "-register-all".
Inductive node : Type :=
  Node (name type size path mountpoint fstype : option string)
       (children : list node).

(** The dictionary that [walk] appends for a disk or a partition. *)
Record BlockDevice : Type := Device {
  d_path : string;
  d_type : string;
  d_size : option string;
  d_mountpoint : option string;
  d_fstype : option string
}.

(** Exceptions: [subprocess.CalledProcessError], every other
    [Exception], which carries its message, and the [SystemExit] of
    [sys.exit], which no [except Exception] catches. *)
Inductive exn : Type :=
| CalledProcessError (returncode : Z) (cmd : list string)
| Exception (what : string)
| SystemExit (code : Z).

(** What happens to a command given to [subprocess.Popen]: it runs,
    prints lines and exits, or it cannot be started ([OSError]). *)
Inductive outcome : Type :=
| Exited (lines : list string) (rc : Z)
| NotStarted.

(** What [subprocess.check_output] gives: the captured text of a command
    that exits with zero, [CalledProcessError] otherwise, or [OSError]. *)
Inductive captured : Type :=
| Output (out : string)
| Failed (rc : Z)
| NoSuchTool.

(** What [tempfile.NamedTemporaryFile(delete=False)] followed by
    [write], [flush] and [close] does: no file could be created; a file
    was created and one of the three calls raised; the file is written. *)
Inductive tempfile : Type :=
| NotCreated
| CreatedThenRaised (name : string)
| Written (name : string).

(** A command issued by the program: through [run_and_stream], with the
    exit status if it started, or through [subprocess.check_output]. *)
Inductive event : Type :=
| Run (cmd : list string) (rc : option Z)
| Query (cmd : list string).

Global Instance event_eq_dec : EqDecision event.
Proof. solve_decision. Defined.

Record env : Type := Env {
  popen : list event -> list string -> outcome;
  check_output : list event -> list string -> captured;
  (** the parsed ["blockdevices"] of an [lsblk] query, [None] when the
      query or [json.loads] raises *)
  lsblk : list event -> option (list node);
  NamedTemporaryFile : tempfile
}.

Record state : Type := State {
  trace : list event;
  log : list string;
  files : gset string
}.

Definition initial : state := State [] [] ∅.

Definition emit (e : event) (s : state) : state :=
  State (trace s ++ [e]) (log s) (files s).

Definition logged (lines : list string) (s : state) : state :=
  State (trace s) (log s ++ lines) (files s).

Definition with_files (f : gset string) (s : state) : state :=
  State (trace s) (log s) f.

Global Arguments emit : simpl never.
Global Arguments logged : simpl never.
Global Arguments with_files : simpl never.

(** ** Control flow

    A computation ends with a value, with a [return] of the enclosing
    function, or with a raised exception. *)
Inductive res (R A : Type) : Type :=
| Val (a : A)
| Ret (r : R)
| Exn (e : exn).
Arguments Val {R A} a.
Arguments Ret {R A} r.
Arguments Exn {R A} e.

Definition M (R A : Type) : Type := state -> res R A * state.

Definition ret {R A} (a : A) : M R A := fun s => (Val a, s).

Definition bind {R A B} (m : M R A) (k : A -> M R B) : M R B :=
  fun s =>
    match m s with
    | (Val a, s') => k a s'
    | (Ret r, s') => (Ret r, s')
    | (Exn e, s') => (Exn e, s')
    end.

Definition return_ {R A} (r : R) : M R A := fun s => (Ret r, s).
Definition raise {R A} (e : exn) : M R A := fun s => (Exn e, s).

(** A computation that touches nothing outside the program. *)
Definition pure {R A} (r : res R A) : M R A := fun s => (r, s).

Declare Scope prog_scope.
Delimit Scope prog_scope with prog.
Notation "x <- m ;; k" := (bind m (fun x => k))
  (at level 100, m at next level, right associativity) : prog_scope.
Notation "m ;; k" := (bind m (fun _ => k))
  (at level 100, right associativity) : prog_scope.
Open Scope prog_scope.

(** A call: the callee's [return r], or the value it ends with, is the
    value of the call. *)
Definition call {R R'} (f : M R R) : M R' R :=
  fun s =>
    match f s with
    | (Val r, s') | (Ret r, s') => (Val r, s')
    | (Exn e, s') => (Exn e, s')
    end.

(** [try: body except Exception as ex: handler ex] *)
Definition try_except {R A} (body : M R A) (handler : exn -> M R A) : M R A :=
  fun s =>
    match body s with
    | (Exn (SystemExit code), s') => (Exn (SystemExit code), s')
    | (Exn e, s') => handler e s'
    | r => r
    end.

(** [try: body except subprocess.CalledProcessError: handler] *)
Definition try_except_cpe {R A} (body : M R A)
    (handler : Z -> list string -> M R A) : M R A :=
  try_except body
    (fun e => match e with
              | CalledProcessError rc cmd => handler rc cmd
              | _ => raise e
              end).

(** [str(ex)] for the exceptions above; the command is printed as
    [repr] prints a list of texts that hold no quote and no escape. *)
Definition str_exn (e : exn) : string :=
  match e with
  | CalledProcessError rc cmd =>
      "Command '[" +:+ Py.join ", " (map (fun a => "'" +:+ a +:+ "'") cmd)
      +:+ "]' returned non-zero exit status " +:+ Py.str_int rc +:+ "."
  | Exception what => what
  | SystemExit code => Py.str_int code
  end.

(** The rest of a block after a statement whose outcome is known. *)
Definition resume {R A B} (r : res R A) (k : A -> M R B) : M R B :=
  match r with
  | Val a => k a
  | Ret x => return_ x
  | Exn e => raise e
  end.

(** [try: body finally: final] *)
Definition try_finally {R A} (body : M R A) (final : M R unit) : M R A :=
  fun s =>
    let '(r, s') := body s in
    match final s' with
    | (Val _, s'') => (r, s'')
    | (Ret r', s'') => (Ret r', s'')
    | (Exn e, s'') => (Exn e, s'')
    end.

(** [for x in l: body x] *)
Fixpoint for_each {R A} (l : list A) (body : A -> M R unit) : M R unit :=
  match l with
  | [] => ret tt
  | x :: l' => body x;; for_each l' body
  end.

(** ** The text of the log *)

Module Msg.

(** [f"\n$ {' '.join(cmd)}\n"] *)
Definition prompt (cmd : list string) : string :=
  Py.nl +:+ "$ " +:+ Py.join " " cmd +:+ Py.nl.

Definition paso4 : string :=
  Py.nl +:+ "== Paso 4/4: Montaje, chroot y configuración ==" +:+ Py.nl.

Definition initramfs : string :=
  Py.nl +:+ "-- Regenerando initramfs (update-initramfs -u -k all) --" +:+ Py.nl.

Definition paso1 : string :=
  Py.nl +:+ "== Paso 1/4: Comprobando sistema de archivos (e2fsck -f -y)… ==" +:+ Py.nl.

Definition paso2 : string :=
  Py.nl +:+ "== Paso 2/4: Redimensionando al mínimo (resize2fs -M)… ==" +:+ Py.nl.

Definition paso3 : string :=
  Py.nl +:+ "== Paso 3/4: Reencriptando con cryptsetup reencrypt (LUKS2)… ==" +:+ Py.nl.

Definition completed : string :=
  Py.nl +:+ "✔ Proceso completado correctamente." +:+ Py.nl.

Definition command_failed (rc : Z) (cmd : list string) : string :=
  Py.nl +:+ "✖ Error (rc=" +:+ Py.str_int rc +:+ ") en: "
  +:+ Py.join " " cmd +:+ Py.nl.

Definition unexpected (ex : string) : string :=
  Py.nl +:+ "✖ Error inesperado: " +:+ ex +:+ Py.nl.

Definition shrinking : string :=
  "Intentando liberar ~1GiB reduciendo la partición raíz…" +:+ Py.nl.

Definition mounted_as_root : string :=
  "[ERROR] La partición objetivo está montada como '/'. Ejecuta desde un entorno live/rescue para poder reducirla."
  +:+ Py.nl.

Definition unmounting (dev_path mp : string) : string :=
  "Desmontando " +:+ dev_path +:+ " de " +:+ mp +:+ "…" +:+ Py.nl.

Definition no_partition_number : string :=
  "[ERROR] No se pudo determinar el número de partición." +:+ Py.nl.

Definition not_last_partition (part_num last_part : string) : string :=
  "[ERROR] La partición seleccionada " +:+ part_num
  +:+ " no es la última del disco (última: " +:+ last_part
  +:+ "). No se puede reducir para liberar cola." +:+ Py.nl.

Definition remounting (dev_path mp : string) : string :=
  "Remontando " +:+ dev_path +:+ " en " +:+ mp +:+ "…" +:+ Py.nl.

Definition shrink_failed (ex : string) : string :=
  "[ERROR] Falló la reducción de la partición: " +:+ ex +:+ Py.nl.

Definition using_root (shrink_target device : string) : string :=
  "Usando " +:+ shrink_target
  +:+ " como partición raíz para liberar espacio (seleccionado: "
  +:+ device +:+ ")." +:+ Py.nl.

Definition creating_boot : string :=
  "Liberando ~1GiB al final del disco y creando partición /boot (~1GiB)…" +:+ Py.nl.

Definition looks_like_luks : string :=
  "[INFO] El dispositivo seleccionado parece ser LUKS (crypto_LUKS). No se intentará reducir automáticamente la partición, ya que el FS está dentro del contenedor."
  +:+ Py.nl.

Definition table_detected (table_type last_part : string) : string :=
  "Tabla de particiones detectada: " +:+ table_type
  +:+ ". Última partición: " +:+ last_part +:+ Py.nl.

Definition skip_shrink_luks : string :=
  "[INFO] Omite reducción automática por ser LUKS directo." +:+ Py.nl.

Definition msdos_hint : string :=
  "[PISTA] Si el disco usa tabla MSDOS y ya hay 4 primarias, crea/usa una extendida o migra a GPT."
  +:+ Py.nl.

Definition no_space_luks : string :=
  "[ERROR] No fue posible crear /boot: no hay espacio al final y no podemos reducir una partición LUKS sin abrir y encoger el FS interno."
  +:+ Py.nl.

Definition mkpart_failed : string :=
  "[ERROR] No fue posible crear /boot. Verifica que la partición objetivo sea la última y que se pudo liberar espacio."
  +:+ Py.nl.

Definition not_detected : string :=
  "[ERROR] No se pudo detectar la nueva partición creada." +:+ Py.nl.

Definition detected (new_boot : string) : string :=
  "Nueva partición detectada: " +:+ new_boot +:+ Py.nl.

Definition no_uuid (new_boot ex : string) : string :=
  "[ERROR] No se pudo obtener UUID de " +:+ new_boot +:+ ": " +:+ ex +:+ Py.nl.

Definition boot_created : string :=
  "Partición /boot creada y configurada correctamente (ext4)." +:+ Py.nl.

Definition boot_warning (ex : string) : string :=
  "[ADVERTENCIA] No se pudo crear /boot automáticamente: " +:+ ex +:+ Py.nl.

(** The header of a step of [boot.py]:
    [f"\n== Paso {step_no}/{num_steps}: {title} ==\n"] *)
Definition paso (step_no num_steps : nat) (title : string) : string :=
  Py.nl +:+ "== Paso " +:+ Py.str_int (Z.of_nat step_no) +:+ "/"
  +:+ Py.str_int (Z.of_nat num_steps) +:+ ": " +:+ title +:+ " ==" +:+ Py.nl.

Definition title_fsck : string := "Comprobando sistema de archivos (e2fsck -f -y)…".
Definition title_minimize : string := "Redimensionando al mínimo (resize2fs -M)…".
Definition title_boot : string := "Creando partición /boot si falta…".
Definition title_reencrypt : string := "Reencriptando con cryptsetup reencrypt (LUKS2)…".
Definition title_chroot : string := "Montaje, chroot y configuración".

End Msg.

(** ** Process runner and device inventory

    [run_and_stream] and [list_block_devices] are the same text in the
    three source files. *)

Definition lsblk_cmd : list string :=
  ["lsblk"; "-J"; "-o"; "NAME,TYPE,SIZE,PATH,MOUNTPOINT,FSTYPE"].

(** [node.get("path") or f"/dev/{node.get('name')}"] *)
Definition node_path (path name : option string) : string :=
  let default := "/dev/" +:+ match name with Some n => n | None => "None" end in
  match path with
  | Some p => if bool_decide (p = "") then default else p
  | None => default
  end.

(** [walk]: the node itself when it is a disk or a partition, then its
    children, in the order of the report. *)
Fixpoint walk (n : node) : list BlockDevice :=
  match n with
  | Node name type size path mountpoint fstype children =>
      match type with
      | Some ntype =>
          if bool_decide (ntype = "disk" ∨ ntype = "part")
          then [Device (node_path path name) ntype size mountpoint fstype]
          else []
      | None => []
      end
      ++ (fix walk_all (l : list node) : list BlockDevice :=
            match l with
            | [] => []
            | ch :: l' => walk ch ++ walk_all l'
            end) children
  end.

(** [l.sort(key=key)] and [sorted(l)]: a stable sort on text keys. *)
Fixpoint insert_by {A} (key : A -> string) (x : A) (l : list A) : list A :=
  match l with
  | [] => [x]
  | y :: l' =>
      if String.leb (key x) (key y) then x :: l else y :: insert_by key x l'
  end.

Definition sort_by {A} (key : A -> string) (l : list A) : list A :=
  foldr (insert_by key) [] l.

Definition devices_of (blockdevices : list node) : list BlockDevice :=
  sort_by d_path (flat_map walk blockdevices).

(** The files on disk after [if keyfile and os.path.exists(keyfile):
    os.remove(keyfile)]. *)
Definition unlinked (keyfile : option string) (fs : gset string) : gset string :=
  match keyfile with
  | Some name =>
      if negb (bool_decide (name = "")) && bool_decide (name ∈ fs)
      then fs ∖ {[name]}
      else fs
  | None => fs
  end.

Global Arguments unlinked : simpl never.

Section Runtime.
Variable E : env.

Definition log_cb {R} (text : string) : M R unit :=
  fun s => (Val tt, logged [text] s).

Definition run_and_stream {R} (cmd : list string) (check : bool) : M R Z :=
  log_cb (Msg.prompt cmd);;
  fun s =>
    match popen E (trace s) cmd with
    | NotStarted => (Exn (Exception "OSError"), emit (Run cmd None) s)
    | Exited lines rc =>
        let s' := logged lines (emit (Run cmd (Some rc)) s) in
        if check && negb (rc =? 0)%Z
        then (Exn (CalledProcessError rc cmd), s')
        else (Val rc, s')
    end.

(** [subprocess.check_output(cmd, text=True)] *)
Definition subprocess_check_output {R} (cmd : list string) : M R string :=
  fun s =>
    let s' := emit (Query cmd) s in
    match check_output E (trace s) cmd with
    | Output out => (Val out, s')
    | Failed rc => (Exn (CalledProcessError rc cmd), s')
    | NoSuchTool => (Exn (Exception "OSError"), s')
    end.

Definition list_block_devices {R} : M R (list BlockDevice) :=
  fun s =>
    let s' := emit (Query lsblk_cmd) s in
    match lsblk E (trace s) with
    | None => (Val [], s')
    | Some blockdevices => (Val (devices_of blockdevices), s')
    end.

(** [subprocess.check_output(["blkid", "-s", "UUID", "-o", "value", dev],
    text=True).strip()] *)
Definition blkid_uuid {R} (dev : string) : M R string :=
  out <- subprocess_check_output ["blkid"; "-s"; "UUID"; "-o"; "value"; dev];;
  ret (Py.strip out).

Definition fstype_in (p : BlockDevice) (l : list string) : bool :=
  match d_fstype p with
  | Some f => bool_decide (f ∈ l)
  | None => false
  end.

(** The loop [for p in parts] of the system integration step; it gives
    the last value assigned to [boot_uuid]. *)
Fixpoint mount_boot_and_efi {R} (parts : list BlockDevice) (boot_uuid : option string)
    : M R (option string) :=
  match parts with
  | [] => ret boot_uuid
  | p :: parts' =>
      if bool_decide (d_type p = "part") && fstype_in p ["vfat"; "efi"] then
        efi_uuid <- blkid_uuid (d_path p);;
        run_and_stream ["mkdir"; "-p"; "/mnt/root/boot/efi"] false;;
        run_and_stream ["mount"; "UUID=" +:+ efi_uuid; "/mnt/root/boot/efi"] false;;
        mount_boot_and_efi parts' boot_uuid
      else if bool_decide (d_type p = "part") && fstype_in p ["ext2"; "ext3"; "ext4"] then
        uuid <- blkid_uuid (d_path p);;
        run_and_stream ["mkdir"; "-p"; "/mnt/root/boot"] false;;
        run_and_stream ["mount"; "UUID=" +:+ uuid; "/mnt/root/boot"] false;;
        mount_boot_and_efi parts' (Some uuid)
      else mount_boot_and_efi parts' boot_uuid
  end.

(** The argument vector of the in-place encryption. *)
Definition reencrypt_cmd (reduce_size keyfile device : string) : list string :=
  ["cryptsetup"; "reencrypt"; "--batch-mode"; "--encrypt"; "--type"; "luks2";
   "--hash"; "sha256"; "--pbkdf"; "pbkdf2";
   "--reduce-device-size"; reduce_size; "--key-file"; keyfile; device].

Definition chroot_bash (script : string) : list string :=
  ["chroot"; "/mnt/root"; "/bin/bash"; "-c"; script].

Definition dq : string := String (ascii_of_nat 34) "".

(** [grub_line] and [chroot_cmd] of the system integration step. *)
Definition grub_line (uuid : string) : string :=
  "GRUB_CMDLINE_LINUX=" +:+ dq +:+ "cryptdevice=UUID=" +:+ uuid
  +:+ ":cryptroot root=/dev/mapper/cryptroot" +:+ dq.

Definition grub_chroot_cmd (uuid : string) : string :=
  "grep -q '^GRUB_CMDLINE_LINUX' /etc/default/grub && sed -i 's|^GRUB_CMDLINE_LINUX.*|"
  +:+ grub_line uuid +:+ "|' /etc/default/grub || echo '" +:+ grub_line uuid
  +:+ "' >> /etc/default/grub".

(** The first five statements of the [try] block of every pipeline:
    the key file is created and written, then [keyfile = tf.name]. *)
Definition write_keyfile {R} : M R string :=
  fun s =>
    match NamedTemporaryFile E with
    | NotCreated => (Exn (Exception "OSError"), s)
    | CreatedThenRaised name =>
        (Exn (Exception "OSError"), with_files ({[name]} ∪ files s) s)
    | Written name =>
        (Val name, with_files ({[name]} ∪ files s) s)
    end.

(** [if keyfile and os.path.exists(keyfile): os.remove(keyfile)] *)
Definition remove_keyfile {R} (keyfile : option string) : M R unit :=
  fun s => (Val tt, with_files (unlinked keyfile (files s)) s).

(** The frame of every pipeline:
    [keyfile = None; try: (write the key file; keyfile = tf.name; body)
     except CalledProcessError, Exception: handler
     finally: remove the key file]. *)
Definition with_keyfile {R} (body : string -> M R unit) (handler : exn -> M R unit)
    : M R unit :=
  fun s0 =>
    let '(created, s1) := write_keyfile s0 in
    let keyfile := match created with Val name => Some name | _ => None end in
    try_finally
      (try_except (resume created body) handler)
      (remove_keyfile keyfile)
      s1.

End Runtime.

(** ** The pipeline of [pyrus.py] and [Tpyrus.py] *)

Module Pyrus.
Section Pipeline.
Variable E : env.

(** The block under [if run_chroot:] ([pyrus.py] 270-314, [Tpyrus.py]
    204-247). *)
Definition system_integration {R} (device keyfile : string) : M R unit :=
  log_cb Msg.paso4;;
  uuid <- blkid_uuid E device;;
  let cryptdev := "/dev/mapper/cryptroot" in
  run_and_stream E ["cryptsetup"; "open"; device; "cryptroot"; "--key-file"; keyfile] true;;
  run_and_stream E ["e2fsck"; "-f"; cryptdev] false;;
  run_and_stream E ["resize2fs"; cryptdev] false;;
  run_and_stream E ["mkdir"; "-p"; "/mnt/root"] false;;
  run_and_stream E ["mount"; cryptdev; "/mnt/root"] false;;
  parts <- list_block_devices E;;
  mount_boot_and_efi E parts None;;
  run_and_stream E ["mount"; "--bind"; "/dev"; "/mnt/root/dev"] false;;
  run_and_stream E ["mount"; "--bind"; "/proc"; "/mnt/root/proc"] false;;
  run_and_stream E ["mount"; "--bind"; "/sys"; "/mnt/root/sys"] false;;
  run_and_stream E ["mount"; "--bind"; "/run"; "/mnt/root/run"] false;;
  run_and_stream E
    (chroot_bash ("echo 'cryptroot UUID=" +:+ uuid +:+ " none luks' > /etc/crypttab"))
    false;;
  run_and_stream E
    (chroot_bash "echo '/dev/mapper/cryptroot / ext4 defaults 0 1' > /etc/fstab")
    false;;
  log_cb Msg.initramfs;;
  run_and_stream E (chroot_bash "update-initramfs -u -k all") true;;
  run_and_stream E (chroot_bash (grub_chroot_cmd uuid)) true;;
  let base_disk := Py.rstrip_digits device in
  run_and_stream E (chroot_bash ("grub-install " +:+ base_disk)) true;;
  run_and_stream E (chroot_bash "update-grub") true;;
  ret tt.

(** The [try] block after [keyfile = tf.name]. *)
Definition steps {R} (device reduce_size : string)
    (run_fsck run_minimize run_chroot : bool) (keyfile : string) : M R unit :=
  (if run_fsck then
     log_cb Msg.paso1;;
     run_and_stream E ["e2fsck"; "-f"; "-y"; device] true;;
     ret tt
   else ret tt);;
  (if run_minimize then
     log_cb Msg.paso2;;
     run_and_stream E ["resize2fs"; "-M"; device] true;;
     ret tt
   else ret tt);;
  log_cb Msg.paso3;;
  run_and_stream E (reencrypt_cmd reduce_size keyfile device) true;;
  (if run_chroot then system_integration device keyfile else ret tt);;
  log_cb Msg.completed.

Definition on_command_failure {R} (rc : Z) (cmd : list string) : M R unit :=
  log_cb (Msg.command_failed rc cmd).

Definition on_unexpected {R} (ex : exn) : M R unit :=
  log_cb (Msg.unexpected (str_exn ex)).

(** [PyrusCryptGUI._worker] of [pyrus.py]; the window updates are left
    out. *)
Definition _worker (device password reduce_size : string)
    (run_fsck run_minimize run_chroot : bool) : M unit unit :=
  with_keyfile E
    (steps device reduce_size run_fsck run_minimize run_chroot)
    (fun e => match e with
              | CalledProcessError rc cmd => on_command_failure rc cmd
              | _ => on_unexpected e
              end).

(** [main] of [Tpyrus.py] from [keyfile = None] on: the same block, and
    both handlers end with [sys.exit(1)]. *)
Definition main (device password reduce_size : string)
    (run_fsck run_minimize run_chroot : bool) : M unit unit :=
  with_keyfile E
    (steps device reduce_size run_fsck run_minimize run_chroot)
    (fun e => match e with
              | CalledProcessError rc cmd =>
                  on_command_failure rc cmd;; raise (SystemExit 1)
              | _ => on_unexpected e;; raise (SystemExit 1)
              end).

End Pipeline.
End Pyrus.

(** ** Python floats

    A [float] is an IEEE 754 binary64 number, here a [spec_float] in
    canonical form; every operation below rounds to nearest, ties to
    even, as the interpreter does. *)

Module PyFloat.

Definition prec : Z := 53.
Definition emax : Z := 1024.

Definition of_Z (z : Z) : spec_float := binary_normalize prec emax z 0 false.

(** The float nearest to [m * 10 ^ e], for [0 <= m]. *)
Definition of_decimal (neg : bool) (m e : Z) : spec_float :=
  if (m =? 0)%Z then S754_zero neg
  else if (0 <=? e)%Z then
    binary_normalize prec emax ((if neg then - m else m) * 10 ^ e)%Z 0 neg
  else
    SFdiv prec emax (S754_finite neg (Z.to_pos m) 0)
                    (S754_finite false (Z.to_pos (10 ^ (- e))) 0).

Definition sub (x y : spec_float) : spec_float := SFsub prec emax x y.

(** [max(a, b)]: [b] when [b > a], else [a]. *)
Definition max2 (a b : spec_float) : spec_float := if SFltb a b then b else a.

(** [int(x)]: truncation towards zero; [None] stands for the
    [OverflowError] of an infinity and the [ValueError] of a NaN. *)
Definition to_int (x : spec_float) : option Z :=
  match x with
  | S754_zero _ => Some 0%Z
  | S754_finite s m e =>
      let v := match e with
               | Z0 => Zpos m
               | Zpos _ => (Zpos m * 2 ^ e)%Z
               | Zneg _ => (Zpos m / 2 ^ (- e))%Z
               end in
      Some (if s then (- v)%Z else v)
  | S754_infinity _ | S754_nan => None
  end.

Definition is_numeral_char (c : ascii) : bool :=
  Py.is_decimal c || Ascii.eqb c "_".

(** An optional [digitpart]: the digits, [Some []] when there is none,
    [None] when the underscores are misplaced. *)
Definition opt_digitpart (l : list ascii) : option (list ascii) :=
  match l with
  | [] => Some []
  | _ => Py.digitpart l
  end.

(** [("e" | "E") [sign] digitpart], or nothing. *)
Definition exponent (l : list ascii) : option Z :=
  match l with
  | [] => Some 0%Z
  | c :: l' =>
      if Ascii.eqb (Py.lower_char c) "e" then
        let '(neg, body) := Py.split_sign l' in
        match Py.digitpart body with
        | Some ds => Some (if neg then - Py.digits_value ds else Py.digits_value ds)%Z
        | None => None
        end
      else None
  end.

(** [floatnumber]: [[digitpart] "." digitpart | digitpart ["."]], then an
    optional exponent. *)
Definition floatnumber (neg : bool) (l : list ascii) : option spec_float :=
  let '(ip, rest) := Py.span is_numeral_char l in
  let '(fp, rest') :=
    match rest with
    | c :: r => if Ascii.eqb c "." then Py.span is_numeral_char r else ([], rest)
    | [] => ([], [])
    end in
  match ip, fp with
  | [], [] => None
  | _, _ =>
      match opt_digitpart ip, opt_digitpart fp, exponent rest' with
      | Some i, Some f, Some e =>
          Some (of_decimal neg (Py.digits_value (i ++ f)) (e - Z.of_nat (length f)))
      | _, _, _ => None
      end
  end.

(** [float(s)] for a [str]; [None] stands for [ValueError]. *)
Definition float (s : string) : option spec_float :=
  let '(neg, body) := Py.split_sign (Py.chars (Py.strip_numeral s)) in
  let word := Py.lower (Py.text body) in
  if bool_decide (word = "inf" ∨ word = "infinity") then Some (S754_infinity neg)
  else if bool_decide (word = "nan") then Some S754_nan
  else floatnumber neg body.

End PyFloat.

(** ** Partition-table inspection and boot-partition creation ([boot.py]) *)

Module Boot.

(** [_get_base_disk_from_device] *)
Definition _get_base_disk_from_device (device_path : string) : string :=
  if Py.startswith device_path "/dev/nvme" || Py.startswith device_path "/dev/mmcblk"
  then Py.re_sub_p_digits_end device_path
  else Py.re_sub_digits_end device_path.

(** [_get_partition_number] *)
Definition _get_partition_number (dev_path : string) : string :=
  Py.re_search_digits_end dev_path.

Definition parted_print (disk : string) : list string :=
  ["parted"; "-m"; disk; "unit"; "MiB"; "print"; "free"].

(** [line and line[0].isdigit()] *)
Definition starts_with_digit (line : string) : bool :=
  match line with
  | String c _ => Py.isdigit c
  | "" => false
  end.

(** The loop of [_get_partition_end_mib] over the lines of the listing,
    with the [raise RuntimeError] that follows it. *)
Fixpoint end_mib_of_lines {R} (disk part_num : string) (lines : list string)
    : res R spec_float :=
  match lines with
  | [] => Exn (Exception "No se pudo obtener el fin de la partición")
  | line :: rest =>
      if bool_decide (line = "") || Py.startswith line "BYT;" || Py.startswith line disk
      then end_mib_of_lines disk part_num rest
      else
        let fields := Py.split ":" line in
        if bool_decide (hd "" fields = part_num) then
          match fields !! 2%nat with
          | None => Exn (Exception "list index out of range")
          | Some end_ =>
              if Py.endswith end_ "MiB" then
                match PyFloat.float (Py.drop_last3 end_) with
                | Some x => Val x
                | None => Exn (Exception "could not convert string to float")
                end
              else end_mib_of_lines disk part_num rest
          end
        else end_mib_of_lines disk part_num rest
  end.

(** One turn of the loop of [_get_table_type_and_last_part]: the new
    values of [table_type] and [max_part]. *)
Definition scan_line (disk line : string) (acc : option string * option Z)
    : option string * option Z :=
  let '(table_type, max_part) := acc in
  if Py.startswith line disk then
    let parts := Py.split ":" line in
    if (6 <=? length parts)%nat then (parts !! 5%nat, max_part) else acc
  else if starts_with_digit line then
    let num := hd "" (Py.split ":" line) in
    match Py.int num with
    | Some val =>
        match max_part with
        | None => (table_type, Some val)
        | Some m => if (m <? val)%Z then (table_type, Some val) else acc
        end
    | None => acc
    end
  else acc.

Definition scan_lines (disk : string) (lines : list string)
    : option string * option Z :=
  fold_left (fun acc line => scan_line disk line acc) lines (None, None).

(** [table_type or "unknown", max_part] *)
Definition table_type_and_last_part (disk : string) (lines : list string)
    : string * option Z :=
  let '(table_type, max_part) := scan_lines disk lines in
  (match table_type with
   | Some t => if bool_decide (t = "") then "unknown" else t
   | None => "unknown"
   end, max_part).

(** [str(last_part)] *)
Definition str_opt_int (n : option Z) : string :=
  match n with
  | Some z => Py.str_int z
  | None => "None"
  end.

(** [str(dev_fstype).lower() in ("crypto_luks", "luks")] *)
Definition is_luks_fstype (dev_fstype : option string) : bool :=
  let s := Py.lower (match dev_fstype with Some f => f | None => "None" end) in
  bool_decide (s ∈ ["crypto_luks"; "luks"]).

Definition truthy (s : option string) : option string :=
  match s with
  | Some t => if bool_decide (t = "") then None else Some t
  | None => None
  end.

Section Creator.
Variable E : env.

Definition _get_partition_end_mib {R} (disk part_num : string) : M R spec_float :=
  out <- subprocess_check_output E (parted_print disk);;
  pure (end_mib_of_lines disk part_num (Py.splitlines out)).

Definition _get_table_type_and_last_part {R} (disk : string)
    : M R (string * option Z) :=
  out <- subprocess_check_output E (parted_print disk);;
  ret (table_type_and_last_part disk (Py.splitlines out)).

(** [int(new_end)] *)
Definition int_of_float {R} (x : spec_float) : M R Z :=
  match PyFloat.to_int x with
  | Some n => ret n
  | None => raise (Exception "cannot convert float to integer")
  end.

Definition resizepart_cmd (base_disk part_num : string) (new_end : Z) : list string :=
  ["parted"; base_disk; "--script"; "unit"; "MiB"; "resizepart"; part_num;
   Py.str_int new_end +:+ "MiB"].

(** [_shrink_partition_free_space], with the [base_disk] of the
    enclosing function. *)
Definition _shrink_partition_free_space (base_disk dev_path : string)
    (current_mountpoint : option string) : M bool bool :=
  try_except
    (log_cb Msg.shrinking;;
     remount_after <-
       match truthy current_mountpoint with
       | Some mp =>
           if bool_decide (mp = "/") then
             log_cb Msg.mounted_as_root;;
             return_ false
           else
             log_cb (Msg.unmounting dev_path mp);;
             run_and_stream E ["umount"; dev_path] true;;
             ret (Some mp)
       | None => ret None
       end;;
     run_and_stream E ["e2fsck"; "-f"; "-y"; dev_path] true;;
     run_and_stream E ["resize2fs"; "-M"; dev_path] true;;
     let part_num := _get_partition_number dev_path in
     (if bool_decide (part_num = "") then
        log_cb Msg.no_partition_number;;
        return_ false
      else ret tt);;
     info <- _get_table_type_and_last_part base_disk;;
     let last_part := snd info in
     (if negb (bool_decide (part_num = str_opt_int last_part)) then
        log_cb (Msg.not_last_partition part_num (str_opt_int last_part));;
        return_ false
      else ret tt);;
     current_end <- _get_partition_end_mib base_disk part_num;;
     let new_end := PyFloat.max2 (PyFloat.of_Z 1) (PyFloat.sub current_end (PyFloat.of_Z 1050)) in
     new_end_int <- int_of_float new_end;;
     run_and_stream E (resizepart_cmd base_disk part_num new_end_int) true;;
     run_and_stream E ["partprobe"; base_disk] false;;
     run_and_stream E ["udevadm"; "settle"] false;;
     match remount_after with
     | Some mp =>
         log_cb (Msg.remounting dev_path mp);;
         run_and_stream E ["mkdir"; "-p"; mp] false;;
         run_and_stream E ["mount"; dev_path; mp] false;;
         ret tt
     | None => ret tt
     end;;
     return_ true)
    (fun ex =>
       log_cb (Msg.shrink_failed (str_exn ex));;
       return_ false).

(** The choice of the partition to shrink: the [try] block that ends
    with [except Exception: pass]. *)
Definition choose_shrink_target {R} (device : string)
    : M R (string * option string) :=
  try_except
    (current <- list_block_devices E;;
     let root_parts :=
       filter (fun p => d_mountpoint p = Some "/" ∧ d_type p = "part") current in
     match root_parts with
     | root :: _ =>
         (if negb (bool_decide (d_path root = device)) then
            log_cb (Msg.using_root (d_path root) device)
          else ret tt);;
         ret (d_path root, Some "/")
     | [] =>
         let mp :=
           head (omap (fun p => if bool_decide (d_path p = device)
                                then truthy (d_mountpoint p) else None) current) in
         ret (device, mp)
     end)
    (fun _ => ret (device, None)).

Definition mkpart_cmd (base_disk : string) : list string :=
  ["parted"; base_disk; "--script"; "mkpart"; "primary"; "ext4"; "-1050MiB"; "-1MiB"].

(** [sorted(list(after_set - before_set))] *)
Definition new_paths (parts_before after : list BlockDevice) : list string :=
  let before_set : gset string := list_to_set (d_path <$> parts_before) in
  let after_set : gset string := list_to_set (d_path <$> after) in
  sort_by id (elements (after_set ∖ before_set)).

(** [create_boot_partition_if_missing] up to [after = list_block_devices()]:
    the two inventories, or an earlier [return]. *)
Definition create_and_rescan (device : string) : M unit (list BlockDevice * list BlockDevice) :=
  parts_before <- list_block_devices E;;
  log_cb Msg.creating_boot;;
  let base_disk := _get_base_disk_from_device device in
  let dev_info := find (fun p => bool_decide (d_path p = device)) parts_before in
  let dev_fstype := match dev_info with Some p => d_fstype p | None => None end in
  let is_luks := is_luks_fstype dev_fstype in
  (if is_luks then
     log_cb Msg.looks_like_luks
   else ret tt);;
  target <- choose_shrink_target device;;
  info <- _get_table_type_and_last_part base_disk;;
  let table_type := fst info in
  log_cb (Msg.table_detected table_type (str_opt_int (snd info)));;
  (if negb is_luks then
     call (_shrink_partition_free_space base_disk (fst target) (snd target));;
     ret tt
   else log_cb Msg.skip_shrink_luks);;
  try_except_cpe
    (run_and_stream E (mkpart_cmd base_disk) true;; ret tt)
    (fun _ _ =>
       (if bool_decide (Py.lower table_type = "msdos") then
          log_cb Msg.msdos_hint
        else ret tt);;
       (if is_luks then
          log_cb Msg.no_space_luks
        else
          log_cb Msg.mkpart_failed);;
       return_ tt);;
  run_and_stream E ["partprobe"; base_disk] false;;
  run_and_stream E ["udevadm"; "settle"] false;;
  after <- list_block_devices E;;
  ret (parts_before, after).

(** The rest of [create_boot_partition_if_missing]: detection of the new
    partition, format, copy of [/boot], entry in [/etc/fstab]. *)
Definition detect_and_install (parts_before after : list BlockDevice) : M unit unit :=
  let new_parts := new_paths parts_before after in
  match last new_parts with
  | None => log_cb Msg.not_detected;; return_ tt
  | Some new_boot =>
      log_cb (Msg.detected new_boot);;
      run_and_stream E ["mkfs.ext4"; "-L"; "BOOT"; new_boot] true;;
      run_and_stream E ["mkdir"; "-p"; "/mnt/tmpboot"] true;;
      run_and_stream E ["mount"; new_boot; "/mnt/tmpboot"] true;;
      run_and_stream E ["bash"; "-c"; "cp -a /boot/. /mnt/tmpboot/"] true;;
      run_and_stream E ["umount"; "/mnt/tmpboot"] true;;
      boot_uuid <-
        try_except
          (blkid_uuid E new_boot)
          (fun ex =>
             log_cb (Msg.no_uuid new_boot (str_exn ex));;
             return_ tt);;
      run_and_stream E
        ["bash"; "-c";
         "echo 'UUID=" +:+ boot_uuid +:+ " /boot ext4 defaults 0 2' >> /etc/fstab"] true;;
      log_cb Msg.boot_created
  end.

Definition create_boot_partition_if_missing (device : string) : M unit unit :=
  snapshots <- create_and_rescan device;;
  detect_and_install (fst snapshots) (snd snapshots).


(** The block under [if run_chroot:] of [boot.py] (563-606): the entry
    of a boot partition is appended to the table of filesystems, and no
    bootloader is installed. *)
Definition system_integration {R} (step_no num_steps : nat)
    (device keyfile : string) : M R unit :=
  log_cb (Msg.paso step_no num_steps Msg.title_chroot);;
  uuid <- blkid_uuid E device;;
  let cryptdev := "/dev/mapper/cryptroot" in
  run_and_stream E ["cryptsetup"; "open"; device; "cryptroot"; "--key-file"; keyfile] true;;
  run_and_stream E ["e2fsck"; "-f"; cryptdev] false;;
  run_and_stream E ["resize2fs"; cryptdev] false;;
  run_and_stream E ["mkdir"; "-p"; "/mnt/root"] false;;
  run_and_stream E ["mount"; cryptdev; "/mnt/root"] false;;
  parts <- list_block_devices E;;
  boot_uuid <- mount_boot_and_efi E parts None;;
  run_and_stream E ["mount"; "--bind"; "/dev"; "/mnt/root/dev"] false;;
  run_and_stream E ["mount"; "--bind"; "/proc"; "/mnt/root/proc"] false;;
  run_and_stream E ["mount"; "--bind"; "/sys"; "/mnt/root/sys"] false;;
  run_and_stream E ["mount"; "--bind"; "/run"; "/mnt/root/run"] false;;
  run_and_stream E
    (chroot_bash ("echo 'cryptroot UUID=" +:+ uuid +:+ " none luks' > /etc/crypttab"))
    false;;
  run_and_stream E
    (chroot_bash "echo '/dev/mapper/cryptroot / ext4 defaults 0 1' > /etc/fstab")
    false;;
  match truthy boot_uuid with
  | Some b =>
      run_and_stream E
        (chroot_bash ("echo 'UUID=" +:+ b +:+ " /boot ext4 defaults 0 2' >> /etc/fstab"))
        false;;
      ret tt
  | None => ret tt
  end;;
  log_cb Msg.initramfs;;
  run_and_stream E (chroot_bash "update-initramfs -u -k all") true;;
  run_and_stream E (chroot_bash (grub_chroot_cmd uuid)) true;;
  ret tt.

Definition count (b : bool) : nat := if b then 1 else 0.

(** The [try] block of [_worker] after [keyfile = tf.name]. *)
Definition steps {R} (device reduce_size : string)
    (run_fsck run_minimize run_boot run_chroot : bool) (keyfile : string) : M R unit :=
  let num_steps :=
    (count run_fsck + count run_minimize + count run_boot + 1 + count run_chroot)%nat in
  let step_no := 1%nat in
  (if run_fsck then
     log_cb (Msg.paso step_no num_steps Msg.title_fsck);;
     run_and_stream E ["e2fsck"; "-f"; "-y"; device] true;;
     ret tt
   else ret tt);;
  let step_no := (step_no + count run_fsck)%nat in
  (if run_minimize then
     log_cb (Msg.paso step_no num_steps Msg.title_minimize);;
     run_and_stream E ["resize2fs"; "-M"; device] true;;
     ret tt
   else ret tt);;
  let step_no := (step_no + count run_minimize)%nat in
  (if run_boot then
     log_cb (Msg.paso step_no num_steps Msg.title_boot);;
     try_except
       (call (create_boot_partition_if_missing device))
       (fun ex =>
          log_cb (Msg.boot_warning (str_exn ex)))
   else ret tt);;
  let step_no := (step_no + count run_boot)%nat in
  log_cb (Msg.paso step_no num_steps Msg.title_reencrypt);;
  run_and_stream E (reencrypt_cmd reduce_size keyfile device) true;;
  let step_no := (step_no + 1)%nat in
  (if run_chroot then system_integration step_no num_steps device keyfile else ret tt);;
  log_cb Msg.completed.

(** [PyrusCryptGUI._worker] of [boot.py]; the window updates are left
    out. *)
Definition _worker (device password reduce_size : string)
    (run_fsck run_minimize run_boot run_chroot : bool) : M unit unit :=
  with_keyfile E
    (steps device reduce_size run_fsck run_minimize run_boot run_chroot)
    (fun e => match e with
              | CalledProcessError rc cmd => Pyrus.on_command_failure rc cmd
              | _ => Pyrus.on_unexpected e
              end).

End Creator.
End Boot.

(** ** The questions of [Tpyrus.py] and the device list of the windows *)

Module Tpyrus.

(** What a loop of questions ends with: the answer it accepts, with the
    lines that were not read; the end of the input ([EOFError]); a
    selection that [isdigit] accepts and [int] rejects ([ValueError]);
    an index out of range ([IndexError]). *)
Inductive asked (A : Type) : Type :=
| Answered (a : A) (rest : list string)
| EndOfInput
| BadNumber
| OutOfRange.
Arguments Answered {A} a rest.
Arguments EndOfInput {A}.
Arguments BadNumber {A}.
Arguments OutOfRange {A}.

(** The loop [while True: sel = input(...).strip() ...] of [main]; the
    lines typed are [answers]. *)
Fixpoint choose_device (devices : list BlockDevice) (answers : list string)
    : asked string :=
  match answers with
  | [] => EndOfInput
  | answer :: rest =>
      let sel := Py.strip answer in
      if Py.str_isdigit sel then
        match Py.int sel with
        | None => BadNumber
        | Some n =>
            if (n <? Z.of_nat (length devices))%Z then
              match Py.index devices n with
              | Some d => Answered (d_path d) rest
              | None => OutOfRange
              end
            else choose_device devices rest
        end
      else choose_device devices rest
  end.

(** The loop that asks for the password twice; the lines typed are
    [answers]. *)
Fixpoint ask_password (answers : list string) : asked string :=
  match answers with
  | password :: password2 :: rest =>
      if bool_decide (password = "") then ask_password rest
      else if negb (bool_decide (password = password2)) then ask_password rest
      else Answered password rest
  | _ => EndOfInput
  end.

End Tpyrus.

Module Gui.

(** [str(x)] for a column of the report. *)
Definition str_opt (x : option string) : string :=
  match x with
  | Some s => s
  | None => "None"
  end.

(** The entry of a device in the list of [refresh_devices]. *)
Definition label (d : BlockDevice) : string :=
  d_path d +:+ "  [" +:+ d_type d +:+ "]  " +:+ str_opt (d_size d)
  +:+ match Boot.truthy (d_mountpoint d) with
      | Some mp => "  (montado en " +:+ mp +:+ ")"
      | None => ""
      end.

(** What [start] does with the selected entry: it shows the warning and
    returns; it takes the first word as the device; [sel.split()[0]]
    raises [IndexError]. *)
Inductive choice : Type :=
| Warned
| Chosen (device : string)
| NoWord.

Definition selected_device (entry : string) : choice :=
  let sel := Py.strip entry in
  if bool_decide (sel = "") then Warned
  else match Py.split_ws sel with
       | device :: _ => Chosen device
       | [] => NoWord
       end.

End Gui.

(** ** Reading a run *)

Definition cmd_of (e : event) : list string :=
  match e with
  | Run cmd _ | Query cmd => cmd
  end.

(** The program a command starts. *)
Definition program (e : event) : string := hd "" (cmd_of e).

(** A command that was started through [run_and_stream]. *)
Definition started (e : event) : bool :=
  match e with
  | Run _ (Some _) => true
  | _ => false
  end.

(** A call to the table editor: [parted] through [run_and_stream]
    ([resizepart], [mkpart]).  The geometry listing is read through
    [subprocess.check_output] and is a [Query]. *)
Definition edits_table (e : event) : Prop :=
  match e with
  | Run cmd _ => hd "" cmd = "parted"
  | Query _ => False
  end.

Definition fsck_cmd (device : string) : list string := ["e2fsck"; "-f"; "-y"; device].
Definition minimize_cmd (device : string) : list string := ["resize2fs"; "-M"; device].

(** The commands of a run with the integrity check and the minimal
    resize enabled, and nothing else. *)
Definition expected_commands (device reduce_size keyfile : string)
    : list (list string) :=
  [fsck_cmd device; minimize_cmd device; reencrypt_cmd reduce_size keyfile device].

(** The three front ends with the integrity check and the minimal resize
    enabled, boot-partition creation and system integration disabled. *)
Definition front_ends (E : env) (device password reduce_size : string)
    : list (M unit unit) :=
  [Pyrus._worker E device password reduce_size true true false;
   Pyrus.main E device password reduce_size true true false;
   Boot._worker E device password reduce_size true true false false].

(** The number of the candidate partition: the value of the digits that
    end its path. *)
Definition partition_number (dev_path : string) : option Z :=
  let part_num := Boot._get_partition_number dev_path in
  if bool_decide (part_num = "") then None
  else Some (Py.digits_value (Py.chars part_num)).

(** The candidate is the highest-numbered partition of a geometry
    listing. *)
Definition is_last_partition (disk dev_path out : string) : Prop :=
  exists k : Z,
    partition_number dev_path = Some k
    /\ snd (Boot.table_type_and_last_part disk (Py.splitlines out)) = Some k.

(** A command that starts one of the given programs. *)
Definition runs_one_of (programs : list string) (cmd : list string) : Prop :=
  hd "" cmd ∈ programs.

(** The programs of the reencryption proper, of the creation of the boot
    partition and of the system integration. *)
Definition core_programs : list string := ["e2fsck"; "resize2fs"; "cryptsetup"].

Definition rescan_programs : list string :=
  ["lsblk"; "parted"; "umount"; "e2fsck"; "resize2fs"; "partprobe"; "udevadm";
   "mkdir"; "mount"].

Definition boot_programs : list string :=
  rescan_programs ++ ["mkfs.ext4"; "bash"; "blkid"].

Definition chroot_programs : list string :=
  ["blkid"; "cryptsetup"; "e2fsck"; "resize2fs"; "mkdir"; "mount"; "lsblk"; "chroot"].

(** The programs a run may start, by the stages that are enabled. *)
Definition allowed_programs (run_boot run_chroot : bool) : list string :=
  core_programs ++ (if run_boot then boot_programs else [])
  ++ (if run_chroot then chroot_programs else []).

(** The programs of the stages that are enabled: the integrity check,
    the minimal resize, the encryption, the creation of the boot
    partition, the system integration. *)
Definition enabled_programs (run_fsck run_minimize run_boot run_chroot : bool)
    : list string :=
  (if run_fsck then ["e2fsck"] else [])
  ++ (if run_minimize then ["resize2fs"] else [])
  ++ ["cryptsetup"]
  ++ (if run_boot then boot_programs else [])
  ++ (if run_chroot then chroot_programs else []).

(** The inventory that [list_block_devices] returns after the commands
    [tr]. *)
Definition inventory_at (E : env) (tr : list event) : list BlockDevice :=
  match lsblk E tr with
  | Some blockdevices => devices_of blockdevices
  | None => []
  end.

(** The selected device is a LUKS container in an inventory: the test
    [is_luks] of [create_boot_partition_if_missing]. *)
Definition device_is_luks (device : string) (parts : list BlockDevice) : bool :=
  Boot.is_luks_fstype
    (match find (fun p => bool_decide (d_path p = device)) parts with
     | Some p => d_fstype p
     | None => None
     end).

(** An inventory shows a partition mounted at the root. *)
Definition has_root_partition (parts : list BlockDevice) : Prop :=
  exists p, p ∈ parts /\ d_mountpoint p = Some "/" /\ d_type p = "part".

(** A command of the shrink planner that changes a filesystem or the
    partition table: the integrity check, the resize of the filesystem
    and the resize of the partition. *)
Definition shrinks (cmd : list string) : Prop :=
  hd "" cmd = "e2fsck" \/ hd "" cmd = "resize2fs"
  \/ exists base_disk part_num new_end,
       cmd = Boot.resizepart_cmd base_disk part_num new_end.

(** A command that installs the bootloader or regenerates its
    configuration inside the new root. *)
Definition installs_bootloader (cmd : list string) : Prop :=
  exists script,
    cmd = chroot_bash script
    /\ (Py.startswith script "grub-install" = true \/ script = "update-grub").

(** A node of the report and the nodes below it, in the order of the
    report. *)
Fixpoint subnodes (n : node) : list node :=
  match n with
  | Node _ _ _ _ _ _ children =>
      n :: (fix subnodes_all (l : list node) : list node :=
              match l with
              | [] => []
              | ch :: l' => subnodes ch ++ subnodes_all l'
              end) children
  end.

(** The entry of the inventory for one node: a disk or a partition has
    one, a node of another kind has none. *)
Definition entry_of (n : node) : option BlockDevice :=
  match n with
  | Node name (Some ntype) size path mountpoint fstype _ =>
      if bool_decide (ntype = "disk" \/ ntype = "part")
      then Some (Device (node_path path name) ntype size mountpoint fstype)
      else None
  | Node _ None _ _ _ _ _ => None
  end.

(** A text that ends neither with a decimal digit nor with a newline. *)
Definition plain_end (stem : string) : Prop :=
  match last (Py.chars stem) with
  | Some c => Py.is_decimal c = false /\ c <> Py.LF
  | None => True
  end.

(** A text made of decimal digits. *)
Definition all_decimal (ds : string) : Prop :=
  Forall (fun c => Py.is_decimal c = true) (Py.chars ds).

(** A line that [_get_partition_end_mib] reads: it is not empty and it
    is neither the [BYT;] line nor the line of the disk. *)
Definition is_entry (disk line : string) : bool :=
  negb (bool_decide (line = "") || Py.startswith line "BYT;"
        || Py.startswith line disk).

(** The first field of a line of the listing. *)
Definition first_field (line : string) : string := hd "" (Py.split ":" line).




(** Where the candidate is mounted after a run, as far as the program can
    tell: an [umount] of the candidate that exits with zero unmounts it, a
    [mount] of the candidate that exits with zero mounts it. *)
Fixpoint mountpoint_after (dev_path : string) (mountpoint : option string)
    (evs : list event) : option string :=
  match evs with
  | [] => mountpoint
  | Run cmd (Some 0%Z) :: evs' =>
      if bool_decide (cmd = ["umount"; dev_path])
      then mountpoint_after dev_path None evs'
      else match cmd with
           | [prog; d; mp] =>
               if bool_decide (prog = "mount" ∧ d = dev_path)
               then mountpoint_after dev_path (Some mp) evs'
               else mountpoint_after dev_path mountpoint evs'
           | _ => mountpoint_after dev_path mountpoint evs'
           end
  | _ :: evs' => mountpoint_after dev_path mountpoint evs'
  end.

(** The order of a sort on text keys. *)
Definition key_le {A} (key : A -> string) (a b : A) : Prop :=
  String.le (key a) (key b).

(** The inventory is sorted by path. *)
Definition path_le : BlockDevice -> BlockDevice -> Prop := key_le d_path.

(** A path of the inventory taken after the creation that the inventory
    taken before does not have. *)
Definition is_new_path (parts_before after : list BlockDevice) (p : string) : Prop :=
  p ∈ (d_path <$> after) /\ p ∉ (d_path <$> parts_before).

(** The kind of an entry of the inventory. *)
Definition is_disk_or_part (d : BlockDevice) : Prop :=
  d_type d = "disk" \/ d_type d = "part".

(** ** Frames of a run

    [within C s s'] relates a state to a later one: the files on disk
    are the same, and the commands issued in between all satisfy [C].
    [stays C m] says that the program [m] keeps this relation from
    every state. *)

Definition within (C : list string -> Prop) (s s' : state) : Prop :=
  files s' = files s
  /\ exists evs, trace s' = trace s ++ evs /\ Forall (fun e => C (cmd_of e)) evs.

Definition stays {R A} (C : list string -> Prop) (m : M R A) : Prop :=
  forall s, within C s (snd (m s)).

(** [ensures C m Post]: [m] stays within [C] and its outcome satisfies
    [Post]. *)
Definition ensures {R A} (C : list string -> Prop) (m : M R A)
    (Post : res R A -> Prop) : Prop :=
  forall s, within C s (snd (m s)) /\ Post (fst (m s)).

(** No command of the shrink planner. *)
Definition no_shrink (cmd : list string) : Prop := ~ shrinks cmd.

(** A program that never ends with a value: it always [return]s early
    or raises. *)
Definition never_val {R A} (m : M R A) : Prop := forall s a, fst (m s) <> Val a.

(** ** Scenarios *)

Module Scenario.

Definition keyfile : string := "/tmp/tmpk3y".

(** An inventory with one disk and one partition mounted at the root. *)
Definition one_root_partition : list node :=
  [Node (Some "sda") (Some "disk") (Some "20G") (Some "/dev/sda") None None
     [Node (Some "sda1") (Some "part") (Some "20G") (Some "/dev/sda1")
        (Some "/") (Some "ext4") []]].

(** Every command exits with zero. *)
Definition all_succeed : env :=
  Env (fun _ _ => Exited [] 0%Z) (fun _ _ => Output "0c3a-77")
      (fun _ => Some one_root_partition) (Written keyfile).

(** The integrity check finds errors it cannot repair and exits with 8. *)
Definition fsck_fails : env :=
  Env (fun _ cmd => if bool_decide (hd "" cmd = "e2fsck")
                    then Exited ["UNEXPECTED INCONSISTENCY"] 8%Z
                    else Exited [] 0%Z)
      (fun _ _ => Output "0c3a-77")
      (fun _ => Some one_root_partition) (Written keyfile).

(** The minimal resize fails. *)
Definition minimize_fails : env :=
  Env (fun _ cmd => if bool_decide (hd "" cmd = "resize2fs")
                    then Exited ["resize2fs: no space left"] 1%Z
                    else Exited [] 0%Z)
      (fun _ _ => Output "0c3a-77")
      (fun _ => Some one_root_partition) (Written keyfile).

(** Every [cryptsetup] command fails. *)
Definition encryption_fails : env :=
  Env (fun _ cmd => if bool_decide (hd "" cmd = "cryptsetup")
                    then Exited ["Device is in use"] 1%Z
                    else Exited [] 0%Z)
      (fun _ _ => Output "0c3a-77")
      (fun _ => Some one_root_partition) (Written keyfile).

(** The key file is created and [flush] raises: no space is left. *)
Definition key_write_fails : env :=
  Env (fun _ _ => Exited [] 0%Z) (fun _ _ => Output "0c3a-77")
      (fun _ => Some one_root_partition) (CreatedThenRaised keyfile).

Definition lines_text (lines : list string) : string :=
  Py.join Py.nl lines +:+ Py.nl.

(** A disk with two partitions, the second one the last. *)
Definition two_partitions : string :=
  lines_text
    ["BYT;";
     "/dev/sda:20480MiB:scsi:512:512:gpt:ATA DISK:;";
     "1:1.00MiB:10000MiB:9999MiB:ext4::;";
     "2:10000MiB:20000MiB:10000MiB:ext4::;"].



(** A disk whose only partition ends at a fraction of a MiB. *)
Definition fractional_end : string :=
  lines_text
    ["BYT;";
     "/dev/sda:20480MiB:scsi:512:512:gpt:ATA DISK:;";
     "1:1.00MiB:10240.50MiB:10239.50MiB:ext4::;"].

(** A disk whose only partition follows a stretch of free space: the
    listing numbers the free stretch 1 as well. *)
Definition free_space_first : string :=
  lines_text
    ["BYT;";
     "/dev/sda:20480MiB:scsi:512:512:gpt:ATA DISK:;";
     "1:0.02MiB:1.00MiB:0.98MiB:free;";
     "1:1.00MiB:20480MiB:20479MiB:ext4::;"].

(** One disk with one partition that is not mounted. *)
Definition single_partition : list node :=
  [Node (Some "sda") (Some "disk") (Some "20G") (Some "/dev/sda") None None
     [Node (Some "sda1") (Some "part") (Some "20G") (Some "/dev/sda1")
        None (Some "ext4") []]].

(** Every command exits with zero and the geometry query prints
    [listing]. *)
Definition with_listing (listing : string) (inventory : list node) : env :=
  Env (fun _ _ => Exited [] 0%Z)
      (fun _ cmd => if bool_decide (hd "" cmd = "parted") then Output listing
                    else Output "0c3a-77")
      (fun _ => Some inventory) (Written keyfile).

(** Two partitions, the second one mounted at [/data]. *)
Definition data_inventory : list node :=
  [Node (Some "sda") (Some "disk") (Some "20G") (Some "/dev/sda") None None
     [Node (Some "sda1") (Some "part") (Some "10G") (Some "/dev/sda1")
        None (Some "ext4") [];
      Node (Some "sda2") (Some "part") (Some "10G") (Some "/dev/sda2")
        (Some "/data") (Some "ext4") []]].

(** The same inventory once a third partition exists. *)
Definition grown_inventory : list node :=
  [Node (Some "sda") (Some "disk") (Some "20G") (Some "/dev/sda") None None
     [Node (Some "sda1") (Some "part") (Some "10G") (Some "/dev/sda1")
        None (Some "ext4") [];
      Node (Some "sda2") (Some "part") (Some "9G") (Some "/dev/sda2")
        (Some "/data") (Some "ext4") [];
      Node (Some "sda3") (Some "part") (Some "1G") (Some "/dev/sda3")
        None None []]].

(** The selected partition is a LUKS container. *)
Definition luks_inventory : list node :=
  [Node (Some "sda") (Some "disk") (Some "20G") (Some "/dev/sda") None None
     [Node (Some "sda1") (Some "part") (Some "20G") (Some "/dev/sda1")
        None (Some "crypto_LUKS") []]].

(** The table editor finds no room for a new partition. *)
Definition mkpart_fails : env :=
  Env (fun _ cmd => if bool_decide (cmd = Boot.mkpart_cmd "/dev/sda")
                    then Exited ["Error: no free space"] 1%Z
                    else Exited [] 0%Z)
      (fun _ cmd => if bool_decide (hd "" cmd = "parted") then Output two_partitions
                    else Output "0c3a-77")
      (fun _ => Some data_inventory) (Written keyfile).

(** The new partition shows up once [mkpart] has run. *)
Definition partition_appears : env :=
  Env (fun _ _ => Exited [] 0%Z)
      (fun _ cmd => if bool_decide (hd "" cmd = "parted") then Output two_partitions
                    else Output "0c3a-77")
      (fun tr => if bool_decide (Run (Boot.mkpart_cmd "/dev/sda") (Some 0%Z) ∈ tr)
                 then Some grown_inventory else Some data_inventory)
      (Written keyfile).

End Scenario.

(** * Properties *)

Global Arguments Py.join : simpl never.
Global Arguments Py.str_int : simpl never.
Global Arguments Py.splitlines : simpl never.
Global Arguments Py.rstrip_digits : simpl never.
Global Arguments Boot._get_partition_number : simpl never.
Global Arguments Boot._get_base_disk_from_device : simpl never.
Global Arguments Boot.end_mib_of_lines : simpl never.
Global Arguments Boot.table_type_and_last_part : simpl never.
Global Arguments Boot.str_opt_int : simpl never.
Global Arguments Boot.is_luks_fstype : simpl never.
Global Arguments Boot.new_paths : simpl never.
Global Arguments PyFloat.to_int : simpl never.
Global Arguments PyFloat.max2 : simpl never.
Global Arguments PyFloat.sub : simpl never.
Global Arguments PyFloat.of_Z : simpl never.
Global Arguments str_exn : simpl never.
Global Arguments devices_of : simpl never.
Global Arguments reencrypt_cmd : simpl never.
Global Arguments grub_chroot_cmd : simpl never.

Global Opaque Msg.prompt Msg.paso Msg.paso1 Msg.paso2 Msg.paso3 Msg.paso4
  Msg.initramfs Msg.completed Msg.command_failed Msg.unexpected Msg.shrinking
  Msg.mounted_as_root Msg.unmounting Msg.no_partition_number
  Msg.not_last_partition Msg.remounting Msg.shrink_failed Msg.using_root
  Msg.creating_boot Msg.looks_like_luks Msg.table_detected Msg.skip_shrink_luks
  Msg.msdos_hint Msg.no_space_luks Msg.mkpart_failed Msg.not_detected
  Msg.detected Msg.no_uuid Msg.boot_created Msg.boot_warning.

(** ** Running a program step by step

    [wp m s Q]: the outcome of [m] from the state [s] satisfies [Q].
    There is one rule per construct, so that a proof follows the program
    text.  The rules keep the state in the form
    [State (tr ++ evs) lg fs], where [tr] is the trace before the run
    and [evs] lists the commands issued since. *)

Definition wp {R A} (m : M R A) (s : state) (Q : res R A -> state -> Prop) : Prop :=
  Q (fst (m s)) (snd (m s)).

Fixpoint snoc (evs : list event) (e : event) : list event :=
  match evs with
  | [] => [e]
  | x :: evs' => x :: snoc evs' e
  end.

Lemma snoc_app evs e : snoc evs e = evs ++ [e].
Proof. induction evs; simpl; congruence. Qed.

Lemma emit_snoc tr evs lg fs e :
  emit e (State (tr ++ evs) lg fs) = State (tr ++ snoc evs e) lg fs.
Proof. unfold emit. simpl. by rewrite snoc_app, app_assoc. Qed.

Lemma logged_State l tr lg fs : logged l (State tr lg fs) = State tr (lg ++ l) fs.
Proof. reflexivity. Qed.

Section Rules.
Context {R A : Type}.
Implicit Types (s : state) (E : env) (Q : res R A -> state -> Prop).

Lemma wp_elim (m : M R A) s Q : wp m s Q -> Q (fst (m s)) (snd (m s)).
Proof. done. Qed.

Lemma wp_start (m : M R A) tr lg fs Q :
  wp m (State (tr ++ []) lg fs) Q -> wp m (State tr lg fs) Q.
Proof. by rewrite app_nil_r. Qed.

Lemma wp_bind {B} (m : M R B) (k : B -> M R A) s Q :
  wp m s (fun r s' => match r with
                      | Val b => wp (k b) s' Q
                      | Ret x => Q (Ret x) s'
                      | Exn e => Q (Exn e) s'
                      end) ->
  wp (bind m k) s Q.
Proof. unfold wp, bind. by destruct (m s) as [[]]. Qed.

Lemma wp_ret (a : A) s Q : Q (Val a) s -> wp (ret a) s Q.
Proof. done. Qed.

Lemma wp_return (r : R) s Q : Q (Ret r) s -> wp (return_ r) s Q.
Proof. done. Qed.

Lemma wp_raise (e : exn) s Q : Q (Exn e) s -> wp (raise e) s Q.
Proof. done. Qed.

Lemma wp_pure (r : res R A) s Q : Q r s -> wp (pure r) s Q.
Proof. done. Qed.

Lemma wp_resume {B} (r : res R B) (k : B -> M R A) s Q :
  match r with
  | Val b => wp (k b) s Q
  | Ret x => Q (Ret x) s
  | Exn e => Q (Exn e) s
  end ->
  wp (resume r k) s Q.
Proof. by destruct r. Qed.

Lemma wp_try_except (body : M R A) (handler : exn -> M R A) s Q :
  wp body s (fun r s' => match r with
                         | Exn (SystemExit code) => Q (Exn (SystemExit code)) s'
                         | Exn e => wp (handler e) s' Q
                         | _ => Q r s'
                         end) ->
  wp (try_except body handler) s Q.
Proof. unfold wp, try_except. by destruct (body s) as [[?|?|[]] ?]. Qed.

Lemma wp_try_except_cpe (body : M R A) (handler : Z -> list string -> M R A) s Q :
  wp body s (fun r s' => match r with
                         | Exn (CalledProcessError rc cmd) => wp (handler rc cmd) s' Q
                         | _ => Q r s'
                         end) ->
  wp (try_except_cpe body handler) s Q.
Proof.
  unfold wp, try_except_cpe, try_except. by destruct (body s) as [[?|?|[]] ?].
Qed.

Lemma wp_try_finally (body : M R A) (final : M R unit) s Q :
  wp body s (fun r s' =>
    wp final s' (fun r' s'' => match r' with
                               | Val _ => Q r s''
                               | Ret x => Q (Ret x) s''
                               | Exn e => Q (Exn e) s''
                               end)) ->
  wp (try_finally body final) s Q.
Proof.
  unfold wp, try_finally. destruct (body s) as [r s']. simpl.
  by destruct (final s') as [[]].
Qed.

Lemma wp_log (text : string) tr lg fs (Q : res R unit -> state -> Prop) :
  Q (Val tt) (State tr (lg ++ [text]) fs) -> wp (log_cb text) (State tr lg fs) Q.
Proof. done. Qed.

Lemma wp_run E (cmd : list string) (check : bool) tr evs lg fs
    (Q : res R Z -> state -> Prop) :
  (popen E (tr ++ evs) cmd = NotStarted ->
   Q (Exn (Exception "OSError"))
     (State (tr ++ snoc evs (Run cmd None)) (lg ++ [Msg.prompt cmd]) fs)) ->
  (forall lines rc, popen E (tr ++ evs) cmd = Exited lines rc ->
     check = true -> rc <> 0%Z ->
     Q (Exn (CalledProcessError rc cmd))
       (State (tr ++ snoc evs (Run cmd (Some rc)))
              ((lg ++ [Msg.prompt cmd]) ++ lines) fs)) ->
  (forall lines rc, popen E (tr ++ evs) cmd = Exited lines rc ->
     check = false \/ rc = 0%Z ->
     Q (Val rc)
       (State (tr ++ snoc evs (Run cmd (Some rc)))
              ((lg ++ [Msg.prompt cmd]) ++ lines) fs)) ->
  wp (run_and_stream E cmd check) (State (tr ++ evs) lg fs) Q.
Proof.
  intros Hns Hfail Hok. unfold wp, run_and_stream, bind, log_cb. simpl.
  rewrite logged_State. simpl.
  destruct (popen E (tr ++ evs) cmd) as [lines rc|]; simpl.
  - destruct check; simpl.
    + destruct (Z.eqb_spec rc 0); simpl; rewrite emit_snoc, logged_State;
        [apply Hok|apply Hfail]; auto.
    + rewrite emit_snoc, logged_State. apply Hok; auto.
  - rewrite emit_snoc. by apply Hns.
Qed.

Lemma wp_check_output E (cmd : list string) tr evs lg fs
    (Q : res R string -> state -> Prop) :
  (forall out, check_output E (tr ++ evs) cmd = Output out ->
     Q (Val out) (State (tr ++ snoc evs (Query cmd)) lg fs)) ->
  (forall rc, check_output E (tr ++ evs) cmd = Failed rc ->
     Q (Exn (CalledProcessError rc cmd)) (State (tr ++ snoc evs (Query cmd)) lg fs)) ->
  (check_output E (tr ++ evs) cmd = NoSuchTool ->
     Q (Exn (Exception "OSError")) (State (tr ++ snoc evs (Query cmd)) lg fs)) ->
  wp (subprocess_check_output E cmd) (State (tr ++ evs) lg fs) Q.
Proof.
  intros Hout Hfail Hnone. unfold wp, subprocess_check_output. simpl.
  rewrite emit_snoc.
  destruct (check_output E (tr ++ evs) cmd); simpl; auto.
Qed.

Lemma wp_list_block_devices E tr evs lg fs
    (Q : res R (list BlockDevice) -> state -> Prop) :
  (forall devices,
     devices = match lsblk E (tr ++ evs) with
               | None => []
               | Some blockdevices => devices_of blockdevices
               end ->
     Q (Val devices) (State (tr ++ snoc evs (Query lsblk_cmd)) lg fs)) ->
  wp (list_block_devices E) (State (tr ++ evs) lg fs) Q.
Proof.
  intros H. unfold wp, list_block_devices. simpl. rewrite emit_snoc.
  destruct (lsblk E (tr ++ evs)); simpl; by apply H.
Qed.

Lemma wp_remove_keyfile (keyfile : option string) tr lg fs
    (Q : res R unit -> state -> Prop) :
  Q (Val tt) (State tr lg (unlinked keyfile fs)) ->
  wp (remove_keyfile keyfile) (State tr lg fs) Q.
Proof. done. Qed.

Lemma wp_with_keyfile E (body : string -> M R unit) (handler : exn -> M R unit)
    tr lg fs (Q : res R unit -> state -> Prop) :
  (NamedTemporaryFile E = NotCreated ->
   wp (try_finally (try_except (raise (Exception "OSError")) handler)
                   (remove_keyfile None)) (State tr lg fs) Q) ->
  (forall name, NamedTemporaryFile E = CreatedThenRaised name ->
   wp (try_finally (try_except (raise (Exception "OSError")) handler)
                   (remove_keyfile None)) (State tr lg ({[name]} ∪ fs)) Q) ->
  (forall name, NamedTemporaryFile E = Written name ->
   wp (try_finally (try_except (body name) handler)
                   (remove_keyfile (Some name))) (State tr lg ({[name]} ∪ fs)) Q) ->
  wp (with_keyfile E body handler) (State tr lg fs) Q.
Proof.
  intros Hnone Hleft Hok. unfold wp, with_keyfile, write_keyfile.
  destruct (NamedTemporaryFile E) as [|name|name].
  - by apply Hnone.
  - by apply Hleft.
  - by apply Hok.
Qed.

End Rules.

Lemma wp_call {R R'} (f : M R R) s (Q : res R' R -> state -> Prop) :
  wp f s (fun r s' => match r with
                      | Val v | Ret v => Q (Val v) s'
                      | Exn e => Q (Exn e) s'
                      end) ->
  wp (call f) s Q.
Proof. unfold wp, call. by destruct (f s) as [[]]. Qed.

Global Opaque wp.

(** A goal about the outcome of [m] from the state [s] becomes a [wp]
    goal with an abstract postcondition. *)
Ltac by_wp m s :=
  pattern (fst (m s)), (snd (m s)); apply wp_elim;
  lazymatch goal with
  | |- wp _ _ ?Q => let post := fresh "post" in set (post := Q)
  end;
  first [ is_var s; destruct s as [? ? ?] | idtac ];
  apply wp_start.

(** A fresh fact about the environment is compared with what is known
    already. *)
Ltac learn H :=
  try match type of H with
  | popen ?E ?t ?c = _ =>
      match goal with
      | H' : popen E t c = _ |- _ =>
          lazymatch H' with
          | H => fail
          | _ => rewrite H' in H;
                 first [discriminate H | injection H as ? ?; subst; try done]
          end
      end
  | check_output ?E ?t ?c = _ =>
      match goal with
      | H' : check_output E t c = _ |- _ =>
          lazymatch H' with
          | H => fail
          | _ => rewrite H' in H;
                 first [discriminate H | injection H as ?; subst]
          end
      end
  end.

(** The rule of the construct at the head of the program. *)
Ltac wp_rule :=
  lazymatch goal with
  | |- wp (bind _ _) _ _ => apply wp_bind
  | |- wp (ret _) _ _ => apply wp_ret
  | |- wp (return_ _) _ _ => apply wp_return
  | |- wp (raise _) _ _ => apply wp_raise
  | |- wp (pure _) _ _ => apply wp_pure
  | |- wp (resume _ _) _ _ => apply wp_resume
  | |- wp (try_except _ _) _ _ => apply wp_try_except
  | |- wp (try_except_cpe _ _) _ _ => apply wp_try_except_cpe
  | |- wp (try_finally _ _) _ _ => apply wp_try_finally
  | |- wp (call _) _ _ => apply wp_call
  | |- wp (log_cb _) _ _ => apply wp_log
  | |- wp (remove_keyfile _) _ _ => apply wp_remove_keyfile
  | |- wp (list_block_devices _) _ _ =>
      let H := fresh "Hlsblk" in
      apply wp_list_block_devices; intros ? H; cbv delta [snoc] in H
  | |- wp (with_keyfile _ _ _) _ _ =>
      let H := fresh "Hkey" in
      apply wp_with_keyfile; [intros H | intros ? H | intros ? H]
  | |- wp (run_and_stream _ _ _) _ _ =>
      let H := fresh "Hrun" in
      let Hrc := fresh "Hrc" in
      apply wp_run;
      [ intros H; learn H
      | intros ? ? H ? Hrc; try discriminate; learn H; try done
      | intros ? ? H Hrc; destruct Hrc as [Hrc|Hrc]; [try discriminate Hrc|subst];
        learn H ]
  | |- wp (subprocess_check_output _ _) _ _ =>
      let H := fresh "Hout" in
      apply wp_check_output; [intros ? H | intros ? H | intros H]; learn H
  | |- wp (if ?b then _ else _) _ _ => destruct b eqn:?
  | |- wp (match ?x with _ => _ end) _ _ => destruct x eqn:?
  | |- match ?x with _ => _ end => destruct x eqn:?
  end.

Ltac wp_step := wp_rule; cbv beta iota zeta delta [snoc].

(** The program is run to its end along every path; what is left is the
    property of each final state. *)
Ltac wp_run_all :=
  repeat wp_step;
  try match goal with post := _ |- _ => subst post end;
  cbv beta; simpl.

(** ** The reencryption pipeline *)

Lemma front_end_cases E device password reduce_size run :
  run ∈ front_ends E device password reduce_size ->
  run = Pyrus._worker E device password reduce_size true true false
  \/ run = Pyrus.main E device password reduce_size true true false
  \/ run = Boot._worker E device password reduce_size true true false false.
Proof.
  unfold front_ends. rewrite !elem_of_cons, elem_of_nil. tauto.
Qed.

Ltac unfold_pipeline :=
  unfold Pyrus._worker, Pyrus.main, Boot._worker, Pyrus.steps, Boot.steps,
    Pyrus.on_command_failure, Pyrus.on_unexpected; simpl.

(** C1. A run with the integrity check and the minimal resize enabled,
    boot-partition creation and system integration disabled, issues a
    prefix of the sequence: integrity check, minimal resize, in-place
    encryption with the configured reduce size; it never issues a mount
    or a chroot command.  When the key file is written and the
    integrity check and the minimal resize exit with zero, it issues
    exactly the three commands, in this order. *)
Theorem pipeline_issues_check_resize_encrypt
    (E : env) (device password reduce_size : string) (run : M unit unit)
    (s0 : state) :
  run ∈ front_ends E device password reduce_size ->
  (exists (k : string) (evs : list event),
      trace (snd (run s0)) = trace s0 ++ evs
      /\ (cmd_of <$> evs) `prefix_of` expected_commands device reduce_size k
      /\ Forall (fun e => program e <> "mount" /\ program e <> "chroot") evs)
  /\ (forall (k : string) (o1 o2 : list string),
        NamedTemporaryFile E = Written k ->
        popen E (trace s0) (fsck_cmd device) = Exited o1 0 ->
        popen E (trace s0 ++ [Run (fsck_cmd device) (Some 0%Z)])
              (minimize_cmd device) = Exited o2 0 ->
        exists rc,
          trace (snd (run s0))
          = trace s0 ++ [Run (fsck_cmd device) (Some 0%Z);
                         Run (minimize_cmd device) (Some 0%Z);
                         Run (reencrypt_cmd reduce_size k device) rc]).
Proof.
  intros Hrun. unfold fsck_cmd, minimize_cmd, expected_commands.
  apply front_end_cases in Hrun as [->|[->| ->]].
  all: match goal with |- context [snd (?m ?s)] => by_wp m s end.
  all: unfold_pipeline; wp_run_all.
  all: split;
    [|intros k' o1 o2 Hk' Ho1 Ho2; rewrite ?app_nil_r in *;
      rewrite Hkey in Hk'; try discriminate Hk'; injection Hk' as ->;
      repeat match goal with
             | H : popen ?E ?t ?c = _, H' : popen ?E ?t ?c = _ |- _ =>
                 rewrite H in H'; first [discriminate H' | injection H' as ? ?; subst]
             end; try done; eexists; reflexivity].
  all: match goal with
       | |- context [reencrypt_cmd _ ?name _] => exists name
       | |- _ => exists ""
       end.
  all: try (exists []; split; [by rewrite app_nil_r|]; split;
            [apply prefix_nil|constructor]).
  all: eexists; split; [reflexivity|]; split;
       [ simpl; repeat first [apply prefix_nil | apply prefix_cons]
       | repeat constructor; unfold reencrypt_cmd; simpl; discriminate ].
Qed.

Lemma pipeline_issues_check_resize_encrypt_witness :
  exists rc,
    trace (snd (Pyrus._worker Scenario.all_succeed "/dev/sda1" "hunter2" "32M"
                  true true false initial))
    = [Run (fsck_cmd "/dev/sda1") (Some 0%Z);
       Run (minimize_cmd "/dev/sda1") (Some 0%Z);
       Run (reencrypt_cmd "32M" Scenario.keyfile "/dev/sda1") rc].
Proof.
  destruct (pipeline_issues_check_resize_encrypt Scenario.all_succeed
              "/dev/sda1" "hunter2" "32M"
              (Pyrus._worker Scenario.all_succeed "/dev/sda1" "hunter2" "32M"
                 true true false) initial) as [_ H].
  - apply list_elem_of_here.
  - apply (H Scenario.keyfile [] []); reflexivity.
Defined.

(** C1, as stated, fails when the integrity check exits with a status
    other than zero: the run stops after it. *)
Lemma pipeline_stops_after_failed_check :
  let s := snd (Pyrus._worker Scenario.fsck_fails "/dev/sda1" "hunter2" "32M"
                  true true false initial) in
  cmd_of <$> trace s = [fsck_cmd "/dev/sda1"]
  /\ forall k, cmd_of <$> trace s <> expected_commands "/dev/sda1" "32M" k.
Proof.
  vm_compute. split; [reflexivity|intros k; discriminate].
Qed.

(** C2. The key file is left on disk when it is created and one of
    [write], [flush], [close] raises: [keyfile] is still [None] when the
    [finally] block runs.  Every front end behaves so. *)
Lemma keyfile_left_when_write_raises :
  let E := Scenario.key_write_fails in
  Scenario.keyfile ∈ files (snd (Pyrus._worker E "/dev/sda1" "hunter2" "32M" true true false initial))
  /\ Scenario.keyfile ∈ files (snd (Pyrus.main E "/dev/sda1" "hunter2" "32M" true true false initial))
  /\ Scenario.keyfile ∈ files (snd (Boot._worker E "/dev/sda1" "hunter2" "32M" true true false false initial)).
Proof.
  repeat split; apply bool_decide_unpack; vm_compute; exact I.
Qed.

(** ** Shrink planner *)

(** C3. A candidate mounted at the root is refused: the call returns
    [False] and issues no command at all, neither through
    [run_and_stream] nor through [check_output]. *)
Theorem shrink_refuses_root_mount
    (E : env) (base_disk dev_path : string) (s0 : state) :
  let run := call (R' := unit)
               (Boot._shrink_partition_free_space E base_disk dev_path (Some "/")) in
  fst (run s0) = Val false
  /\ trace (snd (run s0)) = trace s0
  /\ files (snd (run s0)) = files s0.
Proof.
  intros run. subst run.
  match goal with |- context [snd (?m ?s)] => by_wp m s end.
  unfold Boot._shrink_partition_free_space. simpl.
  wp_run_all. by rewrite app_nil_r.
Qed.

(** *** Decimal numerals *)

Lemma chars_text l : Py.chars (Py.text l) = l.
Proof. apply list_ascii_of_string_of_list_ascii. Qed.

Lemma text_chars s : Py.text (Py.chars s) = s.
Proof. apply string_of_list_ascii_of_string. Qed.

Lemma span_fst_Forall p l : Forall (fun c => p c = true) (fst (Py.span p l)).
Proof.
  induction l as [|c l IH]; simpl; [constructor|].
  destruct (p c) eqn:Hc; [|constructor].
  destruct (Py.span p l) as [a b]. simpl in *. by constructor.
Qed.

Lemma span_app p l : fst (Py.span p l) ++ snd (Py.span p l) = l.
Proof.
  induction l as [|c l IH]; simpl; [done|].
  destruct (p c); [|done]. destruct (Py.span p l) as [a b]. simpl in *. by f_equal.
Qed.

Lemma partition_number_digits dev_path :
  Forall (fun c => Py.is_decimal c = true)
    (Py.chars (Boot._get_partition_number dev_path)).
Proof.
  unfold Boot._get_partition_number, Py.re_search_digits_end.
  destruct (Py.at_dollar dev_path) as [r tail]. rewrite chars_text.
  apply Forall_rev, span_fst_Forall.
Qed.

Lemma uint_value_acc (d : Decimal.uint) (acc : positive) :
  fold_left Py.horner (Py.chars (NilEmpty.string_of_uint d)) (Zpos acc)
  = Zpos (Pos.of_uint_acc d acc).
Proof.
  revert acc. induction d; intros acc; simpl; [done|..];
    (etrans; [|apply IHd]); f_equal; unfold Py.horner; simpl; lia.
Qed.

Lemma uint_value (d : Decimal.uint) :
  fold_left Py.horner (Py.chars (NilEmpty.string_of_uint d)) 0%Z
  = Z.of_N (Pos.of_uint d).
Proof.
  induction d; simpl; [done|done|..]; apply (uint_value_acc d).
Qed.

Lemma digits_value_str_int (k : Z) :
  (0 <= k)%Z -> Py.digits_value (Py.chars (Py.str_int k)) = k.
Proof.
  intros Hk. unfold Py.str_int, Py.digits_value.
  destruct k as [|p|p]; [done| |lia].
  simpl. unfold NilZero.string_of_uint.
  pose proof (DecimalPos.Unsigned.to_uint_nonnil p) as Hnil.
  destruct (Pos.to_uint p) eqn:Hp; [done|..];
    rewrite <- Hp, uint_value, DecimalPos.Unsigned.of_to; done.
Qed.

Lemma str_int_negative (k : Z) :
  (k < 0)%Z -> ~ Forall (fun c => Py.is_decimal c = true) (Py.chars (Py.str_int k)).
Proof.
  destruct k as [|p|p]; [lia|lia|]. intros _ H.
  unfold Py.str_int in H. simpl in H. by apply Forall_cons in H as [? _].
Qed.

(** The comparison of [_shrink_partition_free_space] lets only the
    highest-numbered partition through. *)
Lemma number_check_sound (disk dev_path out : string) :
  Boot._get_partition_number dev_path <> "" ->
  Boot._get_partition_number dev_path
  = Boot.str_opt_int (snd (Boot.table_type_and_last_part disk (Py.splitlines out))) ->
  is_last_partition disk dev_path out.
Proof.
  intros Hne Heq. unfold is_last_partition, partition_number.
  rewrite bool_decide_eq_false_2 by done.
  pose proof (partition_number_digits dev_path) as Hd. rewrite Heq in Hd |- *.
  destruct (snd _) as [k|]; simpl in *.
  - exists k. split; [|done]. f_equal.
    destruct (Z.lt_ge_cases k 0) as [Hk|Hk].
    + by apply str_int_negative in Hd.
    + by apply digits_value_str_int.
  - exfalso. by apply Forall_cons in Hd as [? _].
Qed.

Ltac unfold_shrink :=
  unfold Boot._shrink_partition_free_space, Boot._get_table_type_and_last_part,
    Boot._get_partition_end_mib, Boot.int_of_float; simpl.

(** C4. When no geometry listing of the disk shows the candidate as the
    highest-numbered partition, the call returns [False] and never runs
    the table editor: every [parted] invocation of the call is the
    listing query.  In the scenario with partitions 1 and 2, the shrink of
    partition 1 stops at the comparison with the last partition, after
    the integrity check, the minimal resize and the listing query. *)
Theorem shrink_refuses_when_not_last
    (E : env) (base_disk dev_path : string) (current_mountpoint : option string)
    (s0 : state) :
  (forall tr out,
      check_output E tr (Boot.parted_print base_disk) = Output out ->
      ~ is_last_partition base_disk dev_path out) ->
  let run := call (R' := unit)
               (Boot._shrink_partition_free_space E base_disk dev_path
                  current_mountpoint) in
  (fst (run s0) = Val false
   /\ exists evs, trace (snd (run s0)) = trace s0 ++ evs
                  /\ Forall (fun e => ~ edits_table e) evs)
  /\ (let E3 := Scenario.with_listing Scenario.two_partitions Scenario.data_inventory in
      let s := snd (Boot._shrink_partition_free_space E3 "/dev/sda" "/dev/sda1"
                      None initial) in
      last (log s) = Some (Msg.not_last_partition "1" "2")
      /\ trace s = [Run (fsck_cmd "/dev/sda1") (Some 0%Z);
                    Run (minimize_cmd "/dev/sda1") (Some 0%Z);
                    Query (Boot.parted_print "/dev/sda")]).
Proof.
  intros Hnot run. subst run. split; [|by vm_compute].
  match goal with |- context [snd (?m ?s)] => by_wp m s end.
  unfold_shrink. wp_run_all.
  all: try match goal with
       | Hq : check_output _ _ _ = Output ?out,
         Hc : negb (bool_decide (_ = _)) = false |- _ =>
           exfalso; apply (Hnot _ _ Hq); apply negb_false_iff, bool_decide_eq_true in Hc;
           apply number_check_sound; [|exact Hc];
           match goal with
           | Hn : bool_decide (_ = "") = false |- _ =>
               by apply bool_decide_eq_false in Hn
           end
       end.
  all: split; [reflexivity|].
  all: try (exists []; split; [by rewrite app_nil_r|constructor]).
  all: eexists; split; [reflexivity|]; repeat constructor; simpl;
       first [intros [=] | tauto].
Qed.

Lemma shrink_refuses_when_not_last_witness :
  fst (call (R' := unit)
         (Boot._shrink_partition_free_space
            (Scenario.with_listing Scenario.two_partitions Scenario.data_inventory)
            "/dev/sda" "/dev/sda1" None) initial) = Val false.
Proof.
  destruct (shrink_refuses_when_not_last
              (Scenario.with_listing Scenario.two_partitions Scenario.data_inventory)
              "/dev/sda" "/dev/sda1" None initial) as [[H _] _]; [|exact H].
  intros tr out Hout [k [Hk Hlast]].
  vm_compute in Hout. injection Hout as <-.
  vm_compute in Hk, Hlast. congruence.
Defined.

Lemma end_mib_of_lines_not_ret {R} (disk part_num : string) (lines : list string)
    (r : R) :
  Boot.end_mib_of_lines disk part_num lines <> Ret r.
Proof.
  induction lines as [|line rest IH]; [discriminate|].
  unfold Boot.end_mib_of_lines; fold (@Boot.end_mib_of_lines R disk part_num).
  repeat case_match; first [discriminate | exact IH].
Qed.

Lemma end_mib_of_lines_no_exit {R} (disk part_num : string) (lines : list string)
    (code : Z) :
  Boot.end_mib_of_lines (R := R) disk part_num lines <> Exn (SystemExit code).
Proof.
  induction lines as [|line rest IH]; [discriminate|].
  unfold Boot.end_mib_of_lines; fold (@Boot.end_mib_of_lines R disk part_num).
  repeat case_match; first [discriminate | exact IH].
Qed.

Lemma every_run (P : list string -> option Z -> Prop) (evs : list event) :
  Forall (fun e => match e with Run cmd rc => P cmd rc | Query _ => True end) evs ->
  forall cmd rc, Run cmd rc ∈ evs -> P cmd rc.
Proof.
  intros Hall cmd rc Hin.
  exact (proj1 (Forall_forall _ _) Hall _ Hin).
Qed.

(** Whenever the call runs the table editor, the command is
    [resizepart] of the candidate to [int(max(1.0, current_end - 1050.0))]
    MiB, where [current_end] is what [_get_partition_end_mib] reads in
    the geometry listing queried just before.  A call that returns
    [True] has run it. *)
Lemma shrink_resizes_to_what_it_reads
    (E : env) (base_disk dev_path : string) (current_mountpoint : option string)
    (s0 : state) :
  let run := call (R' := unit)
               (Boot._shrink_partition_free_space E base_disk dev_path
                  current_mountpoint) in
  let part_num := Boot._get_partition_number dev_path in
  exists evs,
    trace (snd (run s0)) = trace s0 ++ evs
    /\ (forall cmd rc,
          Run cmd rc ∈ evs -> hd "" cmd = "parted" ->
          exists pre out current_end new_end,
            check_output E (trace s0 ++ pre) (Boot.parted_print base_disk) = Output out
            /\ (pre ++ [Query (Boot.parted_print base_disk); Run cmd rc]) `prefix_of` evs
            /\ Boot.end_mib_of_lines (R := bool) base_disk part_num (Py.splitlines out)
               = Val current_end
            /\ PyFloat.to_int (PyFloat.max2 (PyFloat.of_Z 1)
                                 (PyFloat.sub current_end (PyFloat.of_Z 1050)))
               = Some new_end
            /\ cmd = Boot.resizepart_cmd base_disk part_num new_end)
    /\ (fst (run s0) = Val true ->
        exists new_end,
          Run (Boot.resizepart_cmd base_disk part_num new_end) (Some 0%Z) ∈ evs).
Proof.
  intros run part_num. subst run part_num.
  match goal with |- context [snd (?m ?s)] => by_wp m s end.
  unfold_shrink. wp_run_all.
  all: try match goal with
       | H : Boot.end_mib_of_lines _ _ _ = Ret _ |- _ =>
           exfalso; exact (end_mib_of_lines_not_ret _ _ _ _ H)
       end.
  all: eexists; split; [reflexivity|]; split;
         [|first [ intros [=]; fail
                 | intros _; eexists;
                   repeat first [apply list_elem_of_here | apply list_elem_of_further] ]].
  all: match goal with
       | |- forall cmd rc, Run cmd rc ∈ ?evs -> @?P cmd rc =>
           apply (every_run P evs)
       end.
  all: repeat first [apply Forall_nil_2 | apply Forall_cons_2].
  all: try exact I.
  all: intros Hprog; try discriminate Hprog.
  all: match goal with
       | Hq : check_output _ (_ ++ ?pre) _ = Output ?out,
         He : Boot.end_mib_of_lines _ _ (Py.splitlines ?out) = Val ?cur,
         Hn : PyFloat.to_int _ = Some ?n |- _ =>
           exists pre, out, cur, n;
           split; [exact Hq|]; split;
           [simpl; repeat first [apply prefix_nil | apply prefix_cons]
           |split; [exact He|split; [exact Hn|reflexivity]]]
       end.
Qed.

(** C7. On a disk whose only partition follows a stretch of free space,
    the listing numbers the free stretch 1 as well and the end offset is
    read on that line.  With every command succeeding, the shrink of
    partition 1, the last one, which ends at 20480 MiB, returns [True]
    and resizes the partition to 1 MiB, where
    [max(1, 20480 - 1050)] is 19430 MiB. *)
Lemma shrink_reads_end_of_free_space :
  let E := Scenario.with_listing Scenario.free_space_first Scenario.single_partition in
  let run := call (R' := unit)
               (Boot._shrink_partition_free_space E "/dev/sda" "/dev/sda1" None) in
  Py.splitlines Scenario.free_space_first
  = ["BYT;";
     "/dev/sda:20480MiB:scsi:512:512:gpt:ATA DISK:;";
     "1:0.02MiB:1.00MiB:0.98MiB:free;";
     "1:1.00MiB:20480MiB:20479MiB:ext4::;"]
  /\ snd (Boot.table_type_and_last_part "/dev/sda"
            (Py.splitlines Scenario.free_space_first)) = Some 1%Z
  /\ (exists partition_end,
        PyFloat.float "20480" = Some partition_end
        /\ PyFloat.to_int (PyFloat.max2 (PyFloat.of_Z 1)
                             (PyFloat.sub partition_end (PyFloat.of_Z 1050)))
           = Some 19430%Z)
  /\ Boot.end_mib_of_lines (R := bool) "/dev/sda" "1"
       (Py.splitlines Scenario.free_space_first) = Val (PyFloat.of_Z 1)
  /\ fst (run initial) = Val true
  /\ trace (snd (run initial))
     = [Run ["e2fsck"; "-f"; "-y"; "/dev/sda1"] (Some 0%Z);
        Run ["resize2fs"; "-M"; "/dev/sda1"] (Some 0%Z);
        Query (Boot.parted_print "/dev/sda");
        Query (Boot.parted_print "/dev/sda");
        Run ["parted"; "/dev/sda"; "--script"; "unit"; "MiB"; "resizepart"; "1";
             "1MiB"] (Some 0%Z);
        Run ["partprobe"; "/dev/sda"] (Some 0%Z);
        Run ["udevadm"; "settle"] (Some 0%Z)].
Proof.
  split; [vm_compute; reflexivity|].
  split; [vm_compute; reflexivity|].
  split; [eexists; split; vm_compute; reflexivity|].
  split; [vm_compute; reflexivity|].
  split; vm_compute; reflexivity.
Qed.

(** The new end is also cut to a whole number of MiB: with an end
    offset of 10240.50 MiB the computed new end is 9190.5 MiB and the
    table editor is told [9190MiB]. *)
Lemma shrink_truncates_fractional_end :
  let E := Scenario.with_listing Scenario.fractional_end Scenario.one_root_partition in
  let run := call (R' := unit)
               (Boot._shrink_partition_free_space E "/dev/sda" "/dev/sda1" None) in
  exists current_end new_end,
    Boot.end_mib_of_lines (R := bool) "/dev/sda" "1"
      (Py.splitlines Scenario.fractional_end) = Val current_end
    /\ PyFloat.float "10240.50" = Some current_end
    /\ new_end = PyFloat.max2 (PyFloat.of_Z 1)
                   (PyFloat.sub current_end (PyFloat.of_Z 1050))
    /\ PyFloat.float "9190.5" = Some new_end
    /\ new_end <> PyFloat.of_Z 9190
    /\ fst (run initial) = Val true
    /\ trace (snd (run initial))
       = [Run ["e2fsck"; "-f"; "-y"; "/dev/sda1"] (Some 0%Z);
          Run ["resize2fs"; "-M"; "/dev/sda1"] (Some 0%Z);
          Query (Boot.parted_print "/dev/sda");
          Query (Boot.parted_print "/dev/sda");
          Run ["parted"; "/dev/sda"; "--script"; "unit"; "MiB"; "resizepart"; "1";
               "9190MiB"] (Some 0%Z);
          Run ["partprobe"; "/dev/sda"] (Some 0%Z);
          Run ["udevadm"; "settle"] (Some 0%Z)].
Proof.
  eexists _, _.
  split; [vm_compute; reflexivity|].
  split; [vm_compute; reflexivity|].
  split; [reflexivity|].
  split; [vm_compute; reflexivity|].
  split; [vm_compute; discriminate|].
  split; vm_compute; reflexivity.
Qed.

Lemma mountpoint_unchanged (dev_path : string) (mountpoint : option string)
    (evs : list event) :
  Forall (fun e => started e = true ->
                   program e <> "mount" /\ program e <> "umount") evs ->
  mountpoint_after dev_path mountpoint evs = mountpoint.
Proof.
  induction 1 as [|e evs He _ IH]; [reflexivity|].
  destruct e as [cmd [[| |]|]|cmd]; simpl; try exact IH.
  destruct (He eq_refl) as [Hm Hu].
  case_bool_decide as Hc; [subst cmd; now destruct Hu|].
  destruct cmd as [|prog [|d [|mp [|]]]]; try exact IH.
  case_bool_decide as Hc'; [|exact IH].
  destruct Hc' as [-> _]. now destruct Hm.
Qed.

Lemma unmounted_when_quiet (dev_path mp : string) (evs : list event) :
  Forall (fun e => started e = true ->
                   program e <> "mount" /\ program e <> "umount") evs ->
  Forall (fun e => started e = true -> program e <> "mount") evs
  /\ mountpoint_after dev_path (Some mp)
       (Run ["umount"; dev_path] (Some 0%Z) :: evs) = None.
Proof.
  intros Hevs; split.
  - eapply Forall_impl; [exact Hevs|]. simpl; tauto.
  - simpl. rewrite bool_decide_eq_true_2 by reflexivity.
    now apply mountpoint_unchanged.
Qed.

Global Arguments mountpoint_after : simpl never.

(** C10. When the candidate was mounted somewhere other than [/] and the
    [umount] exits with zero, a call that returns [False] starts no
    [mount] afterwards and leaves the candidate unmounted; a call that
    returns [True] ends with the [mount] of the candidate on the
    remembered mountpoint.  The call returns one or the other. *)
Theorem shrink_remounts_only_on_success
    (E : env) (base_disk dev_path mp : string) (o : list string) (s0 : state) :
  let run := call (R' := unit)
               (Boot._shrink_partition_free_space E base_disk dev_path (Some mp)) in
  let umount := Run ["umount"; dev_path] (Some 0%Z) in
  mp <> "" -> mp <> "/" ->
  popen E (trace s0) ["umount"; dev_path] = Exited o 0 ->
  exists evs,
    trace (snd (run s0)) = trace s0 ++ umount :: evs
    /\ ((fst (run s0) = Val false
         /\ Forall (fun e => started e = true -> program e <> "mount") evs
         /\ mountpoint_after dev_path (Some mp) (umount :: evs) = None)
        \/ (fst (run s0) = Val true
            /\ exists evs' rc,
                 evs = evs' ++ [Run ["mount"; dev_path; mp] rc])).
Proof.
  intros run umount. subst run umount.
  match goal with |- context [snd (?m ?s)] => by_wp m s end.
  unfold_shrink. wp_run_all.
  all: intros Hmp Hroot Humount; rewrite ?app_nil_r in *.
  all: unfold Boot.truthy in *.
  all: repeat match goal with
       | Hne : ?x <> "", H : (if bool_decide (?x = "") then _ else _) = _ |- _ =>
           rewrite (bool_decide_eq_false_2 _ Hne) in H;
           first [discriminate H | injection H as <-]
       | H : bool_decide _ = true |- _ => apply bool_decide_eq_true_1 in H
       | H : bool_decide _ = false |- _ => apply bool_decide_eq_false_1 in H
       | H : Boot.end_mib_of_lines _ _ _ = Ret _ |- _ =>
           exfalso; exact (end_mib_of_lines_not_ret _ _ _ _ H)
       | H : Boot.end_mib_of_lines _ _ _ = Exn (SystemExit _) |- _ =>
           exfalso; exact (end_mib_of_lines_no_exit _ _ _ _ H)
       | H : popen ?E ?t ?c = _, H' : popen ?E ?t ?c = _ |- _ =>
           rewrite H in H'; first [discriminate H' | injection H' as ? ?; subst]
       end.
  all: try done.
  all: eexists; split; [reflexivity|].
  all: try (right; split; [reflexivity|];
            match goal with
            | |- exists evs' rc, ?l = _ =>
                exists (removelast l); eexists; simpl; reflexivity
            end).
  all: left; split; [reflexivity|];
       apply unmounted_when_quiet;
       repeat first [apply Forall_nil_2 | apply Forall_cons_2];
       unfold program, Boot.resizepart_cmd, Boot.parted_print; simpl;
       first [intros [=]; fail | intros _; split; discriminate].
Qed.

Lemma shrink_remounts_only_on_success_witness :
  let E := Scenario.with_listing Scenario.two_partitions Scenario.data_inventory in
  let run := call (R' := unit)
               (Boot._shrink_partition_free_space E "/dev/sda" "/dev/sda1"
                  (Some "/data")) in
  let umount := Run ["umount"; "/dev/sda1"] (Some 0%Z) in
  exists evs,
    trace (snd (run initial)) = trace initial ++ umount :: evs
    /\ ((fst (run initial) = Val false
         /\ Forall (fun e => started e = true -> program e <> "mount") evs
         /\ mountpoint_after "/dev/sda1" (Some "/data") (umount :: evs) = None)
        \/ (fst (run initial) = Val true
            /\ exists evs' rc,
                 evs = evs' ++ [Run ["mount"; "/dev/sda1"; "/data"] rc])).
Proof.
  apply (shrink_remounts_only_on_success
           (Scenario.with_listing Scenario.two_partitions Scenario.data_inventory)
           "/dev/sda" "/dev/sda1" "/data" [] initial);
    [discriminate|discriminate|reflexivity].
Defined.

(** ** The device inventory *)

Section Sorting.
Context {A : Type} (key : A -> string).

Lemma insert_by_perm (x : A) (l : list A) : insert_by key x l ≡ₚ x :: l.
Proof.
  induction l as [|y l IH]; simpl; [reflexivity|].
  destruct (String.leb (key x) (key y)); [reflexivity|].
  rewrite IH. apply Permutation_swap.
Qed.

Lemma sort_by_perm (l : list A) : sort_by key l ≡ₚ l.
Proof.
  induction l as [|x l IH]; simpl; [reflexivity|].
  unfold sort_by in *; simpl. rewrite insert_by_perm. by rewrite IH.
Qed.

Lemma insert_by_sorted (x : A) (l : list A) :
  StronglySorted (key_le key) l -> StronglySorted (key_le key) (insert_by key x l).
Proof.
  induction 1 as [|y l Hl IH Hy]; simpl.
  - repeat constructor.
  - destruct (String.leb (key x) (key y)) eqn:Hxy.
    + constructor; [by constructor|].
      assert (Hle : key_le key x y) by (unfold key_le, String.le; by rewrite Hxy).
      constructor; [exact Hle|].
      eapply Forall_impl; [exact Hy|].
      intros z Hz. unfold key_le in *. by etrans.
    + constructor; [exact IH|].
      rewrite insert_by_perm. constructor; [|exact Hy].
      destruct (String.leb_total (key x) (key y)) as [H|H].
      * congruence.
      * unfold key_le, String.le. by rewrite H.
Qed.

Lemma sort_by_sorted (l : list A) : StronglySorted (key_le key) (sort_by key l).
Proof.
  induction l as [|x l IH]; [constructor|].
  apply insert_by_sorted, IH.
Qed.

End Sorting.

Lemma walk_kinds (n : node) : Forall is_disk_or_part (walk n).
Proof.
  revert n. fix IH 1. intros [name type size path mountpoint fstype children].
  simpl. apply Forall_app_2.
  - destruct type as [ntype|]; [|constructor].
    case_bool_decide as Hk; [|constructor].
    constructor; [exact Hk|constructor].
  - induction children as [|ch l IHl]; [constructor|].
    apply Forall_app_2; [apply IH|exact IHl].
Qed.

Lemma devices_of_kinds (blockdevices : list node) :
  Forall is_disk_or_part (devices_of blockdevices).
Proof.
  unfold devices_of. rewrite sort_by_perm.
  induction blockdevices as [|n l IH]; simpl; [constructor|].
  apply Forall_app_2; [apply walk_kinds|exact IH].
Qed.

(** C9. Every inventory that [list_block_devices] returns is sorted by
    path, and each of its entries is a disk or a partition.  The function
    always returns: a failing [lsblk] gives the empty inventory. *)
Theorem inventory_sorted_disks_and_partitions (E : env) (s : state) :
  exists devices,
    fst (list_block_devices E (R := unit) s) = Val devices
    /\ StronglySorted path_le devices
    /\ Forall is_disk_or_part devices.
Proof.
  unfold list_block_devices.
  destruct (lsblk E (trace s)) as [blockdevices|]; eexists; (split; [reflexivity|]).
  - split; [apply (sort_by_sorted d_path)|apply devices_of_kinds].
  - split; constructor.
Qed.

(** ** The last partition of a table *)








(** ** Detection of the new partition *)

Lemma new_paths_spec (parts_before after : list BlockDevice) (p : string) :
  p ∈ Boot.new_paths parts_before after <-> is_new_path parts_before after p.
Proof.
  unfold Boot.new_paths, is_new_path.
  rewrite sort_by_perm, elem_of_elements, elem_of_difference.
  by rewrite !elem_of_list_to_set.
Qed.

Lemma last_sorted_greatest {A} (R : relation A) `{!Reflexive R} (l : list A) (x : A) :
  StronglySorted R l -> last l = Some x -> Forall (fun y => R y x) l.
Proof.
  induction 1 as [|a l Hl IH Ha]; [constructor|].
  destruct l as [|b l'].
  - simpl. intros [= ->]. by repeat constructor.
  - intros Hlast. change (last (b :: l') = Some x) in Hlast.
    specialize (IH Hlast). constructor; [|exact IH].
    apply last_Some_elem_of in Hlast.
    by apply (proj1 (Forall_forall _ _) Ha).
Qed.

#[local] Instance key_le_id_refl : Reflexive (key_le (A := string) id).
Proof. intros s. unfold key_le. reflexivity. Qed.

Lemma last_new_path (parts_before after : list BlockDevice) (new_boot : string) :
  last (Boot.new_paths parts_before after) = Some new_boot ->
  is_new_path parts_before after new_boot
  /\ forall q, is_new_path parts_before after q -> String.le q new_boot.
Proof.
  intros Hlast. split.
  - apply new_paths_spec. by apply last_Some_elem_of.
  - intros q Hq. apply new_paths_spec in Hq.
    assert (Hsort : StronglySorted (key_le id) (Boot.new_paths parts_before after))
      by apply sort_by_sorted.
    pose proof (last_sorted_greatest _ _ _ Hsort Hlast) as Hall.
    exact (proj1 (Forall_forall _ _) Hall q Hq).
Qed.

(** C6. After the inventory that follows the creation: when it has no
    path that the inventory taken before lacks, the procedure logs that
    the new partition was not detected and returns, and runs no command
    after that inventory; when it has such paths, the greatest of them
    is the new partition, and the next command is its format. *)
Theorem new_partition_is_last_new_path
    (E : env) (device : string) (parts_before after : list BlockDevice)
    (s0 s1 : state) :
  Boot.create_and_rescan E device s0 = (Val (parts_before, after), s1) ->
  let run := Boot.create_boot_partition_if_missing E device in
  ((forall p, ~ is_new_path parts_before after p) ->
   run s0 = (Ret tt, logged [Msg.not_detected] s1))
  /\ (forall p, is_new_path parts_before after p ->
      exists new_boot rc evs,
        is_new_path parts_before after new_boot
        /\ (forall q, is_new_path parts_before after q -> String.le q new_boot)
        /\ trace (snd (run s0))
           = trace s1 ++ Run ["mkfs.ext4"; "-L"; "BOOT"; new_boot] rc :: evs).
Proof.
  intros Hrescan run. subst run.
  assert (Hrun : Boot.create_boot_partition_if_missing E device s0
                 = Boot.detect_and_install E parts_before after s1)
    by (unfold Boot.create_boot_partition_if_missing, bind;
        by rewrite Hrescan).
  rewrite Hrun. clear Hrun Hrescan. unfold Boot.detect_and_install, blkid_uuid.
  destruct (last (Boot.new_paths parts_before after)) as [new_boot|] eqn:Hlast.
  - split.
    + intros Hnone. apply last_new_path in Hlast as [Hnew _].
      destruct (Hnone _ Hnew).
    + intros _ _. exists new_boot.
      apply last_new_path in Hlast as [Hnew Hmax].
      match goal with |- context [snd (?m ?s)] => by_wp m s end.
      wp_run_all.
      all: eexists _, _; split; [exact Hnew|]; split; [exact Hmax|reflexivity].
  - split; [reflexivity|].
    intros p Hp. apply new_paths_spec in Hp.
    apply last_None in Hlast. rewrite Hlast in Hp. by apply elem_of_nil in Hp.
Qed.

Lemma new_partition_is_last_new_path_witness :
  let E := Scenario.with_listing Scenario.two_partitions Scenario.data_inventory in
  Boot.create_boot_partition_if_missing E "/dev/sda1" initial
  = (Ret tt, logged [Msg.not_detected]
               (snd (Boot.create_and_rescan E "/dev/sda1" initial))).
Proof.
  intros E.
  destruct (new_partition_is_last_new_path E "/dev/sda1"
              (devices_of Scenario.data_inventory)
              (devices_of Scenario.data_inventory)
              initial (snd (Boot.create_and_rescan E "/dev/sda1" initial)))
    as [Hnone _].
  - vm_compute. reflexivity.
  - apply Hnone. intros p [Hafter Hbefore]. exact (Hbefore Hafter).
Defined.

(** When the third partition shows up after [mkpart], it is formatted,
    mounted, filled with the content of [/boot] and entered in
    [/etc/fstab]. *)
Lemma new_partition_installed :
  let s := snd (Boot.create_boot_partition_if_missing Scenario.partition_appears
                  "/dev/sda2" initial) in
  cmd_of <$> drop 17 (trace s)
  = [["mkfs.ext4"; "-L"; "BOOT"; "/dev/sda3"];
     ["mkdir"; "-p"; "/mnt/tmpboot"];
     ["mount"; "/dev/sda3"; "/mnt/tmpboot"];
     ["bash"; "-c"; "cp -a /boot/. /mnt/tmpboot/"];
     ["umount"; "/mnt/tmpboot"];
     ["blkid"; "-s"; "UUID"; "-o"; "value"; "/dev/sda3"];
     ["bash"; "-c"; "echo 'UUID=0c3a-77 /boot ext4 defaults 0 2' >> /etc/fstab"]].
Proof.
  vm_compute. reflexivity.
Qed.

(** ** The disk of the bootloader *)

(** C8. For [/dev/nvme0n1p3] the naming convention, and
    [_get_base_disk_from_device] with it, give [/dev/nvme0n1]; the
    system integration of [pyrus.py] and of [Tpyrus.py] strips the
    digits only and installs the bootloader on [/dev/nvme0n1p]. *)
Lemma bootloader_disk_keeps_partition_letter :
  let device := "/dev/nvme0n1p3" in
  let E := Scenario.all_succeed in
  let grub_install := Run (chroot_bash "grub-install /dev/nvme0n1p") (Some 0%Z) in
  Boot._get_base_disk_from_device device = "/dev/nvme0n1"
  /\ grub_install ∈ trace (snd (Pyrus._worker E device "hunter2" "32M"
                                  true true true initial))
  /\ grub_install ∈ trace (snd (Pyrus.main E device "hunter2" "32M"
                                  true true true initial)).
Proof.
  cbv zeta. split; [vm_compute; reflexivity|].
  split.
  - refine (bool_decide_unpack (_ ∈ _) _). vm_compute. exact I.
  - refine (bool_decide_unpack (_ ∈ _) _). vm_compute. exact I.
Qed.

(** * Further properties *)

(** ** The shrink planner, on every input *)

(** X1. [_shrink_partition_free_space] raises nothing: whatever the
    commands do (a command that cannot be started, a strict command that
    exits with a status other than zero, a listing without the
    partition, an end offset that is no number), the call returns
    [True] or [False]. *)
Theorem shrink_never_raises
    (E : env) (base_disk dev_path : string) (current_mountpoint : option string)
    (s0 : state) :
  exists b : bool,
    fst (call (R' := unit)
           (Boot._shrink_partition_free_space E base_disk dev_path
              current_mountpoint) s0) = Val b.
Proof.
  match goal with |- context [fst (?m ?s)] => by_wp m s end.
  unfold_shrink. wp_run_all.
  all: try match goal with
       | H : Boot.end_mib_of_lines _ _ _ = Ret _ |- _ =>
           exfalso; exact (end_mib_of_lines_not_ret _ _ _ _ H)
       | H : Boot.end_mib_of_lines _ _ _ = Exn (SystemExit _) |- _ =>
           exfalso; exact (end_mib_of_lines_no_exit _ _ _ _ H)
       end.
  all: eexists; reflexivity.
Qed.

(** X2. The table editor is started only after the integrity check and
    the minimal resize of the candidate have both exited with zero in
    the same call, and after the [umount] has exited with zero when the
    candidate was mounted. *)
Theorem shrink_edits_table_after_checks
    (E : env) (base_disk dev_path : string) (current_mountpoint : option string)
    (s0 : state) :
  exists evs,
    trace (snd (Boot._shrink_partition_free_space E base_disk dev_path
                  current_mountpoint s0)) = trace s0 ++ evs
    /\ forall cmd rc,
         Run cmd rc ∈ evs -> hd "" cmd = "parted" ->
         exists pre post,
           evs = pre ++ Run cmd rc :: post
           /\ Run (fsck_cmd dev_path) (Some 0%Z) ∈ pre
           /\ Run (minimize_cmd dev_path) (Some 0%Z) ∈ pre
           /\ (forall mp, Boot.truthy current_mountpoint = Some mp ->
               Run ["umount"; dev_path] (Some 0%Z) ∈ pre).
Proof.
  unfold fsck_cmd, minimize_cmd.
  match goal with |- context [snd (?m ?s)] => by_wp m s end.
  unfold_shrink. wp_run_all.
  all: eexists; split; [reflexivity|].
  all: match goal with
       | |- forall cmd rc, Run cmd rc ∈ ?evs -> @?P cmd rc =>
           apply (every_run P evs)
       end.
  all: repeat first [apply Forall_nil_2 | apply Forall_cons_2].
  all: try exact I.
  all: intros Hprog; try discriminate Hprog.
  all: match goal with
       | |- exists pre post, ?l = _ /\ _ =>
           first [ exists (take 3 l); eexists; split; [simpl; reflexivity|]
                 | exists (take 4 l); eexists; split; [simpl; reflexivity|]
                 | exists (take 5 l); eexists; split; [simpl; reflexivity|]
                 | exists (take 6 l); eexists; split; [simpl; reflexivity|] ]
       end.
  all: simpl; split; [|split; [|intros mp Hmp]].
  all: first [ solve [repeat first [apply list_elem_of_here | apply list_elem_of_further]]
             | congruence ].
Qed.

(** X3. A candidate that is not mounted (no mountpoint, or an empty
    one) is neither unmounted nor mounted by the call, and no directory
    is created for it. *)
Theorem shrink_of_unmounted_never_mounts
    (E : env) (base_disk dev_path : string) (current_mountpoint : option string)
    (s0 : state) :
  Boot.truthy current_mountpoint = None ->
  exists evs,
    trace (snd (Boot._shrink_partition_free_space E base_disk dev_path
                  current_mountpoint s0)) = trace s0 ++ evs
    /\ Forall (fun e => program e <> "umount" /\ program e <> "mount"
                        /\ program e <> "mkdir") evs.
Proof.
  match goal with |- context [snd (?m ?s)] => by_wp m s end.
  unfold_shrink. wp_run_all.
  all: intros Hmp; try congruence.
  all: eexists; split; [reflexivity|].
  all: repeat first [apply Forall_nil_2 | apply Forall_cons_2].
  all: unfold program, Boot.resizepart_cmd, Boot.parted_print; simpl.
  all: repeat split; discriminate.
Qed.

Lemma shrink_of_unmounted_never_mounts_witness :
  exists evs,
    trace (snd (Boot._shrink_partition_free_space
                  (Scenario.with_listing Scenario.fractional_end
                     Scenario.one_root_partition)
                  "/dev/sda" "/dev/sda1" (Some "") initial)) = trace initial ++ evs
    /\ Forall (fun e => program e <> "umount" /\ program e <> "mount"
                        /\ program e <> "mkdir") evs.
Proof.
  apply (shrink_of_unmounted_never_mounts _ "/dev/sda" "/dev/sda1" (Some "") initial).
  reflexivity.
Defined.

(** ** The end offset of a partition *)

Lemma end_mib_of_lines_cons {R} (disk part_num line : string) (rest : list string) :
  Boot.end_mib_of_lines (R := R) disk part_num (line :: rest)
  = if is_entry disk line && bool_decide (first_field line = part_num) then
      match Py.split ":" line !! 2%nat with
      | None => Exn (Exception "list index out of range")
      | Some end_ =>
          if Py.endswith end_ "MiB" then
            match PyFloat.float (Py.drop_last3 end_) with
            | Some x => Val x
            | None => Exn (Exception "could not convert string to float")
            end
          else Boot.end_mib_of_lines disk part_num rest
      end
    else Boot.end_mib_of_lines disk part_num rest.
Proof.
  unfold Boot.end_mib_of_lines at 1; fold (@Boot.end_mib_of_lines R disk part_num).
  unfold is_entry, first_field.
  destruct (bool_decide (line = "") || Py.startswith line "BYT;"
            || Py.startswith line disk); [reflexivity|].
  cbn [negb andb]. by destruct (bool_decide (hd "" (Py.split ":" line) = part_num)).
Qed.

(** X4. When no line of the geometry listing has the partition number
    as its first field, [_get_partition_end_mib] raises the
    [RuntimeError] that follows its loop. *)
Theorem end_mib_fails_without_partition
    (E : env) (disk part_num out : string) (s : state) :
  check_output E (trace s) (Boot.parted_print disk) = Output out ->
  Forall (fun line => first_field line <> part_num) (Py.splitlines out) ->
  fst (Boot._get_partition_end_mib (R := unit) E disk part_num s)
  = Exn (Exception "No se pudo obtener el fin de la partición").
Proof.
  intros Hout Hnone.
  unfold Boot._get_partition_end_mib, bind, subprocess_check_output, pure.
  rewrite Hout. cbn [fst].
  induction Hnone as [|line rest Hline _ IH]; [reflexivity|].
  rewrite end_mib_of_lines_cons, (bool_decide_eq_false_2 _ Hline), andb_false_r.
  exact IH.
Qed.

Lemma end_mib_fails_without_partition_witness :
  fst (Boot._get_partition_end_mib (R := unit)
         (Scenario.with_listing Scenario.two_partitions Scenario.data_inventory)
         "/dev/sda" "3" initial)
  = Exn (Exception "No se pudo obtener el fin de la partición").
Proof.
  apply (end_mib_fails_without_partition _ "/dev/sda" "3" Scenario.two_partitions).
  - reflexivity.
  - vm_compute. repeat constructor; discriminate.
Defined.

(** X5. The end offset is read on the first line of the listing that is
    an entry, has the partition number as its first field and a third
    field that ends in [MiB], whatever that line describes: the lines
    before it that carry another number are passed over, and the lines
    after it are not read. *)
Theorem end_mib_is_read_on_first_match
    (disk part_num line end_ : string) (before after : list string) :
  Forall (fun l => first_field l <> part_num) before ->
  is_entry disk line = true ->
  first_field line = part_num ->
  Py.split ":" line !! 2%nat = Some end_ ->
  Py.endswith end_ "MiB" = true ->
  Boot.end_mib_of_lines (R := unit) disk part_num (before ++ line :: after)
  = match PyFloat.float (Py.drop_last3 end_) with
    | Some x => Val x
    | None => Exn (Exception "could not convert string to float")
    end.
Proof.
  intros Hbefore Hentry Hnum Hend Hmib.
  induction Hbefore as [|l rest Hl _ IH]; cbn [app].
  - rewrite end_mib_of_lines_cons, Hentry, (bool_decide_eq_true_2 _ Hnum), Hend, Hmib.
    reflexivity.
  - rewrite end_mib_of_lines_cons, (bool_decide_eq_false_2 _ Hl), andb_false_r.
    exact IH.
Qed.

Lemma end_mib_is_read_on_first_match_witness :
  Boot.end_mib_of_lines (R := unit) "/dev/sda" "1"
    (Py.splitlines Scenario.free_space_first)
  = Val (PyFloat.of_Z 1).
Proof.
  let lines := eval vm_compute in (Py.splitlines Scenario.free_space_first) in
  change (Py.splitlines Scenario.free_space_first) with lines.
  etrans.
  - apply (end_mib_is_read_on_first_match "/dev/sda" "1"
             "1:0.02MiB:1.00MiB:0.98MiB:free;" "1.00MiB"
             ["BYT;"; "/dev/sda:20480MiB:scsi:512:512:gpt:ATA DISK:;"]
             ["1:1.00MiB:20480MiB:20479MiB:ext4::;"]);
      [repeat constructor; vm_compute; discriminate|reflexivity..].
  - vm_compute. reflexivity.
Defined.

(** ** The base disk of a partition path *)

Lemma chars_app (s1 s2 : string) : Py.chars (s1 +:+ s2) = Py.chars s1 ++ Py.chars s2.
Proof.
  induction s1 as [|c s1 IH]; [reflexivity|].
  unfold Py.chars in *. simpl. by rewrite IH.
Qed.

Lemma span_all_then (p : ascii -> bool) (a b : list ascii) :
  Forall (fun c => p c = true) a ->
  match b with c :: _ => p c = false | [] => True end ->
  Py.span p (a ++ b) = (a, b).
Proof.
  intros Ha Hb. induction Ha as [|c a Hc _ IH]; simpl.
  - destruct b as [|c b]; [reflexivity|]. simpl. by rewrite Hb.
  - by rewrite Hc, IH.
Qed.

Lemma at_dollar_plain (s : string) :
  match last (Py.chars s) with Some c => c <> Py.LF | None => True end ->
  Py.at_dollar s = (rev (Py.chars s), []).
Proof.
  unfold Py.at_dollar. intros Hlast.
  destruct (Py.chars s) as [|c l] using rev_ind; [reflexivity|].
  rewrite last_snoc in Hlast. rewrite rev_unit.
  destruct (Ascii.eqb_spec c Py.LF); [done|reflexivity].
Qed.

Lemma decimal_not_newline (c : ascii) : Py.is_decimal c = true -> c <> Py.LF.
Proof. by intros Hc ->. Qed.

Lemma last_app_decimal (stem ds : string) :
  all_decimal ds -> plain_end stem ->
  match last (Py.chars (stem +:+ ds)) with Some c => c <> Py.LF | None => True end.
Proof.
  unfold all_decimal, plain_end. intros Hds Hstem.
  rewrite chars_app, last_app.
  destruct (last (Py.chars ds)) as [c|] eqn:Hlast.
  - apply last_Some_elem_of in Hlast.
    apply decimal_not_newline. by apply (proj1 (Forall_forall _ _) Hds).
  - destruct (last (Py.chars stem)); [apply Hstem|done].
Qed.

Lemma rev_head_plain (stem : string) :
  plain_end stem ->
  match rev (Py.chars stem) with c :: _ => Py.is_decimal c = false | [] => True end.
Proof.
  unfold plain_end. destruct (Py.chars stem) as [|c l] using rev_ind; [done|].
  rewrite last_snoc, rev_unit. tauto.
Qed.

(** X6. For a path outside the NVMe and MMC name spaces that is a stem
    followed by decimal digits, the stem ending with neither a digit nor
    a newline, [_get_base_disk_from_device] gives the stem and
    [_get_partition_number] gives the digits; [rstrip('0123456789')],
    which [pyrus.py] and [Tpyrus.py] use, gives the stem as well. *)
Theorem base_disk_of_plain_path (stem ds : string) :
  let path := stem +:+ ds in
  Py.startswith path "/dev/nvme" = false ->
  Py.startswith path "/dev/mmcblk" = false ->
  all_decimal ds -> plain_end stem ->
  Boot._get_base_disk_from_device path = stem
  /\ Boot._get_partition_number path = ds
  /\ Py.rstrip_digits path = stem.
Proof.
  intros path Hnvme Hmmc Hds Hstem. subst path.
  unfold Boot._get_base_disk_from_device, Boot._get_partition_number,
    Py.re_sub_digits_end, Py.re_search_digits_end, Py.rstrip_digits, Py.rstrip_with.
  rewrite Hnvme, Hmmc. cbn [orb].
  rewrite (at_dollar_plain _ (last_app_decimal _ _ Hds Hstem)).
  rewrite chars_app, rev_app_distr.
  rewrite (span_all_then Py.is_decimal (rev (Py.chars ds)) (rev (Py.chars stem)));
    [|by apply Forall_rev|by apply rev_head_plain].
  cbn [fst snd]. rewrite app_nil_r, !rev_involutive.
  unfold Py.text, Py.chars. by rewrite !string_of_list_ascii_of_string.
Qed.

Lemma base_disk_of_plain_path_witness :
  Boot._get_base_disk_from_device "/dev/sda12" = "/dev/sda"
  /\ Boot._get_partition_number "/dev/sda12" = "12"
  /\ Py.rstrip_digits "/dev/sda12" = "/dev/sda".
Proof.
  apply (base_disk_of_plain_path "/dev/sda" "12"); try reflexivity.
  - repeat constructor.
  - split; [reflexivity|discriminate].
Defined.

(** X7. For a path of the NVMe or MMC name space that is a stem, the
    letter [p] and at least one decimal digit, [_get_base_disk_from_device]
    gives the stem and [_get_partition_number] gives the digits;
    [rstrip('0123456789')] keeps the letter. *)
Theorem base_disk_of_nvme_path (stem ds : string) :
  let path := stem +:+ "p" +:+ ds in
  Py.startswith path "/dev/nvme" = true \/ Py.startswith path "/dev/mmcblk" = true ->
  ds <> "" -> all_decimal ds ->
  Boot._get_base_disk_from_device path = stem
  /\ Boot._get_partition_number path = ds
  /\ Py.rstrip_digits path = stem +:+ "p".
Proof.
  intros path Hprefix Hne Hds. subst path.
  assert (Hp : plain_end (stem +:+ "p")).
  { unfold plain_end. rewrite chars_app. change (Py.chars "p") with ["p"%char].
    rewrite last_snoc. split; [reflexivity|discriminate]. }
  assert (Hsplit : Py.span Py.is_decimal (rev (Py.chars ((stem +:+ "p") +:+ ds)))
                   = (rev (Py.chars ds), "p"%char :: rev (Py.chars stem))).
  { rewrite chars_app, rev_app_distr, chars_app.
    change (Py.chars "p") with ["p"%char]. rewrite rev_unit.
    apply span_all_then; [by apply Forall_rev|reflexivity]. }
  assert (Hassoc : stem +:+ "p" +:+ ds = (stem +:+ "p") +:+ ds).
  { rewrite <- (text_chars (stem +:+ "p" +:+ ds)),
      <- (text_chars ((stem +:+ "p") +:+ ds)).
    by rewrite !chars_app, app_assoc. }
  rewrite Hassoc in *.
  unfold Boot._get_base_disk_from_device, Boot._get_partition_number,
    Py.re_sub_p_digits_end, Py.re_search_digits_end, Py.rstrip_digits, Py.rstrip_with.
  assert (Hor : Py.startswith ((stem +:+ "p") +:+ ds) "/dev/nvme"
                || Py.startswith ((stem +:+ "p") +:+ ds) "/dev/mmcblk" = true)
    by (destruct Hprefix as [-> | ->]; [reflexivity|apply orb_true_r]).
  rewrite Hor, (at_dollar_plain _ (last_app_decimal _ _ Hds Hp)), Hsplit.
  cbn [fst snd].
  destruct (rev (Py.chars ds)) as [|d r] eqn:Hrev.
  - apply (f_equal (@rev ascii)) in Hrev. rewrite rev_involutive in Hrev.
    destruct Hne. unfold Py.chars in Hrev.
    rewrite <- (string_of_list_ascii_of_string ds), Hrev. reflexivity.
  - rewrite <- Hrev, app_nil_r, !rev_involutive. cbn [Ascii.eqb].
    change (rev ("p"%char :: rev (Py.chars stem)))
      with (rev (rev (Py.chars stem)) ++ ["p"%char]).
    rewrite rev_involutive.
    change ["p"%char] with (Py.chars "p"). rewrite <- chars_app.
    unfold Py.text, Py.chars. by rewrite !string_of_list_ascii_of_string.
Qed.

Lemma base_disk_of_nvme_path_witness :
  Boot._get_base_disk_from_device "/dev/nvme0n1p3" = "/dev/nvme0n1"
  /\ Boot._get_partition_number "/dev/nvme0n1p3" = "3"
  /\ Py.rstrip_digits "/dev/nvme0n1p3" = "/dev/nvme0n1p".
Proof.
  apply (base_disk_of_nvme_path "/dev/nvme0n1" "3").
  - left. reflexivity.
  - discriminate.
  - repeat constructor.
Defined.

(** ** The inventory and the report of [lsblk] *)

Lemma walk_subnodes (n : node) : walk n = omap entry_of (subnodes n).
Proof.
  revert n. fix IH 1. intros [name type size path mountpoint fstype children].
  cbn [walk subnodes].
  match goal with
  | |- _ = omap _ (?n :: ?l) => change (n :: l) with ([n] ++ l)
  end.
  rewrite omap_app. f_equal.
  - cbn [omap list_omap entry_of]. destruct type as [ntype|]; [|reflexivity].
    by destruct (bool_decide (ntype = "disk" \/ ntype = "part")).
  - induction children as [|ch l IHl]; [reflexivity|].
    rewrite omap_app, <- IH, <- IHl. reflexivity.
Qed.

(** X8. The inventory holds one entry for each node of the report, at
    any depth and below a node of any kind, that is a disk or a
    partition, and nothing else: it is a rearrangement of the entries of
    these nodes. *)
Theorem inventory_lists_every_disk_and_partition (blockdevices : list node) :
  devices_of blockdevices ≡ₚ omap entry_of (flat_map subnodes blockdevices).
Proof.
  unfold devices_of. rewrite sort_by_perm.
  induction blockdevices as [|n l IH]; [reflexivity|].
  cbn [flat_map]. by rewrite omap_app, <- walk_subnodes, IH.
Qed.

(** ** What a run may issue *)

Section Frame.
Context (C : list string -> Prop).

Lemma within_refl s : within C s s.
Proof. split; [reflexivity|]. exists []. by rewrite app_nil_r. Qed.

Lemma within_trans s1 s2 s3 : within C s1 s2 -> within C s2 s3 -> within C s1 s3.
Proof.
  intros (Hf1 & evs1 & Ht1 & Hc1) (Hf2 & evs2 & Ht2 & Hc2). split; [congruence|].
  exists (evs1 ++ evs2). split; [by rewrite Ht2, Ht1, app_assoc|by apply Forall_app_2].
Qed.

Lemma within_emit e s : C (cmd_of e) -> within C s (emit e s).
Proof.
  intros He. split; [reflexivity|]. exists [e]. split; [reflexivity|by constructor].
Qed.

Lemma within_logged l s : within C s (logged l s).
Proof. split; [reflexivity|]. exists []. split; [by rewrite app_nil_r|constructor]. Qed.

Context {R : Type}.

Lemma stays_ret {A} (a : A) : stays C (ret (R := R) a).
Proof. intros s. apply within_refl. Qed.

Lemma stays_return {A} (r : R) : stays C (return_ (A := A) r).
Proof. intros s. apply within_refl. Qed.

Lemma stays_raise {A} (e : exn) : stays C (raise (R := R) (A := A) e).
Proof. intros s. apply within_refl. Qed.

Lemma stays_pure {A} (r : res R A) : stays C (pure r).
Proof. intros s. apply within_refl. Qed.

Lemma stays_bind {A B} (m : M R A) (k : A -> M R B) :
  stays C m -> (forall a, stays C (k a)) -> stays C (bind m k).
Proof.
  intros Hm Hk s. unfold bind. specialize (Hm s).
  destruct (m s) as [[a|r|e] s']; [|exact Hm..].
  eapply within_trans; [exact Hm|apply Hk].
Qed.

Lemma stays_resume {A B} (r : res R A) (k : A -> M R B) :
  (forall a, stays C (k a)) -> stays C (resume r k).
Proof.
  intros Hk. destruct r; [apply Hk|apply stays_return|apply stays_raise].
Qed.

Lemma stays_try_except {A} (body : M R A) (handler : exn -> M R A) :
  stays C body -> (forall e, stays C (handler e)) -> stays C (try_except body handler).
Proof.
  intros Hb Hh s. unfold try_except. specialize (Hb s).
  destruct (body s) as [[a|r|[rc cmd|what|code]] s']; try exact Hb.
  all: eapply within_trans; [exact Hb|apply Hh].
Qed.

Lemma stays_try_except_cpe {A} (body : M R A) (handler : Z -> list string -> M R A) :
  stays C body -> (forall rc cmd, stays C (handler rc cmd)) ->
  stays C (try_except_cpe body handler).
Proof.
  intros Hb Hh. apply stays_try_except; [exact Hb|].
  intros [rc cmd|what|code]; [apply Hh|apply stays_raise..].
Qed.

Lemma stays_log (text : string) : stays C (log_cb (R := R) text).
Proof. intros s. apply within_logged. Qed.

Lemma stays_run E (cmd : list string) (check : bool) :
  C cmd -> stays C (run_and_stream (R := R) E cmd check).
Proof.
  intros Hc. unfold run_and_stream. apply stays_bind; [apply stays_log|].
  intros _ s. destruct (popen E (trace s) cmd) as [lines rc|].
  - destruct (check && negb (rc =? 0)%Z);
      (eapply within_trans; [by apply (within_emit (Run cmd (Some rc)))|]);
      apply within_logged.
  - by apply (within_emit (Run cmd None)).
Qed.

Lemma stays_check_output E (cmd : list string) :
  C cmd -> stays C (subprocess_check_output (R := R) E cmd).
Proof.
  intros Hc s. unfold subprocess_check_output.
  destruct (check_output E (trace s) cmd); by apply (within_emit (Query cmd)).
Qed.

Lemma stays_blkid E (dev : string) :
  C ["blkid"; "-s"; "UUID"; "-o"; "value"; dev] -> stays C (blkid_uuid (R := R) E dev).
Proof.
  intros Hc. unfold blkid_uuid.
  apply stays_bind; [by apply stays_check_output|intros; apply stays_ret].
Qed.

Lemma stays_list_block_devices E :
  C lsblk_cmd -> stays C (list_block_devices (R := R) E).
Proof.
  intros Hc s. unfold list_block_devices.
  destruct (lsblk E (trace s)); by apply (within_emit (Query lsblk_cmd)).
Qed.

End Frame.

Lemma stays_call (C : list string -> Prop) {R R'} (f : M R R) :
  stays C f -> stays C (call (R' := R') f).
Proof.
  intros Hf s. unfold call. specialize (Hf s).
  by destruct (f s) as [[a|r|e] s'].
Qed.

Lemma stays_weaken (C C' : list string -> Prop) {R A} (m : M R A) :
  (forall cmd, C cmd -> C' cmd) -> stays C m -> stays C' m.
Proof.
  intros Himpl Hm s. destruct (Hm s) as (Hf & evs & Ht & Hc).
  split; [exact Hf|]. exists evs. split; [exact Ht|].
  eapply Forall_impl; [exact Hc|]. intros e. apply Himpl.
Qed.

(** One step of the proof that a program stays within [C]: the rule of
    the construct at its head.  The commands are left as goals. *)
Ltac stays_step :=
  lazymatch goal with
  | |- stays _ (bind _ _) => apply stays_bind; [|intros ?]
  | |- stays _ (ret _) => apply stays_ret
  | |- stays _ (return_ _) => apply stays_return
  | |- stays _ (raise _) => apply stays_raise
  | |- stays _ (pure _) => apply stays_pure
  | |- stays _ (resume _ _) => apply stays_resume; intros ?
  | |- stays _ (try_except _ _) => apply stays_try_except; [|intros ?]
  | |- stays _ (try_except_cpe _ _) => apply stays_try_except_cpe; [|intros ? ?]
  | |- stays _ (call _) => apply stays_call
  | |- stays _ (log_cb _) => apply stays_log
  | |- stays _ (run_and_stream _ _ _) => apply stays_run
  | |- stays _ (subprocess_check_output _ _) => apply stays_check_output
  | |- stays _ (blkid_uuid _ _) => apply stays_blkid
  | |- stays _ (list_block_devices _) => apply stays_list_block_devices
  | |- stays _ (if ?b then _ else _) => destruct b
  | |- stays _ (match ?x with _ => _ end) => destruct x
  | |- stays _ (let _ := _ in _) => cbv zeta
  end.

Ltac stays_cmd :=
  unfold runs_one_of, Boot.resizepart_cmd, Boot.parted_print, Boot.mkpart_cmd,
    reencrypt_cmd, chroot_bash, lsblk_cmd, boot_programs, rescan_programs;
  cbn [hd app];
  repeat first [apply list_elem_of_here | apply list_elem_of_further].

Lemma stays_mount_boot_and_efi (C : list string -> Prop) {R} E
    (parts : list BlockDevice) (boot_uuid : option string) :
  (forall dev, C ["blkid"; "-s"; "UUID"; "-o"; "value"; dev]) ->
  (forall cmd, hd "" cmd = "mkdir" -> C cmd) ->
  (forall cmd, hd "" cmd = "mount" -> C cmd) ->
  stays C (mount_boot_and_efi (R := R) E parts boot_uuid).
Proof.
  intros Hblkid Hmkdir Hmount. revert boot_uuid.
  induction parts as [|p parts IH]; intros boot_uuid; cbn [mount_boot_and_efi].
  - apply stays_ret.
  - repeat first [apply IH | stays_step]; first [apply Hblkid | by apply Hmkdir | by apply Hmount].
Qed.

Lemma stays_shrink E (base_disk dev_path : string) (current_mountpoint : option string) :
  stays (runs_one_of rescan_programs)
    (Boot._shrink_partition_free_space E base_disk dev_path current_mountpoint).
Proof.
  unfold Boot._shrink_partition_free_space, Boot._get_table_type_and_last_part,
    Boot._get_partition_end_mib, Boot.int_of_float.
  repeat stays_step. all: stays_cmd.
Qed.

Lemma stays_rescan E (device : string) :
  stays (runs_one_of rescan_programs) (Boot.create_and_rescan E device).
Proof.
  unfold Boot.create_and_rescan, Boot.choose_shrink_target,
    Boot._get_table_type_and_last_part.
  repeat first [apply stays_shrink | stays_step]. all: stays_cmd.
Qed.

Lemma stays_create_and_rescan E (device : string) :
  stays (runs_one_of boot_programs) (Boot.create_and_rescan E device).
Proof.
  apply (stays_weaken (runs_one_of rescan_programs)); [|apply stays_rescan].
  intros cmd Hcmd. unfold runs_one_of, boot_programs. apply elem_of_app. by left.
Qed.

Lemma stays_detect_and_install E (parts_before after : list BlockDevice) :
  stays (runs_one_of boot_programs) (Boot.detect_and_install E parts_before after).
Proof.
  unfold Boot.detect_and_install. repeat stays_step. all: stays_cmd.
Qed.

Lemma stays_create_boot E (device : string) :
  stays (runs_one_of boot_programs) (Boot.create_boot_partition_if_missing E device).
Proof.
  unfold Boot.create_boot_partition_if_missing.
  apply stays_bind; [apply stays_create_and_rescan|intros ?; apply stays_detect_and_install].
Qed.

Lemma stays_mount_loop {R} E (parts : list BlockDevice) (boot_uuid : option string) :
  stays (runs_one_of chroot_programs) (mount_boot_and_efi (R := R) E parts boot_uuid).
Proof.
  apply stays_mount_boot_and_efi.
  - intros dev. stays_cmd.
  - intros cmd Hcmd. unfold runs_one_of. rewrite Hcmd. stays_cmd.
  - intros cmd Hcmd. unfold runs_one_of. rewrite Hcmd. stays_cmd.
Qed.

Lemma stays_pyrus_integration {R} E (device keyfile : string) :
  stays (runs_one_of chroot_programs)
    (Pyrus.system_integration (R := R) E device keyfile).
Proof.
  unfold Pyrus.system_integration.
  repeat first [apply stays_mount_loop | stays_step]. all: stays_cmd.
Qed.

Lemma stays_boot_integration {R} E (step_no num_steps : nat) (device keyfile : string) :
  stays (runs_one_of chroot_programs)
    (Boot.system_integration (R := R) E step_no num_steps device keyfile).
Proof.
  unfold Boot.system_integration.
  repeat first [apply stays_mount_loop | stays_step]. all: stays_cmd.
Qed.

Lemma allowed_core run_boot run_chroot cmd :
  runs_one_of core_programs cmd -> runs_one_of (allowed_programs run_boot run_chroot) cmd.
Proof.
  unfold runs_one_of, allowed_programs. intros H. apply elem_of_app. by left.
Qed.

Lemma allowed_boot run_chroot cmd :
  runs_one_of boot_programs cmd -> runs_one_of (allowed_programs true run_chroot) cmd.
Proof.
  unfold runs_one_of, allowed_programs. intros H.
  apply elem_of_app. right. apply elem_of_app. by left.
Qed.

Lemma allowed_chroot run_boot cmd :
  runs_one_of chroot_programs cmd -> runs_one_of (allowed_programs run_boot true) cmd.
Proof.
  unfold runs_one_of, allowed_programs. intros H.
  apply elem_of_app. right. apply elem_of_app. by right.
Qed.

Lemma stays_pyrus_steps {R} E (device reduce_size : string)
    (run_fsck run_minimize run_chroot : bool) (keyfile : string) :
  stays (runs_one_of (allowed_programs false run_chroot))
    (Pyrus.steps (R := R) E device reduce_size run_fsck run_minimize run_chroot keyfile).
Proof.
  unfold Pyrus.steps.
  repeat first
    [ apply (stays_weaken _ _ _ (allowed_chroot false)), stays_pyrus_integration
    | stays_step ].
  all: apply allowed_core; stays_cmd.
Qed.

Lemma stays_boot_steps {R} E (device reduce_size : string)
    (run_fsck run_minimize run_boot run_chroot : bool) (keyfile : string) :
  stays (runs_one_of (allowed_programs run_boot run_chroot))
    (Boot.steps (R := R) E device reduce_size run_fsck run_minimize run_boot
       run_chroot keyfile).
Proof.
  unfold Boot.steps.
  repeat first
    [ apply (stays_weaken _ _ _ (allowed_chroot _)), stays_boot_integration
    | apply (stays_weaken _ _ _ (allowed_boot _)), stays_create_boot
    | stays_step ].
  all: apply allowed_core; stays_cmd.
Qed.

Section KeyfileFrame.
Context (C : list string -> Prop) (E : env).
Context (body : string -> M unit unit) (handler : exn -> M unit unit).
Hypothesis Hbody : forall k, stays C (body k).
Hypothesis Hhandler : forall e, stays C (handler e).

Lemma guarded_stays (created : res unit string) :
  stays C (try_except (resume created body) handler).
Proof.
  apply stays_try_except; [|exact Hhandler]. by apply stays_resume.
Qed.

Lemma with_keyfile_state (s : state) :
  exists created s1 s2,
    write_keyfile E (R := unit) s = (created, s1)
    /\ within C s1 s2
    /\ snd (with_keyfile E body handler s)
       = with_files
           (unlinked (match created with Val name => Some name | _ => None end)
              (files s2)) s2.
Proof.
  unfold with_keyfile.
  destruct (write_keyfile E (R := unit) s) as [created s1] eqn:Hw.
  exists created, s1.
  pose proof (guarded_stays created s1) as Hin.
  unfold try_finally, remove_keyfile.
  destruct (try_except (resume created body) handler s1) as [r s2].
  exists s2. split; [reflexivity|split; [exact Hin|reflexivity]].
Qed.

Lemma with_keyfile_trace (s : state) :
  exists evs,
    trace (snd (with_keyfile E body handler s)) = trace s ++ evs
    /\ Forall (fun e => C (cmd_of e)) evs.
Proof.
  destruct (with_keyfile_state s) as (created & s1 & s2 & Hw & (_ & evs & Ht & Hc) & ->).
  exists evs. split; [|exact Hc].
  change (trace s2 = trace s ++ evs). rewrite Ht. f_equal.
  unfold write_keyfile in Hw.
  destruct (NamedTemporaryFile E); by injection Hw as _ <-.
Qed.

Lemma with_keyfile_files (s : state) (name : string) :
  NamedTemporaryFile E = Written name -> name <> "" ->
  files (snd (with_keyfile E body handler s)) = files s ∖ {[name]}.
Proof.
  intros Hkey Hname.
  destruct (with_keyfile_state s) as (created & s1 & s2 & Hw & (Hf & _) & ->).
  unfold write_keyfile in Hw. rewrite Hkey in Hw. injection Hw as <- <-.
  change (unlinked (Some name) (files s2) = files s ∖ {[name]}).
  rewrite Hf. change (files (with_files _ s)) with ({[name]} ∪ files s).
  unfold unlinked.
  rewrite (bool_decide_eq_false_2 _ Hname), bool_decide_eq_true_2
    by (apply elem_of_union; left; by apply elem_of_singleton).
  cbn [negb andb]. apply set_eq. intros x.
  rewrite !elem_of_difference, elem_of_union. tauto.
Qed.

End KeyfileFrame.

(** ** The front ends, with any choice of stages *)

(** X9. Whatever stages are chosen, a run of [pyrus.py] or of
    [Tpyrus.py] starts only the programs of the reencryption ([e2fsck],
    [resize2fs], [cryptsetup]) and, when the system integration is
    enabled, those of the integration; it never starts [parted],
    [mkfs.ext4] or [umount]. *)
Theorem pyrus_starts_only_its_programs
    (E : env) (device password reduce_size : string)
    (run_fsck run_minimize run_chroot : bool) (run : M unit unit) (s0 : state) :
  run ∈ [Pyrus._worker E device password reduce_size run_fsck run_minimize run_chroot;
         Pyrus.main E device password reduce_size run_fsck run_minimize run_chroot] ->
  exists evs,
    trace (snd (run s0)) = trace s0 ++ evs
    /\ Forall (fun e => program e ∈ allowed_programs false run_chroot) evs
    /\ Forall (fun e => program e ∉ ["parted"; "mkfs.ext4"; "umount"]) evs.
Proof.
  intros Hrun.
  assert (Hevs : exists evs,
             trace (snd (run s0)) = trace s0 ++ evs
             /\ Forall (fun e => runs_one_of (allowed_programs false run_chroot)
                                   (cmd_of e)) evs).
  { rewrite !elem_of_cons, elem_of_nil in Hrun. destruct Hrun as [->|[->|[]]].
    - apply with_keyfile_trace; [intros k; apply stays_pyrus_steps|].
      intros [rc cmd|what|code]; apply stays_log.
    - apply with_keyfile_trace; [intros k; apply stays_pyrus_steps|].
      intros [rc cmd|what|code];
        unfold Pyrus.on_command_failure, Pyrus.on_unexpected; repeat stays_step. }
  destruct Hevs as (evs & Ht & Hc). exists evs. split; [exact Ht|]. split; [exact Hc|].
  eapply Forall_impl; [exact Hc|]. intros e. unfold runs_one_of, program.
  generalize (hd "" (cmd_of e)). intros prog Hin Hbad. revert Hin.
  rewrite !elem_of_cons, elem_of_nil in Hbad.
  destruct Hbad as [->|[->|[->|[]]]]; destruct run_chroot;
    apply (bool_decide_eq_false_1 (_ ∈ _)); reflexivity.
Qed.

Lemma pyrus_starts_only_its_programs_witness :
  exists evs,
    trace (snd (Pyrus.main Scenario.all_succeed "/dev/sda1" "hunter2" "32M"
                  true false true initial)) = trace initial ++ evs
    /\ Forall (fun e => program e ∈ allowed_programs false true) evs
    /\ Forall (fun e => program e ∉ ["parted"; "mkfs.ext4"; "umount"]) evs.
Proof.
  apply (pyrus_starts_only_its_programs Scenario.all_succeed "/dev/sda1" "hunter2"
           "32M" true false true).
  apply list_elem_of_further, list_elem_of_here.
Defined.

Lemma enabled_fsck run_minimize run_boot run_chroot :
  "e2fsck" ∈ enabled_programs true run_minimize run_boot run_chroot.
Proof. unfold enabled_programs. apply elem_of_app. left. apply list_elem_of_here. Qed.

Lemma enabled_minimize run_fsck run_boot run_chroot :
  "resize2fs" ∈ enabled_programs run_fsck true run_boot run_chroot.
Proof.
  unfold enabled_programs. apply elem_of_app. right. apply elem_of_app. left.
  apply list_elem_of_here.
Qed.

Lemma enabled_cryptsetup run_fsck run_minimize run_boot run_chroot :
  "cryptsetup" ∈ enabled_programs run_fsck run_minimize run_boot run_chroot.
Proof.
  unfold enabled_programs. apply elem_of_app. right. apply elem_of_app. right.
  apply list_elem_of_here.
Qed.

Lemma enabled_boot run_fsck run_minimize run_chroot cmd :
  runs_one_of boot_programs cmd ->
  runs_one_of (enabled_programs run_fsck run_minimize true run_chroot) cmd.
Proof.
  unfold runs_one_of, enabled_programs. intros H.
  apply elem_of_app. right. apply elem_of_app. right.
  apply list_elem_of_further, elem_of_app. by left.
Qed.

Lemma enabled_chroot run_fsck run_minimize run_boot cmd :
  runs_one_of chroot_programs cmd ->
  runs_one_of (enabled_programs run_fsck run_minimize run_boot true) cmd.
Proof.
  unfold runs_one_of, enabled_programs. intros H.
  apply elem_of_app. right. apply elem_of_app. right.
  apply list_elem_of_further, elem_of_app. by right.
Qed.

Lemma stays_enabled_steps {R} E (device reduce_size : string)
    (run_fsck run_minimize run_boot run_chroot : bool) (keyfile : string) :
  stays (runs_one_of (enabled_programs run_fsck run_minimize run_boot run_chroot))
    (Boot.steps (R := R) E device reduce_size run_fsck run_minimize run_boot
       run_chroot keyfile).
Proof.
  unfold Boot.steps.
  repeat first
    [ apply (stays_weaken _ _ _ (enabled_chroot _ _ _)), stays_boot_integration
    | apply (stays_weaken _ _ _ (enabled_boot _ _ _)), stays_create_boot
    | stays_step ].
  all: unfold runs_one_of, reencrypt_cmd; cbn [hd].
  all: first [apply enabled_fsck | apply enabled_minimize | apply enabled_cryptsetup].
Qed.

(** X10. A run of [boot.py] starts only the programs of the stages that
    are enabled: [e2fsck] and [resize2fs] only with the integrity check,
    the minimal resize, the creation of the boot partition or the system
    integration, and [cryptsetup] alone when only the encryption is
    enabled.  Without the creation of the boot partition it never
    starts [parted], [mkfs.ext4], [partprobe] or [umount]: the partition
    table is left alone and nothing is formatted. *)
Theorem boot_starts_only_enabled_stages
    (E : env) (device password reduce_size : string)
    (run_fsck run_minimize run_boot run_chroot : bool) (s0 : state) :
  exists evs,
    trace (snd (Boot._worker E device password reduce_size run_fsck run_minimize
                  run_boot run_chroot s0)) = trace s0 ++ evs
    /\ Forall (fun e => program e
                        ∈ enabled_programs run_fsck run_minimize run_boot run_chroot)
         evs
    /\ (run_boot = false ->
        Forall (fun e => program e ∉ ["parted"; "mkfs.ext4"; "partprobe"; "umount"])
          evs).
Proof.
  destruct (with_keyfile_trace
              (runs_one_of (enabled_programs run_fsck run_minimize run_boot run_chroot))
              E
              (Boot.steps E device reduce_size run_fsck run_minimize run_boot run_chroot)
              (fun e => match e with
                        | CalledProcessError rc cmd => Pyrus.on_command_failure rc cmd
                        | _ => Pyrus.on_unexpected e
                        end)) with (s := s0) as (evs & Ht & Hc).
  - intros k. apply stays_enabled_steps.
  - intros [rc cmd|what|code]; apply stays_log.
  - exists evs. split; [exact Ht|]. split; [exact Hc|]. intros ->.
    eapply Forall_impl; [exact Hc|]. intros e. unfold runs_one_of, program.
    generalize (hd "" (cmd_of e)). intros prog Hin Hbad. revert Hin.
    rewrite !elem_of_cons, elem_of_nil in Hbad.
    destruct Hbad as [->|[->|[->|[->|[]]]]];
      destruct run_fsck, run_minimize, run_chroot;
      apply (bool_decide_eq_false_1 (_ ∈ _)); reflexivity.
Qed.

(** With the encryption alone, [cryptsetup] is the only program. *)
Lemma enabled_programs_encryption_only :
  enabled_programs false false false false = ["cryptsetup"].
Proof. reflexivity. Qed.

(** X11. When the key file is written, every front end, with any choice
    of stages and whatever the commands exit with, ends with the key
    file removed. *)
Theorem keyfile_removed_once_written
    (E : env) (device password reduce_size : string)
    (run_fsck run_minimize run_boot run_chroot : bool) (run : M unit unit)
    (name : string) (s0 : state) :
  run ∈ [Pyrus._worker E device password reduce_size run_fsck run_minimize run_chroot;
         Pyrus.main E device password reduce_size run_fsck run_minimize run_chroot;
         Boot._worker E device password reduce_size run_fsck run_minimize run_boot
           run_chroot] ->
  NamedTemporaryFile E = Written name -> name <> "" ->
  name ∉ files (snd (run s0)).
Proof.
  intros Hrun Hkey Hname.
  assert (Hfiles : files (snd (run s0)) = files s0 ∖ {[name]});
    [|rewrite Hfiles; apply not_elem_of_difference; right; by apply elem_of_singleton].
  rewrite !elem_of_cons, elem_of_nil in Hrun. destruct Hrun as [->|[->|[->|[]]]].
  - eapply (with_keyfile_files _ E); [|  |exact Hkey|exact Hname].
    + intros k. apply stays_pyrus_steps.
    + intros [rc cmd|what|code]; apply stays_log.
  - eapply (with_keyfile_files _ E); [|  |exact Hkey|exact Hname].
    + intros k. apply stays_pyrus_steps.
    + intros [rc cmd|what|code];
        unfold Pyrus.on_command_failure, Pyrus.on_unexpected; repeat stays_step.
  - eapply (with_keyfile_files _ E); [|  |exact Hkey|exact Hname].
    + intros k. apply stays_boot_steps.
    + intros [rc cmd|what|code]; apply stays_log.
Qed.

Lemma keyfile_removed_once_written_witness :
  Scenario.keyfile
  ∉ files (snd (Pyrus.main Scenario.fsck_fails "/dev/sda1" "hunter2" "32M"
                  true true true initial)).
Proof.
  apply (keyfile_removed_once_written Scenario.fsck_fails "/dev/sda1" "hunter2" "32M"
           true true false true _ Scenario.keyfile initial).
  - apply list_elem_of_further, list_elem_of_here.
  - reflexivity.
  - discriminate.
Defined.

(** ** The creation of the boot partition *)

Lemma stays_bind_post (C : list string -> Prop) {R A B} (m : M R A) (k : A -> M R B)
    (Post : res R A -> Prop) :
  ensures C m Post -> (forall a, Post (Val a) -> stays C (k a)) -> stays C (bind m k).
Proof.
  intros Hm Hk s. unfold bind. destruct (Hm s) as [Hin Hpost].
  destruct (m s) as [[a|r|e] s']; [|exact Hin..].
  eapply within_trans; [exact Hin|by apply Hk].
Qed.

Lemma ensures_list_block_devices (C : list string -> Prop) {R} E :
  C lsblk_cmd ->
  ensures C (list_block_devices (R := R) E)
    (fun r => exists tr, r = Val (inventory_at E tr)).
Proof.
  intros Hc s. split; [by apply stays_list_block_devices|].
  exists (trace s). unfold list_block_devices, inventory_at.
  by destruct (lsblk E (trace s)).
Qed.

Lemma filter_root_nonempty (parts : list BlockDevice) :
  has_root_partition parts ->
  filter (fun p => d_mountpoint p = Some "/" /\ d_type p = "part") parts <> [].
Proof.
  intros (p & Hin & Hmp & Hty) Hnil.
  assert (Hp : p ∈ filter (fun p => d_mountpoint p = Some "/" /\ d_type p = "part") parts)
    by (apply list_elem_of_filter; tauto).
  rewrite Hnil in Hp. by apply elem_of_nil in Hp.
Qed.

Lemma ensures_choose_shrink_target (C : list string -> Prop) {R} E (device : string) :
  C lsblk_cmd ->
  ensures C (Boot.choose_shrink_target (R := R) E device)
    (fun r => forall target,
       r = Val target ->
       exists tr, has_root_partition (inventory_at E tr) -> snd target = Some "/").
Proof.
  intros Hc s. split.
  - revert s. change (stays C (Boot.choose_shrink_target (R := R) E device)).
    unfold Boot.choose_shrink_target. repeat stays_step. exact Hc.
  - intros target Htarget. exists (trace s). intros Hroot.
    apply filter_root_nonempty in Hroot. revert Htarget.
    unfold Boot.choose_shrink_target, try_except, bind, list_block_devices.
    unfold inventory_at in Hroot.
    destruct (lsblk E (trace s)) as [blockdevices|]; [|done].
    destruct (filter _ (devices_of blockdevices)) as [|root rest]; [done|].
    destruct (negb (bool_decide (d_path root = device))); cbn; by intros [= <-].
Qed.

Lemma shrink_of_root_is_silent (C : list string -> Prop) E (base_disk dev_path : string) :
  stays C (Boot._shrink_partition_free_space E base_disk dev_path (Some "/")).
Proof.
  intros s.
  match goal with |- context [snd (?m ?s)] => by_wp m s end.
  unfold Boot._shrink_partition_free_space. simpl. wp_run_all.
  split; [reflexivity|]. exists []. split; [reflexivity|constructor].
Qed.

Ltac no_shrink_cmd :=
  unfold no_shrink, shrinks, Boot.parted_print, Boot.mkpart_cmd, lsblk_cmd;
  cbn [hd];
  let H := fresh in
  intros [H|[H|(? & ? & ? & H)]];
  [ discriminate H | discriminate H | unfold Boot.resizepart_cmd in H; discriminate H ].

Lemma quiet_detect_and_install E (parts_before after : list BlockDevice) :
  stays no_shrink (Boot.detect_and_install E parts_before after).
Proof.
  unfold Boot.detect_and_install. repeat stays_step.
  all: no_shrink_cmd.
Qed.

Lemma quiet_rescan_of_luks E (device : string) :
  (forall tr, device_is_luks device (inventory_at E tr) = true) ->
  stays no_shrink (Boot.create_and_rescan E device).
Proof.
  intros Hluks. unfold Boot.create_and_rescan.
  eapply stays_bind_post; [apply ensures_list_block_devices; no_shrink_cmd|].
  intros parts_before [tr [= ->]].
  specialize (Hluks tr). unfold device_is_luks in Hluks.
  apply stays_bind; [apply stays_log|intros _]. cbv zeta. rewrite Hluks. cbn [negb].
  unfold Boot.choose_shrink_target, Boot._get_table_type_and_last_part.
  repeat stays_step. all: no_shrink_cmd.
Qed.

Lemma quiet_rescan_of_root E (device : string) :
  (forall tr, has_root_partition (inventory_at E tr)) ->
  stays no_shrink (Boot.create_and_rescan E device).
Proof.
  intros Hroot. unfold Boot.create_and_rescan.
  apply stays_bind; [apply stays_list_block_devices; no_shrink_cmd|intros parts_before].
  apply stays_bind; [apply stays_log|intros _]. cbv zeta.
  apply stays_bind; [repeat stays_step|intros _].
  eapply stays_bind_post; [apply ensures_choose_shrink_target; no_shrink_cmd|].
  intros target Htarget. destruct (Htarget _ eq_refl) as [tr Hsnd].
  rewrite (Hsnd (Hroot tr)).
  unfold Boot._get_table_type_and_last_part.
  repeat first [apply shrink_of_root_is_silent | stays_step]. all: no_shrink_cmd.
Qed.

Lemma trace_of_stays (C : list string -> Prop) {R A} (m : M R A) (s : state) :
  stays C m ->
  exists evs, trace (snd (m s)) = trace s ++ evs /\ Forall (fun e => C (cmd_of e)) evs.
Proof. intros Hm. by destruct (Hm s) as [_ Hevs]. Qed.

(** X12. When the selected device is a LUKS container, the creation of
    the boot partition never calls the shrink planner: no integrity
    check, no resize of a filesystem and no resize of a partition is
    issued. *)
Theorem boot_creation_never_shrinks_luks (E : env) (device : string) (s0 : state) :
  (forall tr, device_is_luks device (inventory_at E tr) = true) ->
  exists evs,
    trace (snd (Boot.create_boot_partition_if_missing E device s0)) = trace s0 ++ evs
    /\ Forall (fun e => ~ shrinks (cmd_of e)) evs.
Proof.
  intros Hluks. apply (trace_of_stays no_shrink).
  unfold Boot.create_boot_partition_if_missing.
  apply stays_bind; [by apply quiet_rescan_of_luks|].
  intros ?. apply quiet_detect_and_install.
Qed.

Lemma boot_creation_never_shrinks_luks_witness :
  exists evs,
    trace (snd (Boot.create_boot_partition_if_missing
                  (Scenario.with_listing Scenario.two_partitions Scenario.luks_inventory)
                  "/dev/sda1" initial)) = trace initial ++ evs
    /\ Forall (fun e => ~ shrinks (cmd_of e)) evs.
Proof.
  apply (boot_creation_never_shrinks_luks
           (Scenario.with_listing Scenario.two_partitions Scenario.luks_inventory)
           "/dev/sda1" initial).
  intros tr. reflexivity.
Defined.

(** X13. When a partition is mounted at the root, the shrink planner is
    given that partition and refuses it: the creation of the boot
    partition issues no integrity check, no resize of a filesystem and
    no resize of a partition. *)
Theorem boot_creation_never_shrinks_live_root (E : env) (device : string) (s0 : state) :
  (forall tr, has_root_partition (inventory_at E tr)) ->
  exists evs,
    trace (snd (Boot.create_boot_partition_if_missing E device s0)) = trace s0 ++ evs
    /\ Forall (fun e => ~ shrinks (cmd_of e)) evs.
Proof.
  intros Hroot. apply (trace_of_stays no_shrink).
  unfold Boot.create_boot_partition_if_missing.
  apply stays_bind; [by apply quiet_rescan_of_root|].
  intros ?. apply quiet_detect_and_install.
Qed.

Lemma boot_creation_never_shrinks_live_root_witness :
  exists evs,
    trace (snd (Boot.create_boot_partition_if_missing Scenario.all_succeed
                  "/dev/sda1" initial)) = trace initial ++ evs
    /\ Forall (fun e => ~ shrinks (cmd_of e)) evs.
Proof.
  apply (boot_creation_never_shrinks_live_root Scenario.all_succeed "/dev/sda1" initial).
  intros tr.
  exists (Device "/dev/sda1" "part" (Some "20G") (Some "/") (Some "ext4")).
  split; [|split; reflexivity].
  change (inventory_at Scenario.all_succeed tr)
    with (devices_of Scenario.one_root_partition).
  let parts := eval vm_compute in (devices_of Scenario.one_root_partition) in
  change (devices_of Scenario.one_root_partition) with parts.
  apply list_elem_of_further, list_elem_of_here.
Defined.

Lemma never_val_bind_l {R A B} (m : M R A) (k : A -> M R B) :
  never_val m -> never_val (bind m k).
Proof.
  intros Hm s b. unfold bind. specialize (Hm s).
  destruct (m s) as [[a|r|e] s']; [by destruct (Hm a)|discriminate..].
Qed.

Lemma never_val_bind_r {R A B} (m : M R A) (k : A -> M R B) :
  (forall a, never_val (k a)) -> never_val (bind m k).
Proof.
  intros Hk s b. unfold bind.
  destruct (m s) as [[a|r|e] s']; [apply Hk|discriminate..].
Qed.

Lemma never_val_return {R A} (r : R) : never_val (return_ (A := A) r).
Proof. intros s a. discriminate. Qed.

Lemma snd_bind_never_val {R A B} (m : M R A) (k : A -> M R B) (s : state) :
  never_val m -> snd (bind m k s) = snd (m s).
Proof.
  intros Hm. unfold bind. specialize (Hm s).
  destruct (m s) as [[a|r|e] s']; [by destruct (Hm a)|reflexivity..].
Qed.

Lemma never_val_failing_command {R} E (cmd : list string)
    (handler : Z -> list string -> M R unit) :
  (forall tr o, popen E tr cmd <> Exited o 0) ->
  (forall rc c, never_val (handler rc c)) ->
  never_val (try_except_cpe (run_and_stream E cmd true;; ret tt) handler).
Proof.
  intros Hfails Hhandler s a.
  cbv beta iota delta [try_except_cpe try_except bind run_and_stream log_cb ret raise].
  destruct (popen E (trace (logged [Msg.prompt cmd] s)) cmd) as [lines rc|] eqn:Hp;
    [|discriminate].
  destruct (rc =? 0)%Z eqn:Hrc.
  - apply Z.eqb_eq in Hrc. subst rc. by destruct (Hfails _ _ Hp).
  - cbn [andb negb]. apply Hhandler.
Qed.

Lemma never_val_rescan E (device : string) :
  (forall tr o,
      popen E tr (Boot.mkpart_cmd (Boot._get_base_disk_from_device device))
      <> Exited o 0) ->
  never_val (Boot.create_and_rescan E device).
Proof.
  intros Hfails. unfold Boot.create_and_rescan.
  repeat first
    [ apply never_val_bind_l; apply never_val_failing_command; [exact Hfails|]
    | apply never_val_bind_r; intros ?; cbv zeta ].
  intros rc c. repeat (apply never_val_bind_r; intros ?). apply never_val_return.
Qed.

(** X14. When the table editor cannot create the partition ([mkpart]
    does not exit with zero, or cannot be started), the creation of the
    boot partition stops there: it returns early or raises, and nothing
    is formatted, copied or entered in [/etc/fstab]. *)
Theorem boot_creation_stops_when_mkpart_fails (E : env) (device : string) (s0 : state) :
  (forall tr o,
      popen E tr (Boot.mkpart_cmd (Boot._get_base_disk_from_device device))
      <> Exited o 0) ->
  let run := Boot.create_boot_partition_if_missing E device in
  (forall a, fst (run s0) <> Val a)
  /\ exists evs,
       trace (snd (run s0)) = trace s0 ++ evs
       /\ Forall (fun e => program e ∈ rescan_programs) evs
       /\ Forall (fun e => program e ∉ ["mkfs.ext4"; "bash"; "blkid"]) evs.
Proof.
  intros Hfails run. subst run. unfold Boot.create_boot_partition_if_missing.
  pose proof (never_val_rescan E device Hfails) as Hnever. split.
  - intros a. by apply never_val_bind_l.
  - rewrite snd_bind_never_val by exact Hnever.
    destruct (trace_of_stays _ _ s0 (stays_rescan E device)) as (evs & Ht & Hc).
    exists evs. split; [exact Ht|]. split; [exact Hc|].
    eapply Forall_impl; [exact Hc|]. intros e. unfold runs_one_of, program.
    generalize (hd "" (cmd_of e)). intros prog Hin Hbad. revert Hin.
    rewrite !elem_of_cons, elem_of_nil in Hbad.
    destruct Hbad as [->|[->|[->|[]]]];
      apply (bool_decide_eq_false_1 (_ ∈ _)); reflexivity.
Qed.

Lemma boot_creation_stops_when_mkpart_fails_witness :
  let run := Boot.create_boot_partition_if_missing Scenario.mkpart_fails "/dev/sda2" in
  (forall a, fst (run initial) <> Val a)
  /\ exists evs,
       trace (snd (run initial)) = trace initial ++ evs
       /\ Forall (fun e => program e ∈ rescan_programs) evs
       /\ Forall (fun e => program e ∉ ["mkfs.ext4"; "bash"; "blkid"]) evs.
Proof.
  apply (boot_creation_stops_when_mkpart_fails Scenario.mkpart_fails "/dev/sda2" initial).
  intros tr o. vm_compute. discriminate.
Defined.

(** ** A failing integrity check *)

Lemma failing_run_state {R} E (cmd : list string) (s : state) :
  (forall tr o, popen E tr cmd <> Exited o 0) ->
  (forall a, fst (run_and_stream (R := R) E cmd true s) <> Val a)
  /\ exists rc, trace (snd (run_and_stream (R := R) E cmd true s))
                = trace s ++ [Run cmd rc].
Proof.
  intros Hfails.
  cbv beta iota delta [bind run_and_stream log_cb].
  destruct (popen E (trace (logged [Msg.prompt cmd] s)) cmd) as [lines rc|] eqn:Hp.
  - destruct (rc =? 0)%Z eqn:Hrc.
    + apply Z.eqb_eq in Hrc. subst rc. by destruct (Hfails _ _ Hp).
    + cbn [andb negb]. split; [discriminate|]. by exists (Some rc).
  - split; [discriminate|]. by exists None.
Qed.

Lemma silent_trace {R A} (m : M R A) (s : state) :
  stays (fun _ => False) m -> trace (snd (m s)) = trace s.
Proof.
  intros Hm. destruct (Hm s) as (_ & evs & Ht & Hc).
  destruct evs as [|e evs]; [by rewrite app_nil_r in Ht|].
  by apply Forall_cons in Hc as [[] _].
Qed.

Lemma try_except_trace {R A} (body : M R A) (handler : exn -> M R A) (s : state) :
  (forall e, stays (fun _ => False) (handler e)) ->
  trace (snd (try_except body handler s)) = trace (snd (body s)).
Proof.
  intros Hh. unfold try_except.
  destruct (body s) as [[a|r|[rc cmd|what|code]] s']; try reflexivity.
  all: apply silent_trace, Hh.
Qed.

Lemma with_keyfile_written_trace E (body : string -> M unit unit)
    (handler : exn -> M unit unit) (name : string) (s : state) :
  NamedTemporaryFile E = Written name ->
  (forall e, stays (fun _ => False) (handler e)) ->
  trace (snd (with_keyfile E body handler s))
  = trace (snd (body name (with_files ({[name]} ∪ files s) s))).
Proof.
  intros Hkey Hh. unfold with_keyfile, write_keyfile. rewrite Hkey.
  unfold try_finally, remove_keyfile. cbn [resume].
  rewrite <- (try_except_trace (body name) handler _ Hh).
  by destruct (try_except (body name) handler _).
Qed.

Lemma never_val_failing_run {R} E (cmd : list string) :
  (forall tr o, popen E tr cmd <> Exited o 0) ->
  never_val (run_and_stream (R := R) E cmd true).
Proof. intros Hfails s a. by apply failing_run_state. Qed.

Lemma check_first_trace {R} E (device : string) (rest : M R unit) (text : string)
    (s : state) :
  (forall tr o, popen E tr (fsck_cmd device) <> Exited o 0) ->
  exists rc,
    trace (snd (((log_cb text;; run_and_stream E (fsck_cmd device) true;; ret tt);;
                 rest) s))
    = trace s ++ [Run (fsck_cmd device) rc].
Proof.
  intros Hfails.
  destruct (failing_run_state (R := R) E (fsck_cmd device) (logged [text] s) Hfails)
    as [_ [rc Hrc]].
  exists rc.
  rewrite snd_bind_never_val
    by (apply never_val_bind_r; intros _; apply never_val_bind_l;
        by apply never_val_failing_run).
  change (snd ((log_cb text;; run_and_stream E (fsck_cmd device) true;; ret tt) s))
    with (snd ((run_and_stream (R := R) E (fsck_cmd device) true;; ret tt)
                 (logged [text] s))).
  rewrite snd_bind_never_val by (by apply never_val_failing_run).
  exact Hrc.
Qed.

(** X15. When the integrity check is enabled and cannot succeed (it
    exits with a status other than zero or cannot be started), every
    front end, with any choice of the other stages, issues the
    integrity check and nothing else: no resize, no table edit, no
    encryption. *)
Theorem failed_check_stops_every_front_end
    (E : env) (device password reduce_size name : string)
    (run_minimize run_boot run_chroot : bool) (run : M unit unit) (s0 : state) :
  run ∈ [Pyrus._worker E device password reduce_size true run_minimize run_chroot;
         Pyrus.main E device password reduce_size true run_minimize run_chroot;
         Boot._worker E device password reduce_size true run_minimize run_boot
           run_chroot] ->
  NamedTemporaryFile E = Written name ->
  (forall tr o, popen E tr (fsck_cmd device) <> Exited o 0) ->
  exists rc, trace (snd (run s0)) = trace s0 ++ [Run (fsck_cmd device) rc].
Proof.
  intros Hrun Hkey Hfails.
  rewrite !elem_of_cons, elem_of_nil in Hrun. destruct Hrun as [->|[->|[->|[]]]].
  - unfold Pyrus._worker. rewrite (with_keyfile_written_trace E _ _ name _ Hkey).
    + edestruct (check_first_trace (R := unit) E device) as [rc Hrc];
        [exact Hfails|]; exists rc; exact Hrc.
    + intros [rc cmd|what|code]; apply stays_log.
  - unfold Pyrus.main. rewrite (with_keyfile_written_trace E _ _ name _ Hkey).
    + edestruct (check_first_trace (R := unit) E device) as [rc Hrc];
        [exact Hfails|]; exists rc; exact Hrc.
    + intros [rc cmd|what|code];
        unfold Pyrus.on_command_failure, Pyrus.on_unexpected; repeat stays_step.
  - unfold Boot._worker. rewrite (with_keyfile_written_trace E _ _ name _ Hkey).
    + edestruct (check_first_trace (R := unit) E device) as [rc Hrc];
        [exact Hfails|]; exists rc; exact Hrc.
    + intros [rc cmd|what|code]; apply stays_log.
Qed.

Lemma failed_check_stops_every_front_end_witness :
  exists rc,
    trace (snd (Boot._worker Scenario.fsck_fails "/dev/sda1" "hunter2" "32M"
                  true true true true initial))
    = trace initial ++ [Run (fsck_cmd "/dev/sda1") rc].
Proof.
  apply (failed_check_stops_every_front_end Scenario.fsck_fails "/dev/sda1" "hunter2"
           "32M" Scenario.keyfile true true true _ initial).
  - apply list_elem_of_further, list_elem_of_further, list_elem_of_here.
  - reflexivity.
  - intros tr o. vm_compute. discriminate.
Defined.

(** ** The questions of the terminal front end *)

Lemma span_snd_sublist (p : ascii -> bool) (l : list ascii) :
  forall c, c ∈ snd (Py.span p l) -> c ∈ l.
Proof.
  induction l as [|a l IH]; simpl; [done|].
  destruct (p a); [|done].
  destruct (Py.span p l) as [x y]. simpl in *.
  intros c Hc. by apply list_elem_of_further, IH.
Qed.

Lemma strip_chars (s : string) (c : ascii) :
  c ∈ Py.chars (Py.strip_numeral s) -> c ∈ Py.chars s.
Proof.
  unfold Py.strip_numeral, Py.lstrip_with, Py.rstrip_with. rewrite !chars_text.
  intros Hc. apply span_snd_sublist in Hc.
  apply list_elem_of_In, in_rev, list_elem_of_In in Hc.
  apply span_snd_sublist in Hc.
  by apply list_elem_of_In, in_rev, list_elem_of_In in Hc.
Qed.

Lemma digits_value_nonneg (ds : list ascii) : (0 <= Py.digits_value ds)%Z.
Proof.
  unfold Py.digits_value.
  assert (H : forall acc, (0 <= acc)%Z -> (0 <= fold_left Py.horner ds acc)%Z).
  { induction ds as [|d ds IH]; intros acc Hacc; [done|].
    simpl. apply IH. unfold Py.horner. lia. }
  by apply H.
Qed.

Lemma int_of_isdigit_nonneg (s : string) (n : Z) :
  Py.str_isdigit s = true -> Py.int s = Some n -> (0 <= n)%Z.
Proof.
  unfold Py.str_isdigit, Py.int. intros Hdigit.
  apply andb_true_iff in Hdigit as [_ Hall].
  rewrite forallb_forall in Hall.
  destruct (Py.chars (Py.strip_numeral s)) as [|c l] eqn:Hchars.
  - simpl. discriminate.
  - assert (Hc : Py.isdigit c = true).
    { apply Hall, list_elem_of_In, strip_chars. rewrite Hchars. apply list_elem_of_here. }
    unfold Py.split_sign.
    destruct (Ascii.eqb_spec c "-") as [->|_]; [discriminate Hc|].
    destruct (Ascii.eqb_spec c "+") as [->|_]; [discriminate Hc|].
    destruct (Py.digitpart (c :: l)) as [ds|]; [|discriminate].
    destruct (4300 <? length ds)%nat; [discriminate|].
    intros [= <-]. apply digits_value_nonneg.
Qed.

(** X16. The selection loop of [Tpyrus.py] never indexes the inventory
    out of range: it ends with the path of an entry of the inventory,
    the lines after the accepted one unread, or with the end of the
    input, or with the [ValueError] of a selection that [isdigit]
    accepts and [int] rejects. *)
Theorem choose_device_stays_in_range
    (devices : list BlockDevice) (answers : list string) :
  match Tpyrus.choose_device devices answers with
  | Tpyrus.Answered path rest =>
      path ∈ (d_path <$> devices) /\ rest `suffix_of` answers
  | Tpyrus.EndOfInput | Tpyrus.BadNumber => True
  | Tpyrus.OutOfRange => False
  end.
Proof.
  induction answers as [|answer rest IH]; [done|].
  cbn [Tpyrus.choose_device]. cbv zeta.
  assert (Hnext : match Tpyrus.choose_device devices rest with
                  | Tpyrus.Answered path rest' =>
                      path ∈ (d_path <$> devices) /\ rest' `suffix_of` answer :: rest
                  | Tpyrus.EndOfInput | Tpyrus.BadNumber => True
                  | Tpyrus.OutOfRange => False
                  end).
  { destruct (Tpyrus.choose_device devices rest) as [path rest'| | |]; try done.
    destruct IH as [Hpath Hsuffix]. split; [exact Hpath|by apply suffix_cons_r]. }
  destruct (Py.str_isdigit (Py.strip answer)) eqn:Hdigit; [|exact Hnext].
  destruct (Py.int (Py.strip answer)) as [n|] eqn:Hint; [|done].
  destruct (n <? Z.of_nat (length devices))%Z eqn:Hlt; [|exact Hnext].
  pose proof (int_of_isdigit_nonneg _ _ Hdigit Hint) as Hn.
  apply Z.ltb_lt in Hlt. unfold Py.index.
  rewrite (proj2 (Z.leb_le 0 n) Hn).
  destruct (lookup_lt_is_Some_2 devices (Z.to_nat n)) as [d Hd]; [lia|].
  rewrite Hd. split; [|by apply suffix_cons_r].
  apply list_elem_of_fmap. exists d. split; [reflexivity|].
  by apply list_elem_of_lookup_2 in Hd.
Qed.

(** X17. The password that the question loop of [Tpyrus.py] accepts is
    not empty and was typed twice in a row. *)
Theorem ask_password_accepts_confirmed (answers : list string) :
  match Tpyrus.ask_password answers with
  | Tpyrus.Answered password rest =>
      password <> ""
      /\ exists before, answers = before ++ password :: password :: rest
  | _ => True
  end.
Proof.
  revert answers. fix IH 1. intros [|p1 [|p2 rest]]; [done..|].
  cbn [Tpyrus.ask_password].
  assert (Hnext : match Tpyrus.ask_password rest with
                  | Tpyrus.Answered password rest' =>
                      password <> ""
                      /\ exists before,
                           p1 :: p2 :: rest = before ++ password :: password :: rest'
                  | _ => True
                  end).
  { specialize (IH rest).
    destruct (Tpyrus.ask_password rest) as [password rest'| | |]; try done.
    destruct IH as [Hne [before ->]]. split; [exact Hne|].
    by exists (p1 :: p2 :: before). }
  case_bool_decide as Hempty; [exact Hnext|].
  case_bool_decide as Hsame; [|exact Hnext].
  cbn [negb]. subst p2. split; [exact Hempty|]. by exists [].
Qed.

(** A selection that [isdigit] accepts and [int] rejects: the
    superscript two. *)
Lemma choose_device_superscript (devices : list BlockDevice) (rest : list string) :
  Tpyrus.choose_device devices (String (ascii_of_nat 178) "" :: rest)
  = Tpyrus.BadNumber.
Proof. reflexivity. Qed.

(** ** The device list of the windows *)

Lemma span_none (p : ascii -> bool) (l : list ascii) :
  match l with c :: _ => p c = false | [] => True end ->
  Py.span p l = ([], l).
Proof. destruct l as [|c l]; [done|]. simpl. by intros ->. Qed.

Lemma span_stops (p : ascii -> bool) (x y : list ascii) (c : ascii) :
  p c = false ->
  exists b, Py.span p (x ++ c :: y) = (fst (Py.span p (x ++ c :: y)), b ++ c :: y).
Proof.
  intros Hc. induction x as [|a x IH]; simpl.
  - rewrite Hc. by exists [].
  - destruct (p a).
    + destruct IH as [b IH]. destruct (Py.span p (x ++ c :: y)) as [u v].
      simpl in *. injection IH as ->. by exists b.
    + by exists (a :: x).
Qed.

Lemma rstrip_keeps_front (x y : list ascii) (c : ascii) :
  Py.isspace c = false ->
  exists y', Py.chars (Py.rstrip_with Py.isspace (Py.text (x ++ c :: y)))
             = x ++ c :: y'.
Proof.
  intros Hc. unfold Py.rstrip_with. rewrite !chars_text.
  rewrite rev_app_distr. cbn [rev]. rewrite <- app_assoc. cbn [app].
  destruct (span_stops Py.isspace (rev y) (rev x) c Hc) as [b Hspan].
  rewrite Hspan. cbn [snd]. rewrite rev_app_distr. cbn [rev].
  rewrite rev_involutive, <- app_assoc. cbn [app]. by exists (rev b).
Qed.

Lemma split_ws_word (word cur rest : list ascii) :
  Forall (fun c => Py.isspace c = false) word ->
  Py.split_ws_go cur (word ++ rest) = Py.split_ws_go (rev word ++ cur) rest.
Proof.
  intros Hword. revert cur. induction Hword as [|c word Hc _ IH]; intros cur; [done|].
  cbn [app Py.split_ws_go rev]. rewrite Hc, IH, <- app_assoc. reflexivity.
Qed.

(** X18. The device that [start] takes from an entry of the device list
    is the path of the device the entry was made for, when this path is
    not empty and holds no white space. *)
Theorem selected_device_of_label (d : BlockDevice) :
  d_path d <> "" ->
  Forall (fun c => Py.isspace c = false) (Py.chars (d_path d)) ->
  Gui.selected_device (Gui.label d) = Gui.Chosen (d_path d).
Proof.
  intros Hne Hword.
  set (tail := d_type d +:+ "]  " +:+ Gui.str_opt (d_size d)
               +:+ match Boot.truthy (d_mountpoint d) with
                   | Some mp => "  (montado en " +:+ mp +:+ ")"
                   | None => ""
                   end).
  assert (Hlabel : Gui.label d
                   = Py.text ((Py.chars (d_path d) ++ Py.chars "  ")
                              ++ "["%char :: Py.chars tail)).
  { unfold Gui.label. fold tail. rewrite <- (text_chars (_ +:+ _)).
    f_equal. rewrite chars_app. change ("  [" +:+ tail) with ("  " +:+ "[" +:+ tail).
    rewrite chars_app, (chars_app "[" tail), <- app_assoc. reflexivity. }
  destruct (rstrip_keeps_front (Py.chars (d_path d) ++ Py.chars "  ")
              (Py.chars tail) "[" eq_refl) as [tail' Hstrip].
  rewrite <- Hlabel in Hstrip.
  assert (Hchars : Py.chars (Py.strip (Gui.label d))
                   = Py.chars (d_path d) ++ Py.chars "  " ++ "["%char :: tail').
  { unfold Py.strip, Py.lstrip_with. rewrite chars_text, Hstrip, <- app_assoc.
    rewrite span_none; [reflexivity|].
    destruct (Py.chars (d_path d)) as [|c l] eqn:Hpath.
    - destruct Hne. by rewrite <- (text_chars (d_path d)), Hpath.
    - cbn [app]. by apply Forall_cons in Hword as [Hc _]. }
  unfold Gui.selected_device. cbv zeta.
  rewrite bool_decide_eq_false_2.
  - unfold Py.split_ws. rewrite Hchars, split_ws_word by exact Hword.
    rewrite app_nil_r. cbn [Py.chars list_ascii_of_string app Py.split_ws_go].
    change (Py.isspace " ") with true. cbv iota.
    destruct (rev (Py.chars (d_path d))) as [|c l] eqn:Hrev.
    + apply (f_equal (@rev ascii)) in Hrev. rewrite rev_involutive in Hrev.
      destruct Hne. by rewrite <- (text_chars (d_path d)), Hrev.
    + rewrite <- Hrev, rev_involutive, text_chars. reflexivity.
  - intros Hempty. apply (f_equal Py.chars) in Hempty. rewrite Hchars in Hempty.
    by destruct (Py.chars (d_path d)).
Qed.

Lemma selected_device_of_label_witness :
  let d := Device "/dev/sda1" "part" (Some "20G") (Some "/") (Some "ext4") in
  Gui.label d = "/dev/sda1  [part]  20G  (montado en /)"
  /\ Gui.selected_device (Gui.label d) = Gui.Chosen "/dev/sda1".
Proof.
  split; [reflexivity|].
  apply (selected_device_of_label
           (Device "/dev/sda1" "part" (Some "20G") (Some "/") (Some "ext4"))).
  - discriminate.
  - repeat constructor.
Defined.

(** ** Without a key file *)

Lemma with_keyfile_unwritten_trace E (body : string -> M unit unit)
    (handler : exn -> M unit unit) (s : state) :
  (forall name, NamedTemporaryFile E <> Written name) ->
  (forall e, stays (fun _ => False) (handler e)) ->
  trace (snd (with_keyfile E body handler s)) = trace s.
Proof.
  intros Hkey Hh. unfold with_keyfile, write_keyfile.
  destruct (NamedTemporaryFile E) as [|name|name]; [| |by destruct (Hkey name)].
  all: unfold try_finally, remove_keyfile; cbn [resume].
  all: match goal with
       | |- context [try_except ?b ?h ?s1] =>
           pose proof (try_except_trace b h s1 Hh) as Ht;
           destruct (try_except b h s1) as [r s2]
       end.
  all: exact Ht.
Qed.

(** X19. When the key file cannot be created or written, no front end
    issues any command, whatever stages are chosen: nothing is checked,
    resized or encrypted without the key file. *)
Theorem no_command_without_keyfile
    (E : env) (device password reduce_size : string)
    (run_fsck run_minimize run_boot run_chroot : bool) (run : M unit unit)
    (s0 : state) :
  run ∈ [Pyrus._worker E device password reduce_size run_fsck run_minimize run_chroot;
         Pyrus.main E device password reduce_size run_fsck run_minimize run_chroot;
         Boot._worker E device password reduce_size run_fsck run_minimize run_boot
           run_chroot] ->
  (forall name, NamedTemporaryFile E <> Written name) ->
  trace (snd (run s0)) = trace s0.
Proof.
  intros Hrun Hkey.
  rewrite !elem_of_cons, elem_of_nil in Hrun. destruct Hrun as [->|[->|[->|[]]]].
  - apply with_keyfile_unwritten_trace; [exact Hkey|].
    intros [rc cmd|what|code]; apply stays_log.
  - apply with_keyfile_unwritten_trace; [exact Hkey|].
    intros [rc cmd|what|code];
      unfold Pyrus.on_command_failure, Pyrus.on_unexpected; repeat stays_step.
  - apply with_keyfile_unwritten_trace; [exact Hkey|].
    intros [rc cmd|what|code]; apply stays_log.
Qed.

Lemma no_command_without_keyfile_witness :
  trace (snd (Pyrus._worker Scenario.key_write_fails "/dev/sda1" "hunter2" "32M"
                true true true initial)) = trace initial.
Proof.
  apply (no_command_without_keyfile Scenario.key_write_fails "/dev/sda1" "hunter2"
           "32M" true true false true).
  - apply list_elem_of_here.
  - intros name. discriminate.
Defined.

(** ** The bootloader in [boot.py] *)

Ltac no_bootloader_cmd :=
  unfold installs_bootloader, chroot_bash, Boot.resizepart_cmd, Boot.parted_print,
    Boot.mkpart_cmd, reencrypt_cmd, lsblk_cmd;
  let script := fresh "script" in
  let Hcmd := fresh "Hcmd" in
  let Hbad := fresh "Hbad" in
  intros (script & Hcmd & Hbad);
  first
    [ discriminate Hcmd
    | injection Hcmd as <-;
      destruct Hbad as [Hbad|Hbad];
      [ vm_compute in Hbad; discriminate Hbad
      | first [ discriminate Hbad
              | apply (f_equal (String.get 0)) in Hbad;
                vm_compute in Hbad; discriminate Hbad ] ] ].

Lemma quiet_mount_loop {R} E (parts : list BlockDevice) (boot_uuid : option string) :
  stays (fun cmd => ~ installs_bootloader cmd)
    (mount_boot_and_efi (R := R) E parts boot_uuid).
Proof.
  apply stays_mount_boot_and_efi.
  - intros dev. no_bootloader_cmd.
  - intros [|prog cmd] Hcmd; [discriminate|]. cbn [hd] in Hcmd. subst prog.
    no_bootloader_cmd.
  - intros [|prog cmd] Hcmd; [discriminate|]. cbn [hd] in Hcmd. subst prog.
    no_bootloader_cmd.
Qed.

Lemma quiet_boot_steps {R} E (device reduce_size : string)
    (run_fsck run_minimize run_boot run_chroot : bool) (keyfile : string) :
  stays (fun cmd => ~ installs_bootloader cmd)
    (Boot.steps (R := R) E device reduce_size run_fsck run_minimize run_boot
       run_chroot keyfile).
Proof.
  unfold Boot.steps, Boot.system_integration, Boot.create_boot_partition_if_missing,
    Boot.create_and_rescan, Boot.detect_and_install, Boot.choose_shrink_target,
    Boot._shrink_partition_free_space, Boot._get_table_type_and_last_part,
    Boot._get_partition_end_mib, Boot.int_of_float.
  repeat first [apply quiet_mount_loop | stays_step].
  all: no_bootloader_cmd.
Qed.

(** X20. A run of [boot.py] never installs the bootloader and never
    regenerates its configuration, whatever stages are chosen: no
    [grub-install] and no [update-grub] is started in the new root. *)
Theorem boot_never_installs_bootloader
    (E : env) (device password reduce_size : string)
    (run_fsck run_minimize run_boot run_chroot : bool) (s0 : state) :
  exists evs,
    trace (snd (Boot._worker E device password reduce_size run_fsck run_minimize
                  run_boot run_chroot s0)) = trace s0 ++ evs
    /\ Forall (fun e => ~ installs_bootloader (cmd_of e)) evs.
Proof.
  unfold Boot._worker.
  apply (with_keyfile_trace (fun cmd => ~ installs_bootloader cmd)).
  - intros k. apply quiet_boot_steps.
  - intros [rc cmd|what|code]; apply stays_log.
Qed.

(** In [pyrus.py] the integration ends with both commands. *)
Lemma pyrus_installs_bootloader :
  let s := snd (Pyrus._worker Scenario.all_succeed "/dev/sda1" "hunter2" "32M"
                  true true true initial) in
  cmd_of <$> drop (length (trace s) - 2) (trace s)
  = [chroot_bash "grub-install /dev/sda"; chroot_bash "update-grub"].
Proof. vm_compute. reflexivity. Qed.

(** ** A failing resize and a failing encryption *)

Lemma stays_bind_never (C : list string -> Prop) {R A B} (m : M R A) (k : A -> M R B) :
  stays C m -> never_val m -> stays C (bind m k).
Proof.
  intros Hm Hnever s. rewrite snd_bind_never_val by exact Hnever. apply Hm.
Qed.

Ltac failing_step Hfails :=
  apply stays_bind_never;
  [ repeat stays_step
  | apply never_val_bind_r; intros _; apply never_val_bind_l;
    apply never_val_failing_run; exact Hfails ].

Lemma stays_failing_run (C : list string -> Prop) {R B} E (cmd : list string)
    (k : Z -> M R B) :
  C cmd ->
  (forall tr o, popen E tr cmd <> Exited o 0) ->
  stays C (bind (run_and_stream E cmd true) k).
Proof.
  intros Hc Hfails. apply stays_bind_never; [by apply stays_run|].
  by apply never_val_failing_run.
Qed.

(** X21. When the minimal resize is enabled and does not exit with
    zero (or cannot be started), every front end, with any choice of
    the other stages, issues at most the integrity check and the
    minimal resize: the partition table is not edited and nothing is
    encrypted. *)
Theorem failed_resize_stops_every_front_end
    (E : env) (device password reduce_size : string)
    (run_fsck run_boot run_chroot : bool) (run : M unit unit) (s0 : state) :
  run ∈ [Pyrus._worker E device password reduce_size run_fsck true run_chroot;
         Pyrus.main E device password reduce_size run_fsck true run_chroot;
         Boot._worker E device password reduce_size run_fsck true run_boot
           run_chroot] ->
  (forall tr o, popen E tr (minimize_cmd device) <> Exited o 0) ->
  exists evs,
    trace (snd (run s0)) = trace s0 ++ evs
    /\ Forall (fun e => cmd_of e = fsck_cmd device \/ cmd_of e = minimize_cmd device)
         evs.
Proof.
  intros Hrun Hfails.
  set (C := fun cmd => cmd = fsck_cmd device \/ cmd = minimize_cmd device).
  assert (Hpyrus : forall k,
             stays C (Pyrus.steps (R := unit) E device reduce_size run_fsck true
                        run_chroot k)).
  { intros k. unfold Pyrus.steps. cbv iota.
    apply stays_bind; [repeat stays_step; by left|intros []].
    failing_step Hfails. by right. }
  assert (Hboot : forall k,
             stays C (Boot.steps (R := unit) E device reduce_size run_fsck true
                        run_boot run_chroot k)).
  { intros k. unfold Boot.steps. cbv zeta iota.
    apply stays_bind; [repeat stays_step; by left|intros []].
    failing_step Hfails. by right. }
  rewrite !elem_of_cons, elem_of_nil in Hrun. destruct Hrun as [->|[->|[->|[]]]].
  - apply (with_keyfile_trace C); [exact Hpyrus|].
    intros [rc cmd|what|code]; apply stays_log.
  - apply (with_keyfile_trace C); [exact Hpyrus|].
    intros [rc cmd|what|code];
      unfold Pyrus.on_command_failure, Pyrus.on_unexpected; repeat stays_step.
  - apply (with_keyfile_trace C); [exact Hboot|].
    intros [rc cmd|what|code]; apply stays_log.
Qed.

Lemma failed_resize_stops_every_front_end_witness :
  let E := Scenario.minimize_fails in
  exists evs,
    trace (snd (Pyrus.main E "/dev/sda1" "hunter2" "32M" true true true initial))
    = trace initial ++ evs
    /\ Forall (fun e => cmd_of e = fsck_cmd "/dev/sda1"
                        \/ cmd_of e = minimize_cmd "/dev/sda1") evs.
Proof.
  intros E.
  apply (failed_resize_stops_every_front_end E "/dev/sda1" "hunter2" "32M"
           true false true).
  - apply list_elem_of_further, list_elem_of_here.
  - intros tr o. vm_compute. discriminate.
Defined.

(** X22. When the in-place encryption does not exit with zero (or
    cannot be started), no front end goes on to the system
    integration, whatever stages are chosen: the device is never
    opened and nothing is run in a [chroot]. *)
Theorem failed_encryption_skips_integration
    (E : env) (device password reduce_size : string)
    (run_fsck run_minimize run_boot run_chroot : bool) (run : M unit unit)
    (s0 : state) :
  run ∈ [Pyrus._worker E device password reduce_size run_fsck run_minimize run_chroot;
         Pyrus.main E device password reduce_size run_fsck run_minimize run_chroot;
         Boot._worker E device password reduce_size run_fsck run_minimize run_boot
           run_chroot] ->
  (forall name tr o,
      popen E tr (reencrypt_cmd reduce_size name device) <> Exited o 0) ->
  exists evs,
    trace (snd (run s0)) = trace s0 ++ evs
    /\ Forall (fun e => program e <> "chroot"
                        /\ firstn 2 (cmd_of e) <> ["cryptsetup"; "open"]) evs.
Proof.
  intros Hrun Hfails.
  set (C := fun cmd => hd "" cmd <> "chroot"
                       /\ firstn 2 cmd <> ["cryptsetup"; "open"]).
  assert (Hreencrypt : forall k, C (reencrypt_cmd reduce_size k device))
    by (intros k; split; discriminate).
  assert (Hrescan : forall cmd, runs_one_of boot_programs cmd -> C cmd).
  { intros cmd Hin. unfold runs_one_of in Hin. split.
    - intros Hchroot. rewrite Hchroot in Hin. revert Hin.
      apply (bool_decide_eq_false_1 (_ ∈ _)). reflexivity.
    - intros Hopen. destruct cmd as [|prog [|arg cmd]]; try discriminate Hopen.
      injection Hopen as -> ->. revert Hin.
      apply (bool_decide_eq_false_1 (_ ∈ _)). reflexivity. }
  assert (Hpyrus : forall k,
             stays C (Pyrus.steps (R := unit) E device reduce_size run_fsck
                        run_minimize run_chroot k)).
  { intros k. unfold Pyrus.steps.
    apply stays_bind; [repeat stays_step; split; discriminate|intros []].
    apply stays_bind; [repeat stays_step; split; discriminate|intros []].
    apply stays_bind; [apply stays_log|intros []].
    apply stays_failing_run; [apply Hreencrypt|apply Hfails]. }
  assert (Hboot : forall k,
             stays C (Boot.steps (R := unit) E device reduce_size run_fsck
                        run_minimize run_boot run_chroot k)).
  { intros k. unfold Boot.steps. cbv zeta.
    apply stays_bind; [repeat stays_step; split; discriminate|intros []].
    apply stays_bind; [repeat stays_step; split; discriminate|intros []].
    apply stays_bind.
    { repeat first
        [ apply (stays_weaken _ _ _ Hrescan), stays_create_boot | stays_step ]. }
    intros []. apply stays_bind; [apply stays_log|intros []].
    apply stays_failing_run; [apply Hreencrypt|apply Hfails]. }
  rewrite !elem_of_cons, elem_of_nil in Hrun. destruct Hrun as [->|[->|[->|[]]]].
  - apply (with_keyfile_trace C); [exact Hpyrus|].
    intros [rc cmd|what|code]; apply stays_log.
  - apply (with_keyfile_trace C); [exact Hpyrus|].
    intros [rc cmd|what|code];
      unfold Pyrus.on_command_failure, Pyrus.on_unexpected; repeat stays_step.
  - apply (with_keyfile_trace C); [exact Hboot|].
    intros [rc cmd|what|code]; apply stays_log.
Qed.

Lemma failed_encryption_skips_integration_witness :
  let E := Scenario.encryption_fails in
  exists evs,
    trace (snd (Boot._worker E "/dev/sda1" "hunter2" "32M" true true true true
                  initial)) = trace initial ++ evs
    /\ Forall (fun e => program e <> "chroot"
                        /\ firstn 2 (cmd_of e) <> ["cryptsetup"; "open"]) evs.
Proof.
  intros E.
  apply (failed_encryption_skips_integration E "/dev/sda1" "hunter2" "32M"
           true true true true).
  - apply list_elem_of_further, list_elem_of_further, list_elem_of_here.
  - intros name tr o. vm_compute. discriminate.
Defined.
